(** * Online care hospital: scheduling and authorization core

    A shallow embedding of the storage schema of the repository
    (supabase/migrations/20251107081013_...sql: tables, constraints, the
    partial unique index, the row-level-security policies and the two
    trigger functions) and of the pages that talk to it
    (PatientDashboard.tsx, DoctorDashboard.tsx, Landing.tsx, Doctors.tsx,
    Navbar.tsx).

    Modelling conventions.
    - A table is the list of its rows, in storage order.
    - A NOT NULL column has a plain type, a nullable column an [option].
    - A text column restricted by a CHECK ... IN (...) constraint is the
      inductive type of the accepted texts.
    - A statement is issued either by the owner of the tables (the
      migration itself, a SECURITY DEFINER function, a role that bypasses
      row-level security), to whom no policy applies, or through the API
      with [auth.uid()] (NULL for an anonymous visitor), to whom the
      policies apply.
    - Before a statement of an API caller runs, the policies that apply to
      it are expanded into the query, sub-selects included; a sub-select is
      itself subject to the SELECT policies of the table it reads. If a
      table whose policies are being expanded comes up again, the
      statement fails with "infinite recursion detected in policy for
      relation ..." (SQLSTATE 42P17), whatever the rows are.
    - Once expanded, a policy expression is a boolean function of the
      database, [auth.uid()] and the row; an expression that evaluates to
      NULL does not pass, so NULL is collapsed to [false] (the policies
      use AND, OR and EXISTS only). The permissive policies of a table
      that apply to a command are combined with OR; a FOR ALL policy
      applies to every command and its USING expression doubles as its
      WITH CHECK expression.
    - A statement is one atomic step: it returns the new database or an
      error, and a failed statement changes nothing. *)

From Stdlib Require Import ZArith NArith List Bool String Lia.
From Stdlib Require Import Permutation Sorted.
Import ListNotations.
Open Scope bool_scope.
Open Scope string_scope.

(** ** Scalar types *)

Definition uuid := N.
Definition text := string.
(** [date]: day number; [time]: microseconds since midnight. *)
Definition date := Z.
Definition time := Z.
Definition timestamptz := Z.

(** role text CHECK (role IN ('patient', 'doctor', 'admin')); the same three
    texts are the ones accepted for [cancelled_by]. *)
Inductive role : Set := patient | doctor | admin.

(** status text CHECK (status IN ('pending', 'confirmed', 'rejected',
    'cancelled', 'completed')) *)
Inductive status : Set := pending | confirmed | rejected | cancelled | completed.

Definition role_eqb (a b : role) : bool :=
  match a, b with
  | patient, patient | doctor, doctor | admin, admin => true
  | _, _ => false
  end.

Definition status_eqb (a b : status) : bool :=
  match a, b with
  | pending, pending | confirmed, confirmed | rejected, rejected
  | cancelled, cancelled | completed, completed => true
  | _, _ => false
  end.

(** SQL [=] on nullable uuids, as used in a policy: NULL never passes. *)
Definition sql_eq (a b : option uuid) : bool :=
  match a, b with
  | Some x, Some y => N.eqb x y
  | _, _ => false
  end.

(** SQL [IS NOT DISTINCT FROM] on nullable uuids (used to tell whether an
    update changed a column). *)
Definition same_ref (a b : option uuid) : bool :=
  match a, b with
  | Some x, Some y => N.eqb x y
  | None, None => true
  | _, _ => false
  end.

(** SQL [=] between a nullable text-enum column and a literal. *)
Definition sql_eq_role (a : option role) (b : role) : bool :=
  match a with
  | Some x => role_eqb x b
  | None => false
  end.

(** SQL [=] between a nullable boolean column and a literal. *)
Definition sql_eq_bool (a : option bool) (b : bool) : bool :=
  match a with
  | Some x => Bool.eqb x b
  | None => false
  end.

(** ** Tables *)

Module Departments.
Record row : Type := mk {
  id : uuid;                          (* PRIMARY KEY *)
  name : text;                        (* UNIQUE NOT NULL *)
  description : option text;
  created_at : option timestamptz
}.
End Departments.

Module Profiles.
Record row : Type := mk {
  id : uuid;                          (* PRIMARY KEY REFERENCES auth.users *)
  full_name : text;                   (* NOT NULL *)
  phone : option text;
  role : role;                        (* NOT NULL CHECK (role IN ...) *)
  email_confirmed : option bool;      (* DEFAULT false *)
  created_at : option timestamptz
}.
End Profiles.

Module Doctors.
Record row : Type := mk {
  id : uuid;                          (* PRIMARY KEY *)
  profile_id : option uuid;           (* UNIQUE REFERENCES profiles(id) ON DELETE CASCADE *)
  department_id : option uuid;        (* REFERENCES departments(id) ON DELETE SET NULL *)
  specialty : option text;
  bio : option text;
  experience_years : option Z;
  photo_url : option text;
  created_at : option timestamptz
}.
End Doctors.

Module Availabilities.
Record row : Type := mk {
  id : uuid;                          (* PRIMARY KEY *)
  doctor_id : option uuid;            (* REFERENCES doctors(id) ON DELETE CASCADE *)
  weekday : Z;                        (* NOT NULL CHECK (weekday BETWEEN 0 AND 6) *)
  start_time : time;                  (* NOT NULL *)
  end_time : time;                    (* NOT NULL *)
  created_at : option timestamptz
}.
End Availabilities.

Module Appointments.
Record row : Type := mk {
  id : uuid;                          (* PRIMARY KEY *)
  patient_id : option uuid;           (* REFERENCES profiles(id) ON DELETE CASCADE *)
  doctor_id : option uuid;            (* REFERENCES doctors(id) ON DELETE CASCADE *)
  department_id : option uuid;        (* REFERENCES departments(id) *)
  appointment_date : date;            (* NOT NULL *)
  appointment_time : time;            (* NOT NULL *)
  created_at : option timestamptz;
  status : status;                    (* NOT NULL DEFAULT 'pending' CHECK (...) *)
  patient_note : option text;
  doctor_note : option text;
  cancelled_by : option role          (* CHECK (cancelled_by IN ...) *)
}.
End Appointments.

(** The database: the five tables of the public schema. *)
Record db : Type := mkdb {
  departments : list Departments.row;
  profiles : list Profiles.row;
  doctors : list Doctors.row;
  doctor_availabilities : list Availabilities.row;
  appointments : list Appointments.row
}.

Definition with_departments (l : list Departments.row) (d : db) : db :=
  mkdb l (profiles d) (doctors d) (doctor_availabilities d) (appointments d).
Definition with_profiles (l : list Profiles.row) (d : db) : db :=
  mkdb (departments d) l (doctors d) (doctor_availabilities d) (appointments d).
Definition with_doctors (l : list Doctors.row) (d : db) : db :=
  mkdb (departments d) (profiles d) l (doctor_availabilities d) (appointments d).
Definition with_doctor_availabilities (l : list Availabilities.row) (d : db) : db :=
  mkdb (departments d) (profiles d) (doctors d) l (appointments d).
Definition with_appointments (l : list Appointments.row) (d : db) : db :=
  mkdb (departments d) (profiles d) (doctors d) (doctor_availabilities d) l.
(** ** Row-level-security policies: what each expression says

    The value of each policy expression on a row, once the policy has
    been expanded into a statement; whether the expansion goes through is
    settled before any row is looked at ([policy_recursion] below). *)

Section Policies.
Variable d : db.
(** [auth.uid()] *)
Variable uid : option uuid.

(** EXISTS (SELECT 1 FROM profiles
            WHERE profiles.id = auth.uid() AND profiles.role = 'admin') *)
Definition is_admin : bool :=
  existsb (fun p => sql_eq (Some (Profiles.id p)) uid
                    && role_eqb (Profiles.role p) admin)
          (profiles d).

(** EXISTS (SELECT 1 FROM doctors
            WHERE doctors.profile_id = auth.uid()
            AND doctors.id = <doctor_id of the row>) *)
Definition is_doctor_of (doctor_id : option uuid) : bool :=
  existsb (fun x => sql_eq (Doctors.profile_id x) uid
                    && sql_eq (Some (Doctors.id x)) doctor_id)
          (doctors d).

(** *** departments *)

Definition departments_are_viewable_by_everyone (_ : Departments.row) : bool := true.
Definition admins_can_manage_departments (_ : Departments.row) : bool := is_admin.

(** *** profiles *)

Definition users_can_view_their_own_profile (r : Profiles.row) : bool :=
  sql_eq uid (Some (Profiles.id r)).
Definition admins_can_view_all_profiles (_ : Profiles.row) : bool := is_admin.
Definition users_can_update_their_own_profile_using (r : Profiles.row) : bool :=
  sql_eq uid (Some (Profiles.id r)).
Definition users_can_update_their_own_profile_check (r : Profiles.row) : bool :=
  sql_eq uid (Some (Profiles.id r)).
Definition users_can_insert_their_own_profile (r : Profiles.row) : bool :=
  sql_eq uid (Some (Profiles.id r)).

(** *** doctors *)

Definition doctors_are_viewable_by_everyone (_ : Doctors.row) : bool := true.
Definition admins_can_manage_doctors (_ : Doctors.row) : bool := is_admin.

(** *** doctor_availabilities *)

Definition availabilities_are_viewable_by_everyone (_ : Availabilities.row) : bool := true.

(** EXISTS (SELECT 1 FROM doctors JOIN profiles ON doctors.profile_id = profiles.id
            WHERE profiles.id = auth.uid()
            AND doctors.id = doctor_availabilities.doctor_id) *)
Definition doctors_can_manage_their_own_availability (r : Availabilities.row) : bool :=
  existsb (fun x =>
    existsb (fun p => sql_eq (Doctors.profile_id x) (Some (Profiles.id p))
                      && sql_eq (Some (Profiles.id p)) uid
                      && sql_eq (Some (Doctors.id x)) (Availabilities.doctor_id r))
            (profiles d))
    (doctors d).

Definition admins_can_manage_all_availabilities (_ : Availabilities.row) : bool := is_admin.

(** *** appointments *)

Definition patients_can_view_their_own_appointments (r : Appointments.row) : bool :=
  sql_eq uid (Appointments.patient_id r).

Definition doctors_can_view_their_appointments (r : Appointments.row) : bool :=
  is_doctor_of (Appointments.doctor_id r).

Definition admins_can_view_all_appointments (_ : Appointments.row) : bool := is_admin.

(** WITH CHECK (auth.uid() = patient_id
      AND EXISTS (SELECT 1 FROM profiles
                  WHERE profiles.id = auth.uid()
                  AND profiles.email_confirmed = true)) *)
Definition patients_can_create_appointments (r : Appointments.row) : bool :=
  sql_eq uid (Appointments.patient_id r)
  && existsb (fun p => sql_eq (Some (Profiles.id p)) uid
                       && sql_eq_bool (Profiles.email_confirmed p) true)
             (profiles d).

Definition patients_can_cancel_their_appointments_using (r : Appointments.row) : bool :=
  sql_eq uid (Appointments.patient_id r).

Definition patients_can_cancel_their_appointments_check (r : Appointments.row) : bool :=
  sql_eq uid (Appointments.patient_id r)
  && status_eqb (Appointments.status r) cancelled
  && sql_eq_role (Appointments.cancelled_by r) patient.

Definition doctors_can_update_their_appointment_status_using (r : Appointments.row) : bool :=
  is_doctor_of (Appointments.doctor_id r).

Definition doctors_can_update_their_appointment_status_check (r : Appointments.row) : bool :=
  is_doctor_of (Appointments.doctor_id r).

Definition admins_can_manage_all_appointments (_ : Appointments.row) : bool := is_admin.

(** *** What each command on each table is subject to *)

Definition departments_select (r : Departments.row) : bool :=
  departments_are_viewable_by_everyone r || admins_can_manage_departments r.
Definition departments_write (r : Departments.row) : bool :=
  admins_can_manage_departments r.

Definition profiles_select (r : Profiles.row) : bool :=
  users_can_view_their_own_profile r || admins_can_view_all_profiles r.
Definition profiles_insert_check (r : Profiles.row) : bool :=
  users_can_insert_their_own_profile r.
Definition profiles_update_using (r : Profiles.row) : bool :=
  users_can_update_their_own_profile_using r.
Definition profiles_update_check (r : Profiles.row) : bool :=
  users_can_update_their_own_profile_check r.
(** No policy covers DELETE on profiles: with row-level security enabled,
    no row qualifies. *)
Definition profiles_delete_using (_ : Profiles.row) : bool := false.

Definition doctors_select (r : Doctors.row) : bool :=
  doctors_are_viewable_by_everyone r || admins_can_manage_doctors r.
Definition doctors_write (r : Doctors.row) : bool :=
  admins_can_manage_doctors r.

Definition availabilities_select (r : Availabilities.row) : bool :=
  availabilities_are_viewable_by_everyone r
  || doctors_can_manage_their_own_availability r
  || admins_can_manage_all_availabilities r.
Definition availabilities_write (r : Availabilities.row) : bool :=
  doctors_can_manage_their_own_availability r
  || admins_can_manage_all_availabilities r.

Definition appointments_select (r : Appointments.row) : bool :=
  patients_can_view_their_own_appointments r
  || doctors_can_view_their_appointments r
  || admins_can_view_all_appointments r
  || admins_can_manage_all_appointments r.
Definition appointments_insert_check (r : Appointments.row) : bool :=
  patients_can_create_appointments r
  || admins_can_manage_all_appointments r.
Definition appointments_update_using (r : Appointments.row) : bool :=
  patients_can_cancel_their_appointments_using r
  || doctors_can_update_their_appointment_status_using r
  || admins_can_manage_all_appointments r.
Definition appointments_update_check (r : Appointments.row) : bool :=
  patients_can_cancel_their_appointments_check r
  || doctors_can_update_their_appointment_status_check r
  || admins_can_manage_all_appointments r.
Definition appointments_delete_using (r : Appointments.row) : bool :=
  admins_can_manage_all_appointments r.

End Policies.

(** ** Row-level-security policies: how they are expanded

    ALTER TABLE ... ENABLE ROW LEVEL SECURITY on all five tables. *)

Inductive table : Set :=
| tbl_departments | tbl_profiles | tbl_doctors | tbl_doctor_availabilities | tbl_appointments.

Inductive command : Set := SELECT | INSERT | UPDATE | DELETE.

Definition table_eqb (a b : table) : bool :=
  match a, b with
  | tbl_departments, tbl_departments | tbl_profiles, tbl_profiles
  | tbl_doctors, tbl_doctors | tbl_doctor_availabilities, tbl_doctor_availabilities
  | tbl_appointments, tbl_appointments => true
  | _, _ => false
  end.

Definition command_eqb (a b : command) : bool :=
  match a, b with
  | SELECT, SELECT | INSERT, INSERT | UPDATE, UPDATE | DELETE, DELETE => true
  | _, _ => false
  end.

Definition table_name (t : table) : string :=
  match t with
  | tbl_departments => "departments"
  | tbl_profiles => "profiles"
  | tbl_doctors => "doctors"
  | tbl_doctor_availabilities => "doctor_availabilities"
  | tbl_appointments => "appointments"
  end.

(** CREATE POLICY name ON on_table FOR for_command ...; [None] is FOR ALL.
    [sub_selects]: the tables in the FROM clauses of the sub-selects of its
    USING and WITH CHECK expressions. *)
Record policy : Set := mk_policy {
  policy_name : string;
  on_table : table;
  for_command : option command;
  sub_selects : list table
}.

(** The policies of the migration, in the order they are created. *)
Definition policies : list policy :=
  [ mk_policy "Departments are viewable by everyone" tbl_departments (Some SELECT) [];
    mk_policy "Admins can manage departments" tbl_departments None [tbl_profiles];
    mk_policy "Users can view their own profile" tbl_profiles (Some SELECT) [];
    mk_policy "Admins can view all profiles" tbl_profiles (Some SELECT) [tbl_profiles];
    mk_policy "Users can update their own profile" tbl_profiles (Some UPDATE) [];
    mk_policy "Users can insert their own profile" tbl_profiles (Some INSERT) [];
    mk_policy "Doctors are viewable by everyone" tbl_doctors (Some SELECT) [];
    mk_policy "Admins can manage doctors" tbl_doctors None [tbl_profiles];
    mk_policy "Availabilities are viewable by everyone" tbl_doctor_availabilities
              (Some SELECT) [];
    mk_policy "Doctors can manage their own availability" tbl_doctor_availabilities
              None [tbl_doctors; tbl_profiles];
    mk_policy "Admins can manage all availabilities" tbl_doctor_availabilities
              None [tbl_profiles];
    mk_policy "Patients can view their own appointments" tbl_appointments (Some SELECT) [];
    mk_policy "Doctors can view their appointments" tbl_appointments (Some SELECT)
              [tbl_doctors];
    mk_policy "Admins can view all appointments" tbl_appointments (Some SELECT)
              [tbl_profiles];
    mk_policy "Patients can create appointments" tbl_appointments (Some INSERT)
              [tbl_profiles];
    mk_policy "Patients can cancel their appointments" tbl_appointments (Some UPDATE) [];
    mk_policy "Doctors can update their appointment status" tbl_appointments (Some UPDATE)
              [tbl_doctors];
    mk_policy "Admins can manage all appointments" tbl_appointments None [tbl_profiles] ].

Definition applies_to (cmd : command) (p : policy) : bool :=
  match for_command p with
  | None => true
  | Some c => command_eqb c cmd
  end.

(** The policies of table [t] that apply to one of the commands [cmds]. *)
Definition policies_for (t : table) (cmds : list command) : list policy :=
  filter (fun p => table_eqb (on_table p) t && existsb (fun c => applies_to c p) cmds)
         policies.

Fixpoint first_some {A B : Type} (f : A -> option B) (l : list A) : option B :=
  match l with
  | [] => None
  | x :: l' =>
      match f x with
      | Some b => Some b
      | None => first_some f l'
      end
  end.

(** Expanding the policies of [t] for [cmds] while the policies of the
    tables [active] are being expanded. Policies without sub-selects need
    no further expansion. Otherwise [t] must not be under expansion
    already, and each sub-selected table is expanded in turn, as a SELECT.
    The result is the relation the error names, if any. The nesting is at
    most as deep as there are tables; [fuel] bounds it. *)
Fixpoint expand (fuel : nat) (active : list table) (t : table) (cmds : list command)
    : option table :=
  match fuel with
  | O => None
  | S fuel' =>
      match flat_map sub_selects (policies_for t cmds) with
      | [] => None
      | subs =>
          if existsb (table_eqb t) active then Some t
          else first_some (fun s => expand fuel' (t :: active) s [SELECT]) subs
      end
  end.

(** The commands whose policies apply to a statement: its own, and SELECT
    as well when the statement reads columns of the table (a WHERE clause,
    a SET expression over the row, a RETURNING clause). *)
Definition commands_of (cmd : command) (reads : bool) : list command :=
  if reads then [cmd; SELECT] else [cmd].

Definition policy_recursion (t : table) (cmd : command) (reads : bool) : option table :=
  expand 6 [] t (commands_of cmd reads).

(** ** Errors and results *)

Inductive error : Set :=
| infinite_recursion (relation : string)        (* 42P17, detected in policy for relation *)
| insufficient_privilege (table : string)       (* new row violates row-level security policy *)
| unique_violation (constraint : string)
| check_violation (constraint : string)
| foreign_key_violation (constraint : string).

Inductive result : Type :=
| Ok (d : db)
| Err (e : error).

(** The database after a statement: a failed statement is rolled back. *)
Definition after (d : db) (r : result) : db :=
  match r with
  | Ok d' => d'
  | Err _ => d
  end.

(** What a query of the client resolves to: [{ data, error }]. *)
Inductive response (A : Type) : Type :=
| Data (data : A)
| Error (e : error).
Arguments Data {A} data.
Arguments Error {A} e.

(** The error every policy of the migration that cannot be expanded ends
    in: the recursion is detected on profiles. *)
Definition recursion : error := infinite_recursion "profiles".

(** The error a writer gets when the slot is occupied. *)
Definition SlotTaken : error :=
  unique_violation "idx_appointments_no_double_booking".

(** ** Callers *)

Inductive caller : Set :=
| owner                      (* owner of the tables: row-level security is not applied *)
| api (uid : option uuid).   (* request through the API; [uid] is auth.uid() *)

(** The error the expansion of the policies ends in, if any. *)
Definition policy_error (c : caller) (t : table) (cmd : command) (reads : bool)
    : option error :=
  match c with
  | owner => None
  | api _ =>
      match policy_recursion t cmd reads with
      | Some rel => Some (infinite_recursion (table_name rel))
      | None => None
      end
  end.

(** Does the row pass the (OR-combined) policy expression? *)
Definition permits {R : Type} (c : caller) (policy : option uuid -> R -> bool) (r : R) : bool :=
  match c with
  | owner => true
  | api uid => policy uid r
  end.

(** The SELECT policies bear on the rows of an UPDATE or DELETE only when
    the statement reads columns. *)
Definition visible {R : Type} (c : caller) (reads : bool)
    (select : option uuid -> R -> bool) (r : R) : bool :=
  if reads then permits c select r else true.

(** A WHERE clause, if there is one. *)
Definition matches {R : Type} (where_ : option (R -> bool)) (r : R) : bool :=
  match where_ with
  | Some w => w r
  | None => true
  end.

Definition has_where {R : Type} (where_ : option (R -> bool)) : bool :=
  match where_ with
  | Some _ => true
  | None => false
  end.

(** ** Constraints *)

Definition has_id {A : Type} (id : A -> uuid) (k : uuid) (l : list A) : bool :=
  existsb (fun x => N.eqb (id x) k) l.

(** PRIMARY KEY: the keys of a table are pairwise distinct. *)
Fixpoint distinct_ids (ks : list uuid) : bool :=
  match ks with
  | [] => true
  | k :: ks' => negb (existsb (N.eqb k) ks') && distinct_ids ks'
  end.

(** REFERENCES: a non-NULL reference points to a row of the target. *)
Definition references {A : Type} (id : A -> uuid) (l : list A) (k : option uuid) : bool :=
  match k with
  | None => true
  | Some k => has_id id k l
  end.

(** A reference column is re-checked by an UPDATE only when it changed. *)
Definition kept_or_references {A : Type} (id : A -> uuid) (l : list A)
    (old new : option uuid) : bool :=
  same_ref old new || references id l new.

(** Is [k] a non-NULL reference to one of the rows [gone]? *)
Definition refers_to {A : Type} (id : A -> uuid) (gone : list A) (k : option uuid) : bool :=
  match k with
  | None => false
  | Some k => has_id id k gone
  end.

Definition update_rows {A : Type} (target : A -> bool) (set : A -> A) (l : list A) : list A :=
  map (fun r => if target r then set r else r) l.

(** CHECK (weekday BETWEEN 0 AND 6) *)
Definition weekday_check (r : Availabilities.row) : bool :=
  (0 <=? Availabilities.weekday r)%Z && (Availabilities.weekday r <=? 6)%Z.

(** WHERE status IN ('pending', 'confirmed') *)
Definition is_active (s : status) : bool :=
  status_eqb s pending || status_eqb s confirmed.

(** Equality of the index key (doctor_id, appointment_date, appointment_time);
    a NULL doctor_id is distinct from every key. *)
Definition same_slot (a b : Appointments.row) : bool :=
  sql_eq (Appointments.doctor_id a) (Appointments.doctor_id b)
  && Z.eqb (Appointments.appointment_date a) (Appointments.appointment_date b)
  && Z.eqb (Appointments.appointment_time a) (Appointments.appointment_time b).

(** Does the index already hold the key of [r]? *)
Definition slot_taken (r : Appointments.row) (l : list Appointments.row) : bool :=
  is_active (Appointments.status r)
  && existsb (fun x => is_active (Appointments.status x) && same_slot r x) l.

(** CREATE UNIQUE INDEX idx_appointments_no_double_booking
    ON appointments (doctor_id, appointment_date, appointment_time)
    WHERE status IN ('pending', 'confirmed') *)
Fixpoint idx_appointments_no_double_booking (l : list Appointments.row) : bool :=
  match l with
  | [] => true
  | r :: l' => negb (slot_taken r l') && idx_appointments_no_double_booking l'
  end.

(** UNIQUE on a nullable column: NULLs do not collide. *)
Fixpoint distinct_refs (ks : list (option uuid)) : bool :=
  match ks with
  | [] => true
  | k :: ks' => negb (existsb (sql_eq k) ks') && distinct_refs ks'
  end.

Fixpoint distinct_names (ns : list text) : bool :=
  match ns with
  | [] => true
  | n :: ns' => negb (existsb (String.eqb n) ns') && distinct_names ns'
  end.

(** ** Statements on appointments

    A statement first has its policies expanded ([policy_error]); an
    INSERT reads no column. On the tables other than profiles a SET
    clause is given by its effect on the row: the policies of their
    commands sub-select already, so that reading the row adds nothing to
    what is expanded. *)

Definition insert_appointment (c : caller) (r : Appointments.row) (d : db) : result :=
  match policy_error c tbl_appointments INSERT false with
  | Some e => Err e
  | None =>
  if negb (permits c (appointments_insert_check d) r) then
    Err (insufficient_privilege "appointments")
  else if has_id Appointments.id (Appointments.id r) (appointments d) then
    Err (unique_violation "appointments_pkey")
  else if slot_taken r (appointments d) then
    Err SlotTaken
  else if negb (references Profiles.id (profiles d) (Appointments.patient_id r)) then
    Err (foreign_key_violation "appointments_patient_id_fkey")
  else if negb (references Doctors.id (doctors d) (Appointments.doctor_id r)) then
    Err (foreign_key_violation "appointments_doctor_id_fkey")
  else if negb (references Departments.id (departments d) (Appointments.department_id r)) then
    Err (foreign_key_violation "appointments_department_id_fkey")
  else
    Ok (with_appointments (appointments d ++ [r]) d)
  end.

(** The rows an UPDATE touches: those matching the WHERE clause that the
    caller may read (when the statement reads) and may update; the others
    are skipped silently. *)
Definition appointments_update_target (d : db) (c : caller)
    (where_ : option (Appointments.row -> bool)) (r : Appointments.row) : bool :=
  matches where_ r && visible c (has_where where_) (appointments_select d) r
  && permits c (appointments_update_using d) r.

(** The keys and the index are checked on the table the statement leaves
    behind. *)
Definition update_appointments (c : caller)
    (where_ : option (Appointments.row -> bool)) (set : Appointments.row -> Appointments.row)
    (d : db) : result :=
  match policy_error c tbl_appointments UPDATE (has_where where_) with
  | Some e => Err e
  | None =>
  let target := appointments_update_target d c where_ in
  let rows' := update_rows target set (appointments d) in
  if existsb (fun r => target r
                       && negb (permits c (appointments_update_check d) (set r)
                                && visible c (has_where where_) (appointments_select d) (set r)))
             (appointments d) then
    Err (insufficient_privilege "appointments")
  else if negb (distinct_ids (map Appointments.id rows')) then
    Err (unique_violation "appointments_pkey")
  else if negb (idx_appointments_no_double_booking rows') then
    Err SlotTaken
  else if existsb (fun r => target r
                    && negb (kept_or_references Profiles.id (profiles d)
                               (Appointments.patient_id r) (Appointments.patient_id (set r))))
                  (appointments d) then
    Err (foreign_key_violation "appointments_patient_id_fkey")
  else if existsb (fun r => target r
                    && negb (kept_or_references Doctors.id (doctors d)
                               (Appointments.doctor_id r) (Appointments.doctor_id (set r))))
                  (appointments d) then
    Err (foreign_key_violation "appointments_doctor_id_fkey")
  else if existsb (fun r => target r
                    && negb (kept_or_references Departments.id (departments d)
                               (Appointments.department_id r) (Appointments.department_id (set r))))
                  (appointments d) then
    Err (foreign_key_violation "appointments_department_id_fkey")
  else
    Ok (with_appointments rows' d)
  end.

Definition appointments_delete_target (d : db) (c : caller)
    (where_ : option (Appointments.row -> bool)) (r : Appointments.row) : bool :=
  matches where_ r && visible c (has_where where_) (appointments_select d) r
  && permits c (appointments_delete_using d) r.

Definition delete_appointments (c : caller)
    (where_ : option (Appointments.row -> bool)) (d : db) : result :=
  match policy_error c tbl_appointments DELETE (has_where where_) with
  | Some e => Err e
  | None =>
    Ok (with_appointments
          (filter (fun r => negb (appointments_delete_target d c where_ r)) (appointments d))
          d)
  end.

(** SELECT ... FROM appointments WHERE ...: the matching rows the caller may
    read, in storage order. *)
Definition select_appointments (c : caller)
    (where_ : option (Appointments.row -> bool)) (d : db)
    : response (list Appointments.row) :=
  match policy_error c tbl_appointments SELECT true with
  | Some e => Error e
  | None =>
    Data (filter (fun r => matches where_ r && permits c (appointments_select d) r)
                 (appointments d))
  end.

(** ** Cascades *)

(** Deleting doctors takes their availabilities and appointments along
    (ON DELETE CASCADE on both doctor_id columns). *)
Definition remove_doctors (gone : Doctors.row -> bool) (d : db) : db :=
  let dead := filter gone (doctors d) in
  mkdb (departments d)
       (profiles d)
       (filter (fun x => negb (gone x)) (doctors d))
       (filter (fun a => negb (refers_to Doctors.id dead (Availabilities.doctor_id a)))
               (doctor_availabilities d))
       (filter (fun a => negb (refers_to Doctors.id dead (Appointments.doctor_id a)))
               (appointments d)).

(** Deleting profiles takes the doctors linked to them (and what hangs on
    those) and the appointments of these patients along. *)
Definition remove_profiles (gone : Profiles.row -> bool) (d : db) : db :=
  let dead := filter gone (profiles d) in
  let d1 := remove_doctors (fun x => refers_to Profiles.id dead (Doctors.profile_id x)) d in
  mkdb (departments d1)
       (filter (fun p => negb (gone p)) (profiles d1))
       (doctors d1)
       (doctor_availabilities d1)
       (filter (fun a => negb (refers_to Profiles.id dead (Appointments.patient_id a)))
               (appointments d1)).

(** ** Statements on profiles *)

Definition insert_profile (c : caller) (r : Profiles.row) (d : db) : result :=
  match policy_error c tbl_profiles INSERT false with
  | Some e => Err e
  | None =>
  if negb (permits c profiles_insert_check r) then
    Err (insufficient_privilege "profiles")
  else if has_id Profiles.id (Profiles.id r) (profiles d) then
    Err (unique_violation "profiles_pkey")
  else
    Ok (with_profiles (profiles d ++ [r]) d)
  end.

(** The constants an UPDATE ... SET assigns, column by column (the body of
    a PATCH request of the API); [None]: the column is not assigned. *)
Record profile_columns : Type := mk_profile_columns {
  new_id : option uuid;
  new_full_name : option text;
  new_phone : option (option text);
  new_role : option role;
  new_email_confirmed : option (option bool);
  new_created_at : option (option timestamptz)
}.

Definition assigned {A : Type} (new : option A) (old : A) : A :=
  match new with
  | Some x => x
  | None => old
  end.

Definition assign_columns (p : profile_columns) (r : Profiles.row) : Profiles.row :=
  Profiles.mk (assigned (new_id p) (Profiles.id r))
              (assigned (new_full_name p) (Profiles.full_name r))
              (assigned (new_phone p) (Profiles.phone r))
              (assigned (new_role p) (Profiles.role r))
              (assigned (new_email_confirmed p) (Profiles.email_confirmed r))
              (assigned (new_created_at p) (Profiles.created_at r)).

(** A SET clause on profiles: constants, or expressions over the row. *)
Inductive profiles_set : Type :=
| set_columns (p : profile_columns)
| set_computed (f : Profiles.row -> Profiles.row).

Definition assign (set : profiles_set) : Profiles.row -> Profiles.row :=
  match set with
  | set_columns p => assign_columns p
  | set_computed f => f
  end.

Definition set_reads (set : profiles_set) : bool :=
  match set with
  | set_columns _ => false
  | set_computed _ => true
  end.

Definition profiles_update_target (d : db) (c : caller) (reads : bool)
    (where_ : option (Profiles.row -> bool)) (r : Profiles.row) : bool :=
  matches where_ r && visible c reads (profiles_select d) r
  && permits c profiles_update_using r.

Definition update_profiles (c : caller)
    (where_ : option (Profiles.row -> bool)) (set : profiles_set)
    (d : db) : result :=
  let reads := has_where where_ || set_reads set in
  match policy_error c tbl_profiles UPDATE reads with
  | Some e => Err e
  | None =>
  let target := profiles_update_target d c reads where_ in
  let rows' := update_rows target (assign set) (profiles d) in
  if existsb (fun r => target r
                       && negb (permits c profiles_update_check (assign set r)
                                && visible c reads (profiles_select d) (assign set r)))
             (profiles d) then
    Err (insufficient_privilege "profiles")
  else if negb (distinct_ids (map Profiles.id rows')) then
    Err (unique_violation "profiles_pkey")
  else if existsb (fun r => target r
                    && negb (N.eqb (Profiles.id r) (Profiles.id (assign set r)))
                    && existsb (fun x => sql_eq (Doctors.profile_id x) (Some (Profiles.id r)))
                               (doctors d))
                  (profiles d) then
    Err (foreign_key_violation "doctors_profile_id_fkey")
  else if existsb (fun r => target r
                    && negb (N.eqb (Profiles.id r) (Profiles.id (assign set r)))
                    && existsb (fun a => sql_eq (Appointments.patient_id a) (Some (Profiles.id r)))
                               (appointments d))
                  (profiles d) then
    Err (foreign_key_violation "appointments_patient_id_fkey")
  else
    Ok (with_profiles rows' d)
  end.

Definition delete_profiles (c : caller)
    (where_ : option (Profiles.row -> bool)) (d : db) : result :=
  match policy_error c tbl_profiles DELETE (has_where where_) with
  | Some e => Err e
  | None =>
    Ok (remove_profiles
          (fun r => matches where_ r && visible c (has_where where_) (profiles_select d) r
                    && permits c (fun _ => profiles_delete_using) r) d)
  end.

(** ** Statements on doctors *)

Definition insert_doctor (c : caller) (r : Doctors.row) (d : db) : result :=
  match policy_error c tbl_doctors INSERT false with
  | Some e => Err e
  | None =>
  if negb (permits c (doctors_write d) r) then
    Err (insufficient_privilege "doctors")
  else if has_id Doctors.id (Doctors.id r) (doctors d) then
    Err (unique_violation "doctors_pkey")
  else if existsb (fun x => sql_eq (Doctors.profile_id r) (Doctors.profile_id x)) (doctors d) then
    Err (unique_violation "doctors_profile_id_key")
  else if negb (references Profiles.id (profiles d) (Doctors.profile_id r)) then
    Err (foreign_key_violation "doctors_profile_id_fkey")
  else if negb (references Departments.id (departments d) (Doctors.department_id r)) then
    Err (foreign_key_violation "doctors_department_id_fkey")
  else
    Ok (with_doctors (doctors d ++ [r]) d)
  end.

Definition doctors_update_target (d : db) (c : caller)
    (where_ : option (Doctors.row -> bool)) (r : Doctors.row) : bool :=
  matches where_ r && visible c (has_where where_) (doctors_select d) r
  && permits c (doctors_write d) r.

Definition update_doctors (c : caller)
    (where_ : option (Doctors.row -> bool)) (set : Doctors.row -> Doctors.row)
    (d : db) : result :=
  match policy_error c tbl_doctors UPDATE (has_where where_) with
  | Some e => Err e
  | None =>
  let target := doctors_update_target d c where_ in
  let rows' := update_rows target set (doctors d) in
  if existsb (fun r => target r
                       && negb (permits c (doctors_write d) (set r)
                                && visible c (has_where where_) (doctors_select d) (set r)))
             (doctors d) then
    Err (insufficient_privilege "doctors")
  else if negb (distinct_ids (map Doctors.id rows')) then
    Err (unique_violation "doctors_pkey")
  else if negb (distinct_refs (map Doctors.profile_id rows')) then
    Err (unique_violation "doctors_profile_id_key")
  else if existsb (fun r => target r
                    && negb (kept_or_references Profiles.id (profiles d)
                               (Doctors.profile_id r) (Doctors.profile_id (set r))))
                  (doctors d) then
    Err (foreign_key_violation "doctors_profile_id_fkey")
  else if existsb (fun r => target r
                    && negb (kept_or_references Departments.id (departments d)
                               (Doctors.department_id r) (Doctors.department_id (set r))))
                  (doctors d) then
    Err (foreign_key_violation "doctors_department_id_fkey")
  else if existsb (fun r => target r
                    && negb (N.eqb (Doctors.id r) (Doctors.id (set r)))
                    && existsb (fun a => sql_eq (Availabilities.doctor_id a) (Some (Doctors.id r)))
                               (doctor_availabilities d))
                  (doctors d) then
    Err (foreign_key_violation "doctor_availabilities_doctor_id_fkey")
  else if existsb (fun r => target r
                    && negb (N.eqb (Doctors.id r) (Doctors.id (set r)))
                    && existsb (fun a => sql_eq (Appointments.doctor_id a) (Some (Doctors.id r)))
                               (appointments d))
                  (doctors d) then
    Err (foreign_key_violation "appointments_doctor_id_fkey")
  else
    Ok (with_doctors rows' d)
  end.

Definition delete_doctors (c : caller)
    (where_ : option (Doctors.row -> bool)) (d : db) : result :=
  match policy_error c tbl_doctors DELETE (has_where where_) with
  | Some e => Err e
  | None =>
  Ok (remove_doctors
        (fun r => matches where_ r && visible c (has_where where_) (doctors_select d) r
                  && permits c (doctors_write d) r) d)
  end.

(** SELECT ... FROM doctors WHERE ... *)
Definition select_doctors (c : caller)
    (where_ : option (Doctors.row -> bool)) (d : db) : response (list Doctors.row) :=
  match policy_error c tbl_doctors SELECT true with
  | Some e => Error e
  | None =>
    Data (filter (fun r => matches where_ r && permits c (doctors_select d) r) (doctors d))
  end.

(** ** Statements on doctor_availabilities *)

Definition insert_availability (c : caller) (r : Availabilities.row) (d : db) : result :=
  match policy_error c tbl_doctor_availabilities INSERT false with
  | Some e => Err e
  | None =>
  if negb (permits c (availabilities_write d) r) then
    Err (insufficient_privilege "doctor_availabilities")
  else if negb (weekday_check r) then
    Err (check_violation "doctor_availabilities_weekday_check")
  else if has_id Availabilities.id (Availabilities.id r) (doctor_availabilities d) then
    Err (unique_violation "doctor_availabilities_pkey")
  else if negb (references Doctors.id (doctors d) (Availabilities.doctor_id r)) then
    Err (foreign_key_violation "doctor_availabilities_doctor_id_fkey")
  else
    Ok (with_doctor_availabilities (doctor_availabilities d ++ [r]) d)
  end.

Definition availabilities_update_target (d : db) (c : caller)
    (where_ : option (Availabilities.row -> bool)) (r : Availabilities.row) : bool :=
  matches where_ r && visible c (has_where where_) (availabilities_select d) r
  && permits c (availabilities_write d) r.

Definition update_availabilities (c : caller)
    (where_ : option (Availabilities.row -> bool)) (set : Availabilities.row -> Availabilities.row)
    (d : db) : result :=
  match policy_error c tbl_doctor_availabilities UPDATE (has_where where_) with
  | Some e => Err e
  | None =>
  let target := availabilities_update_target d c where_ in
  let rows' := update_rows target set (doctor_availabilities d) in
  if existsb (fun r => target r
                       && negb (permits c (availabilities_write d) (set r)
                                && visible c (has_where where_) (availabilities_select d) (set r)))
             (doctor_availabilities d) then
    Err (insufficient_privilege "doctor_availabilities")
  else if existsb (fun r => target r && negb (weekday_check (set r)))
                  (doctor_availabilities d) then
    Err (check_violation "doctor_availabilities_weekday_check")
  else if negb (distinct_ids (map Availabilities.id rows')) then
    Err (unique_violation "doctor_availabilities_pkey")
  else if existsb (fun r => target r
                    && negb (kept_or_references Doctors.id (doctors d)
                               (Availabilities.doctor_id r) (Availabilities.doctor_id (set r))))
                  (doctor_availabilities d) then
    Err (foreign_key_violation "doctor_availabilities_doctor_id_fkey")
  else
    Ok (with_doctor_availabilities rows' d)
  end.

Definition delete_availabilities (c : caller)
    (where_ : option (Availabilities.row -> bool)) (d : db) : result :=
  match policy_error c tbl_doctor_availabilities DELETE (has_where where_) with
  | Some e => Err e
  | None =>
  Ok (with_doctor_availabilities
        (filter (fun r => negb (matches where_ r
                                && visible c (has_where where_) (availabilities_select d) r
                                && permits c (availabilities_write d) r))
                (doctor_availabilities d))
        d)
  end.

(** ** Statements on departments *)

Definition insert_department (c : caller) (r : Departments.row) (d : db) : result :=
  match policy_error c tbl_departments INSERT false with
  | Some e => Err e
  | None =>
  if negb (permits c (departments_write d) r) then
    Err (insufficient_privilege "departments")
  else if has_id Departments.id (Departments.id r) (departments d) then
    Err (unique_violation "departments_pkey")
  else if existsb (fun x => String.eqb (Departments.name x) (Departments.name r))
                  (departments d) then
    Err (unique_violation "departments_name_key")
  else
    Ok (with_departments (departments d ++ [r]) d)
  end.

Definition departments_update_target (d : db) (c : caller)
    (where_ : option (Departments.row -> bool)) (r : Departments.row) : bool :=
  matches where_ r && visible c (has_where where_) (departments_select d) r
  && permits c (departments_write d) r.

Definition update_departments (c : caller)
    (where_ : option (Departments.row -> bool)) (set : Departments.row -> Departments.row)
    (d : db) : result :=
  match policy_error c tbl_departments UPDATE (has_where where_) with
  | Some e => Err e
  | None =>
  let target := departments_update_target d c where_ in
  let rows' := update_rows target set (departments d) in
  if existsb (fun r => target r
                       && negb (permits c (departments_write d) (set r)
                                && visible c (has_where where_) (departments_select d) (set r)))
             (departments d) then
    Err (insufficient_privilege "departments")
  else if negb (distinct_ids (map Departments.id rows')) then
    Err (unique_violation "departments_pkey")
  else if negb (distinct_names (map Departments.name rows')) then
    Err (unique_violation "departments_name_key")
  else if existsb (fun r => target r
                    && negb (N.eqb (Departments.id r) (Departments.id (set r)))
                    && existsb (fun x => sql_eq (Doctors.department_id x) (Some (Departments.id r)))
                               (doctors d))
                  (departments d) then
    Err (foreign_key_violation "doctors_department_id_fkey")
  else if existsb (fun r => target r
                    && negb (N.eqb (Departments.id r) (Departments.id (set r)))
                    && existsb (fun a => sql_eq (Appointments.department_id a)
                                                (Some (Departments.id r)))
                               (appointments d))
                  (departments d) then
    Err (foreign_key_violation "appointments_department_id_fkey")
  else
    Ok (with_departments rows' d)
  end.

Definition set_department_null (dead : list Departments.row) (x : Doctors.row) : Doctors.row :=
  if refers_to Departments.id dead (Doctors.department_id x) then
    Doctors.mk (Doctors.id x) (Doctors.profile_id x) None (Doctors.specialty x)
               (Doctors.bio x) (Doctors.experience_years x) (Doctors.photo_url x)
               (Doctors.created_at x)
  else x.

(** A department referenced by an appointment cannot be deleted (the
    reference has no ON DELETE action); doctors of a deleted department
    keep their row with department_id set to NULL. *)
Definition delete_departments (c : caller)
    (where_ : option (Departments.row -> bool)) (d : db) : result :=
  match policy_error c tbl_departments DELETE (has_where where_) with
  | Some e => Err e
  | None =>
  let gone := fun r => matches where_ r
                       && visible c (has_where where_) (departments_select d) r
                       && permits c (departments_write d) r in
  let dead := filter gone (departments d) in
  if existsb (fun a => refers_to Departments.id dead (Appointments.department_id a))
             (appointments d) then
    Err (foreign_key_violation "appointments_department_id_fkey")
  else
    Ok (mkdb (filter (fun r => negb (gone r)) (departments d))
             (profiles d)
             (map (set_department_null dead) (doctors d))
             (doctor_availabilities d)
             (appointments d))
  end.

(** SELECT ... FROM departments WHERE ... *)
Definition select_departments (c : caller)
    (where_ : option (Departments.row -> bool)) (d : db)
    : response (list Departments.row) :=
  match policy_error c tbl_departments SELECT true with
  | Some e => Error e
  | None =>
    Data (filter (fun r => matches where_ r && permits c (departments_select d) r)
                 (departments d))
  end.

(** ** Trigger functions on auth.users *)

(** The columns of an auth.users row the trigger functions read;
    [raw_user_meta_data] is a JSON object, read with [->>]. *)
Record auth_user : Type := mk_auth_user {
  au_id : uuid;
  raw_user_meta_data : list (string * string);
  email_confirmed_at : option timestamptz
}.

(** [obj ->> key] *)
Fixpoint json_text (key : string) (obj : list (string * string)) : option string :=
  match obj with
  | [] => None
  | (k, v) :: obj' => if String.eqb k key then Some v else json_text key obj'
  end.

Definition coalesce (a : option string) (b : string) : string :=
  match a with
  | Some x => x
  | None => b
  end.

(** The texts the role CHECK constraint accepts. *)
Definition role_of_text (s : string) : option role :=
  if String.eqb s "patient" then Some patient
  else if String.eqb s "doctor" then Some doctor
  else if String.eqb s "admin" then Some admin
  else None.

Definition is_not_null {A : Type} (a : option A) : bool :=
  match a with
  | Some _ => true
  | None => false
  end.

(** handle_new_user(), fired AFTER INSERT ON auth.users; [now] is the
    default of created_at. *)
Definition handle_new_user (NEW : auth_user) (now : timestamptz) (d : db) : result :=
  match role_of_text (coalesce (json_text "role" (raw_user_meta_data NEW)) "patient") with
  | None => Err (check_violation "profiles_role_check")
  | Some ro =>
      if has_id Profiles.id (au_id NEW) (profiles d) then
        Err (unique_violation "profiles_pkey")
      else
        Ok (with_profiles
              (profiles d ++
               [Profiles.mk (au_id NEW)
                            (coalesce (json_text "full_name" (raw_user_meta_data NEW)) "User")
                            (json_text "phone" (raw_user_meta_data NEW))
                            ro
                            (Some (is_not_null (email_confirmed_at NEW)))
                            (Some now)])
              d)
  end.

Definition set_email_confirmed (b : bool) (p : Profiles.row) : Profiles.row :=
  Profiles.mk (Profiles.id p) (Profiles.full_name p) (Profiles.phone p) (Profiles.role p)
              (Some b) (Profiles.created_at p).

(** update_profile_email_confirmed(), fired AFTER UPDATE OF
    email_confirmed_at ON auth.users. *)
Definition update_profile_email_confirmed (NEW : auth_user) (d : db) : result :=
  Ok (with_profiles
        (update_rows (fun p => N.eqb (Profiles.id p) (au_id NEW))
                     (set_email_confirmed (is_not_null (email_confirmed_at NEW)))
                     (profiles d))
        d).

(** Removal of an auth.users row: profiles.id REFERENCES auth.users
    ON DELETE CASCADE. *)
Definition auth_user_deleted (id : uuid) (d : db) : result :=
  Ok (remove_profiles (fun p => N.eqb (Profiles.id p) id) d).

(** ** The migration's initial contents *)

Definition sample_departments : list (text * text) :=
  [ ("Cardiology", "Heart and cardiovascular system care");
    ("Dermatology", "Skin, hair, and nail treatments");
    ("Orthopedics", "Bone, joint, and muscle care");
    ("Pediatrics", "Healthcare for children and adolescents");
    ("General Medicine", "Primary care and general health");
    ("Neurology", "Brain and nervous system care") ].

(** The database right after the migration; [ids] are the six keys drawn
    by gen_random_uuid(), pairwise distinct. *)
Definition migration (ids : list uuid) (now : timestamptz) : db :=
  mkdb (map (fun '(k, (n, ds)) => Departments.mk k n (Some ds) (Some now))
            (combine ids sample_departments))
       [] [] [] [].

(** ** Statements and reachable databases *)

Inductive stmt : Type :=
| InsertDepartment (c : caller) (r : Departments.row)
| UpdateDepartments (c : caller) (where_ : option (Departments.row -> bool))
                    (set : Departments.row -> Departments.row)
| DeleteDepartments (c : caller) (where_ : option (Departments.row -> bool))
| InsertProfile (c : caller) (r : Profiles.row)
| UpdateProfiles (c : caller) (where_ : option (Profiles.row -> bool))
                 (set : profiles_set)
| DeleteProfiles (c : caller) (where_ : option (Profiles.row -> bool))
| InsertDoctor (c : caller) (r : Doctors.row)
| UpdateDoctors (c : caller) (where_ : option (Doctors.row -> bool))
                (set : Doctors.row -> Doctors.row)
| DeleteDoctors (c : caller) (where_ : option (Doctors.row -> bool))
| InsertAvailability (c : caller) (r : Availabilities.row)
| UpdateAvailabilities (c : caller) (where_ : option (Availabilities.row -> bool))
                       (set : Availabilities.row -> Availabilities.row)
| DeleteAvailabilities (c : caller) (where_ : option (Availabilities.row -> bool))
| InsertAppointment (c : caller) (r : Appointments.row)
| UpdateAppointments (c : caller) (where_ : option (Appointments.row -> bool))
                     (set : Appointments.row -> Appointments.row)
| DeleteAppointments (c : caller) (where_ : option (Appointments.row -> bool))
| AuthUserCreated (NEW : auth_user) (now : timestamptz)
| AuthUserEmailConfirmed (NEW : auth_user)
| AuthUserDeleted (id : uuid).

Definition exec (s : stmt) (d : db) : result :=
  match s with
  | InsertDepartment c r => insert_department c r d
  | UpdateDepartments c w f => update_departments c w f d
  | DeleteDepartments c w => delete_departments c w d
  | InsertProfile c r => insert_profile c r d
  | UpdateProfiles c w f => update_profiles c w f d
  | DeleteProfiles c w => delete_profiles c w d
  | InsertDoctor c r => insert_doctor c r d
  | UpdateDoctors c w f => update_doctors c w f d
  | DeleteDoctors c w => delete_doctors c w d
  | InsertAvailability c r => insert_availability c r d
  | UpdateAvailabilities c w f => update_availabilities c w f d
  | DeleteAvailabilities c w => delete_availabilities c w d
  | InsertAppointment c r => insert_appointment c r d
  | UpdateAppointments c w f => update_appointments c w f d
  | DeleteAppointments c w => delete_appointments c w d
  | AuthUserCreated NEW now => handle_new_user NEW now d
  | AuthUserEmailConfirmed NEW => update_profile_email_confirmed NEW d
  | AuthUserDeleted id => auth_user_deleted id d
  end.

(** The databases the system can be in: the migration's, and whatever a
    successful statement makes of a reachable one. *)
Inductive reachable : db -> Prop :=
| reachable_migration ids now :
    distinct_ids ids = true -> reachable (migration ids now)
| reachable_exec d s d' :
    reachable d -> exec s d = Ok d' -> reachable d'.

(** Running statements one after the other, skipping none: [None] as soon
    as one fails. *)
Fixpoint run (ss : list stmt) (d : db) : option db :=
  match ss with
  | [] => Some d
  | s :: ss' =>
      match exec s d with
      | Ok d' => run ss' d'
      | Err _ => None
      end
  end.

(** Statements arriving one after the other, each rolled back when it
    fails. *)
Fixpoint play (ss : list stmt) (d : db) : db :=
  match ss with
  | [] => d
  | s :: ss' => play ss' (after d (exec s d))
  end.

(** ** The dashboards *)

(** .order('appointment_date', { ascending: true })
    .order('appointment_time', { ascending: true }) *)
Definition date_time_leb (a b : Appointments.row) : bool :=
  (Appointments.appointment_date a <? Appointments.appointment_date b)%Z
  || ((Appointments.appointment_date a =? Appointments.appointment_date b)%Z
      && (Appointments.appointment_time a <=? Appointments.appointment_time b)%Z).

Fixpoint insert_by_date_time (r : Appointments.row) (l : list Appointments.row)
    : list Appointments.row :=
  match l with
  | [] => [r]
  | x :: l' => if date_time_leb r x then r :: l else x :: insert_by_date_time r l'
  end.

Definition order_by_date_time (l : list Appointments.row) : list Appointments.row :=
  fold_right insert_by_date_time [] l.

Definition set_status (s : status) (r : Appointments.row) : Appointments.row :=
  Appointments.mk (Appointments.id r) (Appointments.patient_id r) (Appointments.doctor_id r)
                  (Appointments.department_id r) (Appointments.appointment_date r)
                  (Appointments.appointment_time r) (Appointments.created_at r)
                  s
                  (Appointments.patient_note r) (Appointments.doctor_note r)
                  (Appointments.cancelled_by r).

Definition set_cancelled_by (c : option role) (r : Appointments.row) : Appointments.row :=
  Appointments.mk (Appointments.id r) (Appointments.patient_id r) (Appointments.doctor_id r)
                  (Appointments.department_id r) (Appointments.appointment_date r)
                  (Appointments.appointment_time r) (Appointments.created_at r)
                  (Appointments.status r)
                  (Appointments.patient_note r) (Appointments.doctor_note r)
                  c.

Definition set_doctor_note (n : option text) (r : Appointments.row) : Appointments.row :=
  Appointments.mk (Appointments.id r) (Appointments.patient_id r) (Appointments.doctor_id r)
                  (Appointments.department_id r) (Appointments.appointment_date r)
                  (Appointments.appointment_time r) (Appointments.created_at r)
                  (Appointments.status r)
                  (Appointments.patient_note r) n
                  (Appointments.cancelled_by r).

(** The pages reach the database through the [supabase] client of
    src/integrations/supabase/client, which is not among the sources: the
    caller it stands for is a parameter, [client]. A toast is given by its
    description. *)

Module PatientDashboard.

(** fetchAppointments: the rows with patient_id = profile.id, ordered; the
    embedded doctors(...) and departments(name) are left joins and drop no
    row. The result is the [appointments] state of the page and the toast
    shown; on an error the state is left as it is. *)
Definition fetchAppointments (client : caller) (profile_id : uuid) (d : db)
    (appointments : list Appointments.row)
    : list Appointments.row * option string :=
  match select_appointments client
          (Some (fun r => sql_eq (Appointments.patient_id r) (Some profile_id))) d with
  | Data data => (order_by_date_time data, None)
  | Error _ => (appointments, Some "Failed to load appointments")
  end.

(** cancelAppointment: update({status: 'cancelled', cancelled_by: 'patient'})
    .eq('id', appointmentId) *)
Definition cancelAppointment (client : caller) (appointmentId : uuid) (d : db) : result :=
  update_appointments client
    (Some (fun r => N.eqb (Appointments.id r) appointmentId))
    (fun r => set_cancelled_by (Some patient) (set_status cancelled r))
    d.

(** The toast cancelAppointment ends with. *)
Definition cancelAppointment_toast (r : result) : string :=
  match r with
  | Ok _ => "Your appointment has been cancelled successfully"
  | Err _ => "Failed to cancel appointment"
  end.

Definition upcomingAppointments (l : list Appointments.row) : list Appointments.row :=
  filter (fun apt => status_eqb (Appointments.status apt) pending
                     || status_eqb (Appointments.status apt) confirmed) l.

Definition pastAppointments (l : list Appointments.row) : list Appointments.row :=
  filter (fun apt => status_eqb (Appointments.status apt) completed
                     || status_eqb (Appointments.status apt) rejected
                     || status_eqb (Appointments.status apt) cancelled) l.

(** The cancel button is rendered for the upcoming appointments whose
    status is 'pending'. *)
Definition cancel_button (apt : Appointments.row) : bool :=
  status_eqb (Appointments.status apt) pending.

End PatientDashboard.

Module DoctorDashboard.

Inductive action : Set := confirm | reject.

(** fetchDoctorId: nothing is asked without a profile;
    select('id').eq('profile_id', profile.id).single() gives the row when
    exactly one matches, and no data otherwise or on an error. The result
    is the [doctorId] state of the page. *)
Definition fetchDoctorId (client : caller) (profile : option Profiles.row) (d : db)
    (doctorId : option uuid) : option uuid :=
  match profile with
  | None => doctorId
  | Some p =>
      match select_doctors client
              (Some (fun x => sql_eq (Doctors.profile_id x) (Some (Profiles.id p)))) d with
      | Data [x] => Some (Doctors.id x)
      | _ => doctorId
      end
  end.

(** fetchAppointments: nothing is fetched without a doctorId. *)
Definition fetchAppointments (client : caller) (doctorId : option uuid) (d : db)
    (appointments : list Appointments.row)
    : list Appointments.row * option string :=
  match doctorId with
  | None => (appointments, None)
  | Some k =>
      match select_appointments client
              (Some (fun r => sql_eq (Appointments.doctor_id r) (Some k))) d with
      | Data data => (order_by_date_time data, None)
      | Error _ => (appointments, Some "Failed to load appointments")
      end
  end.

(** [doctorNote || null] *)
Definition note_or_null (doctorNote : string) : option text :=
  if String.eqb doctorNote "" then None else Some doctorNote.

(** handleAppointmentAction: returns at once unless an appointment and an
    action are selected. *)
Definition handleAppointmentAction (client : caller)
    (selectedAppointment : option Appointments.row) (actionDialog : option action)
    (doctorNote : string) (d : db) : result :=
  match selectedAppointment, actionDialog with
  | Some apt, Some a =>
      update_appointments client
        (Some (fun r => N.eqb (Appointments.id r) (Appointments.id apt)))
        (fun r => set_doctor_note (note_or_null doctorNote)
                    (set_status (match a with confirm => confirmed | reject => rejected end) r))
        d
  | _, _ => Ok d
  end.

(** The toast handleAppointmentAction ends with, when it got as far as the
    update. *)
Definition handleAppointmentAction_toast (actionDialog : action) (r : result) : string :=
  match r with
  | Ok _ =>
      match actionDialog with
      | confirm => "You have confirmed the appointment"
      | reject => "You have rejected the appointment"
      end
  | Err _ => "Failed to update appointment"
  end.

Definition pendingAppointments (l : list Appointments.row) : list Appointments.row :=
  filter (fun apt => status_eqb (Appointments.status apt) pending) l.

Definition confirmedAppointments (l : list Appointments.row) : list Appointments.row :=
  filter (fun apt => status_eqb (Appointments.status apt) confirmed) l.

Definition otherAppointments (l : list Appointments.row) : list Appointments.row :=
  filter (fun apt => negb (status_eqb (Appointments.status apt) pending)
                     && negb (status_eqb (Appointments.status apt) confirmed)) l.

End DoctorDashboard.

(** ** Notions the properties are stated with *)

(** Terminal states: rejected, cancelled, completed. *)
Definition is_terminal (s : status) : bool :=
  status_eqb s rejected || status_eqb s cancelled || status_eqb s completed.

(** Does the row occupy the slot of doctor [D] at ([dt], [tm])? *)
Definition occupies (D : uuid) (dt : date) (tm : time) (r : Appointments.row) : bool :=
  sql_eq (Appointments.doctor_id r) (Some D)
  && Z.eqb (Appointments.appointment_date r) dt
  && Z.eqb (Appointments.appointment_time r) tm
  && is_active (Appointments.status r).

(** The number of pending or confirmed appointments in a slot. *)
Definition occupants (D : uuid) (dt : date) (tm : time) (d : db) : nat :=
  List.length (filter (occupies D dt tm) (appointments d)).

(** The role of the caller: the role of the profile keyed by [auth.uid()]. *)
Definition caller_role (d : db) (uid : option uuid) : option role :=
  match uid with
  | None => None
  | Some u => option_map Profiles.role
                (find (fun p => N.eqb (Profiles.id p) u) (profiles d))
  end.

(** The caller's profile says the e-mail address is confirmed. *)
Definition caller_email_confirmed (d : db) (uid : option uuid) : bool :=
  existsb (fun p => sql_eq (Some (Profiles.id p)) uid
                    && sql_eq_bool (Profiles.email_confirmed p) true)
          (profiles d).

(** What every reachable database satisfies: the partial unique index,
    the primary key of profiles and the weekday CHECK constraint. *)
Record consistent (d : db) : Prop := mk_consistent {
  consistent_index : idx_appointments_no_double_booking (appointments d) = true;
  consistent_profiles : distinct_ids (map Profiles.id (profiles d)) = true;
  consistent_weekdays : forallb weekday_check (doctor_availabilities d) = true
}.

(** ** A sample database

    Reached from the migration by sign-ups and one statement of the owner
    of the tables: patient 1 (e-mail confirmed), doctor 2 with doctors row
    20 in department 101, admin 3 (e-mail not confirmed), patient 4 (e-mail
    confirmed), patient 5 (e-mail not confirmed). *)

Definition sample_script : list stmt :=
  [ AuthUserCreated (mk_auth_user 1%N [("full_name", "Pat")] None) 10%Z;
    AuthUserEmailConfirmed (mk_auth_user 1%N [("full_name", "Pat")] (Some 11%Z));
    AuthUserCreated (mk_auth_user 2%N [("full_name", "Doc"); ("role", "doctor")] (Some 12%Z)) 12%Z;
    AuthUserCreated (mk_auth_user 3%N [("full_name", "Root"); ("role", "admin")] None) 13%Z;
    InsertDoctor owner
      (Doctors.mk 20%N (Some 2%N) (Some 101%N) (Some "Cardiology") None (Some 7%Z) None (Some 14%Z));
    AuthUserCreated (mk_auth_user 4%N [("full_name", "Quinn"); ("role", "patient")] (Some 15%Z)) 15%Z;
    AuthUserCreated (mk_auth_user 5%N [] None) 16%Z ].

Definition sample_db : db :=
  Eval vm_compute in
    match run sample_script (migration [101; 102; 103; 104; 105; 106]%N 0%Z) with
    | Some d => d
    | None => migration [] 0%Z
    end.

(** An appointment of patient [p] with doctor 20 on day 9000 at 14:00. *)
Definition booking (k p : uuid) (s : status) : Appointments.row :=
  Appointments.mk k (Some p) (Some 20%N) (Some 101%N) 9000%Z 50400000000%Z (Some 20%Z)
                  s None None None.

(** The same database once the owner of the tables has stored appointment
    1000 of patient 1, then set it to confirmed, or to cancelled by the
    patient instead. *)
Definition booked_db : db :=
  Eval vm_compute in
    after sample_db (insert_appointment owner (booking 1000%N 1%N pending) sample_db).

Definition confirmed_db : db :=
  Eval vm_compute in
    after booked_db
      (DoctorDashboard.handleAppointmentAction owner
         (Some (booking 1000%N 1%N pending)) (Some DoctorDashboard.confirm) "" booked_db).

Definition cancelled_db : db :=
  Eval vm_compute in
    after booked_db (PatientDashboard.cancelAppointment owner 1000%N booked_db).

(** ... and once the same slot is taken again, by appointment 1003. *)
Definition rebooked_db : db :=
  Eval vm_compute in
    after cancelled_db
      (insert_appointment owner (booking 1003%N 1%N pending) cancelled_db).

(** Appointment 1000 confirmed, with a note of the patient and one of the
    doctor. *)
Definition noted_booking : Appointments.row :=
  Appointments.mk 1000%N (Some 1%N) (Some 20%N) (Some 101%N) 9000%Z 50400000000%Z (Some 20%Z)
                  confirmed (Some "first visit") (Some "bring your records") None.

Definition noted_db : db :=
  Eval vm_compute in
    after sample_db (insert_appointment owner noted_booking sample_db).

(** Doctor 20 receives on Mondays from 09:00 to 17:00. *)
Definition available_db : db :=
  Eval vm_compute in
    after sample_db
      (insert_availability owner
         (Availabilities.mk 300%N (Some 20%N) 1%Z 32400000000%Z 61200000000%Z None)
         sample_db).

(** What callers try on the cancelled appointment 1000: its doctor confirms
    it from the dashboard, its patient cancels it once more, an admin sets
    every appointment to pending; and the patient's e-mail address is
    confirmed again. *)
Definition sample_attempts : list stmt :=
  [ UpdateAppointments (api (Some 2%N))
      (Some (fun r => N.eqb (Appointments.id r) 1000%N))
      (fun r => set_doctor_note None (set_status confirmed r));
    UpdateAppointments (api (Some 1%N))
      (Some (fun r => N.eqb (Appointments.id r) 1000%N))
      (fun r => set_cancelled_by (Some patient) (set_status cancelled r));
    UpdateAppointments (api (Some 3%N)) None (set_status pending);
    AuthUserEmailConfirmed (mk_auth_user 1%N [] (Some 30%Z)) ].

(** SET role = [ro], SET email_confirmed = [b], and nothing else. *)
Definition role_column (ro : role) : profile_columns :=
  mk_profile_columns None None None (Some ro) None None.

Definition email_confirmed_column (b : bool) : profile_columns :=
  mk_profile_columns None None None None (Some (Some b)) None.

Definition set_times (s e : time) (r : Availabilities.row) : Availabilities.row :=
  Availabilities.mk (Availabilities.id r) (Availabilities.doctor_id r)
                    (Availabilities.weekday r) s e (Availabilities.created_at r).

Definition is_ok (r : result) : bool :=
  match r with
  | Ok _ => true
  | Err _ => false
  end.

(** The rows a query delivered; none on an error. *)
Definition rows_of {A : Type} (r : response (list A)) : list A :=
  match r with
  | Data l => l
  | Error _ => []
  end.

(** (appointmentDate ascending, appointmentTime ascending) *)
Definition date_time_le (a b : Appointments.row) : Prop :=
  (Appointments.appointment_date a < Appointments.appointment_date b)%Z
  \/ (Appointments.appointment_date a = Appointments.appointment_date b
      /\ (Appointments.appointment_time a <= Appointments.appointment_time b)%Z).

(** ** The update rules in the words of the specification *)

(** A doctor may update only appointments where caller.doctorId = doctorId,
    and may set status to confirmed or rejected (from pending) or cancelled
    (from pending/confirmed). *)
Definition doctor_rule (d : db) (uid : option uuid) (old new : Appointments.row) : bool :=
  is_doctor_of d uid (Appointments.doctor_id old)
  && ((status_eqb (Appointments.status old) pending
       && (status_eqb (Appointments.status new) confirmed
           || status_eqb (Appointments.status new) rejected))
      || (status_eqb (Appointments.status new) cancelled
          && (status_eqb (Appointments.status old) pending
              || status_eqb (Appointments.status old) confirmed))).

(** A patient may update an appointment only if caller.id = patientId, the
    new state is cancelled, cancelledBy = patient, and the prior state was
    pending. *)
Definition patient_rule (uid : option uuid) (old new : Appointments.row) : bool :=
  sql_eq uid (Appointments.patient_id old)
  && status_eqb (Appointments.status new) cancelled
  && sql_eq_role (Appointments.cancelled_by new) patient
  && status_eqb (Appointments.status old) pending.

(** ** Keys and references of a whole database *)

(** Pairwise distinctness under a boolean equality: the common shape of
    [distinct_ids], [distinct_refs] and [distinct_names]. *)
Fixpoint pairwise_distinct {K : Type} (eqb : K -> K -> bool) (ks : list K) : bool :=
  match ks with
  | [] => true
  | k :: ks' => negb (existsb (eqb k) ks') && pairwise_distinct eqb ks'
  end.

(** Every PRIMARY KEY and UNIQUE constraint of the schema holds. *)
Record keys_consistent (d : db) : Prop := mk_keys_consistent {
  keys_departments : distinct_ids (map Departments.id (departments d)) = true;
  keys_department_names : distinct_names (map Departments.name (departments d)) = true;
  keys_profiles : distinct_ids (map Profiles.id (profiles d)) = true;
  keys_doctors : distinct_ids (map Doctors.id (doctors d)) = true;
  keys_doctor_profiles : distinct_refs (map Doctors.profile_id (doctors d)) = true;
  keys_availabilities : distinct_ids (map Availabilities.id (doctor_availabilities d)) = true;
  keys_appointments : distinct_ids (map Appointments.id (appointments d)) = true
}.

(** Every REFERENCES clause between the five tables holds. *)
Record references_consistent (d : db) : Prop := mk_references_consistent {
  refs_doctor_profile :
    forallb (fun x => references Profiles.id (profiles d) (Doctors.profile_id x))
            (doctors d) = true;
  refs_doctor_department :
    forallb (fun x => references Departments.id (departments d) (Doctors.department_id x))
            (doctors d) = true;
  refs_availability_doctor :
    forallb (fun a => references Doctors.id (doctors d) (Availabilities.doctor_id a))
            (doctor_availabilities d) = true;
  refs_appointment_patient :
    forallb (fun a => references Profiles.id (profiles d) (Appointments.patient_id a))
            (appointments d) = true;
  refs_appointment_doctor :
    forallb (fun a => references Doctors.id (doctors d) (Appointments.doctor_id a))
            (appointments d) = true;
  refs_appointment_department :
    forallb (fun a => references Departments.id (departments d) (Appointments.department_id a))
            (appointments d) = true
}.

(** What handleAppointmentAction writes into a row: the decided status and
    the doctor's note. *)
Definition decision (a : DoctorDashboard.action) (doctorNote : string)
    (r : Appointments.row) : Appointments.row :=
  set_doctor_note (DoctorDashboard.note_or_null doctorNote)
    (set_status (match a with
                 | DoctorDashboard.confirm => confirmed
                 | DoctorDashboard.reject => rejected
                 end) r).

(** ** The other pages *)

Module Navbar.

(** getDashboardLink *)
Definition getDashboardLink (profile : option Profiles.row) : string :=
  match profile with
  | None => "/"
  | Some p =>
      match Profiles.role p with
      | admin => "/admin/dashboard"
      | doctor => "/doctor/dashboard"
      | patient => "/patient/dashboard"
      end
  end.

(** The "Find Doctors" entry is rendered when profile.role === 'patient'. *)
Definition find_doctors (profile : Profiles.row) : bool :=
  role_eqb (Profiles.role profile) patient.

End Navbar.

Module Landing.

(** The target of "Go to Dashboard", rendered for a signed-in user:
    profile?.role === 'admin' ? ... : profile?.role === 'doctor' ? ... : ... *)
Definition dashboard_link (profile : option Profiles.row) : string :=
  match option_map Profiles.role profile with
  | Some admin => "/admin/dashboard"
  | Some doctor => "/doctor/dashboard"
  | _ => "/patient/dashboard"
  end.

(** fetchDepartments: select('*').limit(6); [if (data) setDepartments(data)].
    The result is the [departments] state of the page. *)
Definition fetchDepartments (client : caller) (d : db) (departments : list Departments.row)
    : list Departments.row :=
  match select_departments client None d with
  | Data data => firstn 6 data
  | Error _ => departments
  end.

End Landing.

Module DoctorsPage.

(** fetchDepartments: select('*') *)
Definition fetchDepartments (client : caller) (d : db) (departments : list Departments.row)
    : list Departments.row :=
  match select_departments client None d with
  | Data data => data
  | Error _ => departments
  end.

(** fetchDoctors: every doctor, or with a department selected
    .eq('department_id', selectedDept); [None] stands for 'all'. The
    result is the [doctors] state of the page. *)
Definition fetchDoctors (client : caller) (selectedDept : option uuid) (d : db)
    (doctors : list Doctors.row) : list Doctors.row :=
  match select_doctors client
          (match selectedDept with
           | None => None
           | Some k => Some (fun x => sql_eq (Doctors.department_id x) (Some k))
           end) d with
  | Data data => data
  | Error _ => doctors
  end.

End DoctorsPage.

(** ** Who issues a statement, and on which table *)

Definition issuer (s : stmt) : option caller :=
  match s with
  | InsertDepartment c _ | UpdateDepartments c _ _ | DeleteDepartments c _
  | InsertProfile c _ | UpdateProfiles c _ _ | DeleteProfiles c _
  | InsertDoctor c _ | UpdateDoctors c _ _ | DeleteDoctors c _
  | InsertAvailability c _ | UpdateAvailabilities c _ _ | DeleteAvailabilities c _
  | InsertAppointment c _ | UpdateAppointments c _ _ | DeleteAppointments c _ => Some c
  | AuthUserCreated _ _ | AuthUserEmailConfirmed _ | AuthUserDeleted _ => None
  end.

Definition statement_table (s : stmt) : option table :=
  match s with
  | InsertDepartment _ _ | UpdateDepartments _ _ _ | DeleteDepartments _ _ =>
      Some tbl_departments
  | InsertProfile _ _ | UpdateProfiles _ _ _ | DeleteProfiles _ _ => Some tbl_profiles
  | InsertDoctor _ _ | UpdateDoctors _ _ _ | DeleteDoctors _ _ => Some tbl_doctors
  | InsertAvailability _ _ | UpdateAvailabilities _ _ _ | DeleteAvailabilities _ _ =>
      Some tbl_doctor_availabilities
  | InsertAppointment _ _ | UpdateAppointments _ _ _ | DeleteAppointments _ _ =>
      Some tbl_appointments
  | AuthUserCreated _ _ | AuthUserEmailConfirmed _ | AuthUserDeleted _ => None
  end.

(** Is the statement one that no policy applies to: one issued by the
    owner of the tables? (The three events on auth.users come from the
    authentication service.) *)
Definition by_owner (s : stmt) : bool :=
  match issuer s with
  | Some owner => true
  | _ => false
  end.

(** What an INSERT into appointments needs besides a free slot: a fresh
    key and the three references. *)
Definition acceptable (r : Appointments.row) (d : db) : bool :=
  negb (has_id Appointments.id (Appointments.id r) (appointments d))
  && references Profiles.id (profiles d) (Appointments.patient_id r)
  && references Doctors.id (doctors d) (Appointments.doctor_id r)
  && references Departments.id (departments d) (Appointments.department_id r).

(** * Properties *)

(** ** Equality tests *)

Lemma role_eqb_eq (a b : role) : role_eqb a b = true <-> a = b.
Proof. destruct a, b; simpl; split; intro H; try reflexivity; discriminate H. Qed.

Lemma status_eqb_eq (a b : status) : status_eqb a b = true <-> a = b.
Proof. destruct a, b; simpl; split; intro H; try reflexivity; discriminate H. Qed.

Lemma sql_eq_true (a b : option uuid) :
  sql_eq a b = true <-> exists k, a = Some k /\ b = Some k.
Proof.
  destruct a as [x|], b as [y|]; simpl; split; intro H;
    try discriminate H; try (destruct H as (k & H1 & H2); discriminate).
  - apply N.eqb_eq in H. subst. eauto.
  - destruct H as (k & H1 & H2). inversion H1; inversion H2; subst. apply N.eqb_refl.
Qed.

Lemma sql_eq_sym (a b : option uuid) : sql_eq a b = sql_eq b a.
Proof. destruct a, b; simpl; auto using N.eqb_sym. Qed.

Lemma sql_eq_trans (a b c : option uuid) :
  sql_eq a b = true -> sql_eq b c = true -> sql_eq a c = true.
Proof.
  rewrite !sql_eq_true. intros (k & -> & ->) (k' & E & ->). inversion E; subst. eauto.
Qed.

Lemma same_slot_sym (a b : Appointments.row) : same_slot a b = same_slot b a.
Proof.
  unfold same_slot.
  rewrite (sql_eq_sym (Appointments.doctor_id a)).
  rewrite (Z.eqb_sym (Appointments.appointment_date a)).
  rewrite (Z.eqb_sym (Appointments.appointment_time a)).
  reflexivity.
Qed.

(** ** The partial unique index *)

Lemma slot_taken_app (r : Appointments.row) (l1 l2 : list Appointments.row) :
  slot_taken r (l1 ++ l2) = slot_taken r l1 || slot_taken r l2.
Proof.
  unfold slot_taken. rewrite existsb_app.
  destruct (is_active (Appointments.status r)); reflexivity.
Qed.

Lemma slot_taken_filter (p : Appointments.row -> bool) (r : Appointments.row)
    (l : list Appointments.row) :
  slot_taken r l = false -> slot_taken r (filter p l) = false.
Proof.
  unfold slot_taken.
  destruct (is_active (Appointments.status r)); simpl; [|reflexivity].
  induction l as [|x l IH]; simpl; [reflexivity|].
  intro H. apply orb_false_iff in H as [Hx Hl].
  destruct (p x); simpl; [rewrite Hx|]; auto.
Qed.

Lemma index_filter (p : Appointments.row -> bool) (l : list Appointments.row) :
  idx_appointments_no_double_booking l = true ->
  idx_appointments_no_double_booking (filter p l) = true.
Proof.
  induction l as [|x l IH]; simpl; [reflexivity|].
  intro H. apply andb_true_iff in H as [Hx Hl].
  destruct (p x); simpl; auto.
  rewrite (slot_taken_filter p x l); [simpl; auto|].
  now apply negb_true_iff.
Qed.

Lemma slot_taken_single (x r : Appointments.row) (l : list Appointments.row) :
  slot_taken r (x :: l) = false -> slot_taken x [r] = false.
Proof.
  unfold slot_taken. simpl. rewrite (same_slot_sym x r).
  destruct (is_active (Appointments.status r)),
           (is_active (Appointments.status x)),
           (same_slot r x); simpl; auto; discriminate.
Qed.

Lemma slot_taken_tail (x r : Appointments.row) (l : list Appointments.row) :
  slot_taken r (x :: l) = false -> slot_taken r l = false.
Proof.
  unfold slot_taken. simpl.
  destruct (is_active (Appointments.status r)); simpl; [|reflexivity].
  intro H. now apply orb_false_iff in H.
Qed.

Lemma index_snoc (r : Appointments.row) (l : list Appointments.row) :
  idx_appointments_no_double_booking l = true ->
  slot_taken r l = false ->
  idx_appointments_no_double_booking (l ++ [r]) = true.
Proof.
  induction l as [|x l IH]; simpl; intros Hl Hr.
  - unfold slot_taken. simpl. now rewrite andb_false_r.
  - apply andb_true_iff in Hl as [Hx Hl].
    rewrite slot_taken_app, (slot_taken_single x r l Hr).
    apply negb_true_iff in Hx. rewrite Hx. simpl.
    apply IH; [assumption|]. exact (slot_taken_tail x r l Hr).
Qed.

Lemma occupies_conflict (D : uuid) (dt : date) (tm : time) (r x : Appointments.row) :
  occupies D dt tm r = true -> occupies D dt tm x = true ->
  is_active (Appointments.status r) = true
  /\ is_active (Appointments.status x) && same_slot r x = true.
Proof.
  unfold occupies, same_slot. intros Hr Hx.
  repeat (apply andb_true_iff in Hr as [Hr ?]).
  repeat (apply andb_true_iff in Hx as [Hx ?]).
  split; [assumption|].
  repeat (apply andb_true_iff; split); try assumption.
  - apply (sql_eq_trans _ (Some D)); [assumption|]. now rewrite sql_eq_sym.
  - apply Z.eqb_eq. transitivity dt; [|symmetry]; now apply Z.eqb_eq.
  - apply Z.eqb_eq. transitivity tm; [|symmetry]; now apply Z.eqb_eq.
Qed.

Lemma index_occupants (D : uuid) (dt : date) (tm : time) (l : list Appointments.row) :
  idx_appointments_no_double_booking l = true ->
  List.length (filter (occupies D dt tm) l) <= 1.
Proof.
  induction l as [|r l IH]; simpl; [lia|].
  intro H. apply andb_true_iff in H as [Hr Hl]. apply negb_true_iff in Hr.
  destruct (occupies D dt tm r) eqn:Er; [|auto].
  assert (Hnone : filter (occupies D dt tm) l = []).
  { clear IH Hl. induction l as [|x l IH]; simpl; [reflexivity|].
    destruct (occupies D dt tm x) eqn:Ex.
    - destruct (occupies_conflict D dt tm r x Er Ex) as [Ha Hc].
      unfold slot_taken in Hr. simpl in Hr. rewrite Ha, Hc in Hr. discriminate Hr.
    - apply IH. exact (slot_taken_tail x r l Hr). }
  rewrite Hnone. simpl. lia.
Qed.

(** ** Primary keys *)

Lemma distinct_ids_NoDup (ks : list uuid) : distinct_ids ks = true <-> NoDup ks.
Proof.
  induction ks as [|k ks IH]; simpl.
  - split; [constructor|reflexivity].
  - rewrite andb_true_iff, negb_true_iff, IH. split.
    + intros [Hk Hks]. constructor; [|assumption].
      intro Hin. assert (existsb (N.eqb k) ks = true) as E.
      { apply existsb_exists. exists k. split; [assumption|apply N.eqb_refl]. }
      congruence.
    + intro H. inversion H as [|? ? Hk Hks]; subst. split; [|assumption].
      destruct (existsb (N.eqb k) ks) eqn:E; [|reflexivity].
      apply existsb_exists in E as (y & Hy & Ey). apply N.eqb_eq in Ey. subst. contradiction.
Qed.

Lemma has_id_In {A : Type} (id : A -> uuid) (k : uuid) (l : list A) :
  has_id id k l = true <-> In k (map id l).
Proof.
  unfold has_id. rewrite existsb_exists, in_map_iff.
  split; intros (x & H1 & H2).
  - apply N.eqb_eq in H2. eauto.
  - exists x. split; [assumption|]. now apply N.eqb_eq.
Qed.

Lemma distinct_ids_filter {A : Type} (id : A -> uuid) (p : A -> bool) (l : list A) :
  distinct_ids (map id l) = true -> distinct_ids (map id (filter p l)) = true.
Proof.
  rewrite !distinct_ids_NoDup.
  induction l as [|x l IH]; simpl; [auto|].
  intro H. inversion H as [|? ? Hx Hl]; subst.
  destruct (p x); simpl; [|auto].
  constructor; [|auto].
  intro Hin. apply Hx. apply in_map_iff in Hin as (y & Ey & Hy).
  apply filter_In in Hy as [Hy _]. apply in_map_iff. eauto.
Qed.

Lemma distinct_ids_snoc {A : Type} (id : A -> uuid) (r : A) (l : list A) :
  distinct_ids (map id l) = true -> has_id id (id r) l = false ->
  distinct_ids (map id (l ++ [r])) = true.
Proof.
  rewrite !distinct_ids_NoDup, map_app. simpl. intros Hl Hr.
  apply NoDup_app; [assumption|repeat constructor; intros []|].
  intros k Hk [<-|[]].
  apply has_id_In in Hk. congruence.
Qed.

Lemma map_update_rows_id {A : Type} (id : A -> uuid) (target : A -> bool) (set : A -> A)
    (l : list A) :
  (forall r, id (set r) = id r) ->
  map id (update_rows target set l) = map id l.
Proof.
  intro Hset. unfold update_rows. rewrite map_map. apply map_ext.
  intro r. destruct (target r); auto.
Qed.

(** ** CHECK constraints survive the statements *)

Lemma forallb_filter {A : Type} (c p : A -> bool) (l : list A) :
  forallb c l = true -> forallb c (filter p l) = true.
Proof.
  rewrite !forallb_forall. intros H x Hx. apply filter_In in Hx as [Hx _]. auto.
Qed.

Lemma forallb_update_rows {A : Type} (c target : A -> bool) (set : A -> A) (l : list A) :
  forallb c l = true ->
  existsb (fun r => target r && negb (c (set r))) l = false ->
  forallb c (update_rows target set l) = true.
Proof.
  unfold update_rows.
  induction l as [|x l IH]; simpl; [reflexivity|].
  intros Hc He. apply andb_true_iff in Hc as [Hx Hl].
  apply orb_false_iff in He as [Ex El].
  rewrite IH by assumption.
  destruct (target x); simpl in *; [|now rewrite Hx].
  apply negb_false_iff in Ex. now rewrite Ex.
Qed.

Lemma forallb_snoc {A : Type} (c : A -> bool) (r : A) (l : list A) :
  forallb c l = true -> c r = true -> forallb c (l ++ [r]) = true.
Proof. intros Hl Hr. rewrite forallb_app, Hl. simpl. now rewrite Hr. Qed.

Lemma distinct_ids_update_rows {A : Type} (id : A -> uuid) (target : A -> bool)
    (set : A -> A) (l : list A) :
  (forall r, id (set r) = id r) ->
  distinct_ids (map id l) = true ->
  distinct_ids (map id (update_rows target set l)) = true.
Proof. intros Hset Hl. now rewrite map_update_rows_id. Qed.

(** ** Reachable databases are consistent *)

Create HintDb consistency.
#[local] Hint Resolve index_filter index_snoc distinct_ids_filter distinct_ids_snoc
  distinct_ids_update_rows forallb_filter forallb_update_rows forallb_snoc : consistency.

Ltac split_ifs H :=
  repeat match type of H with
  | (if ?c then _ else _) = Ok _ =>
      let E := fresh "E" in destruct c eqn:E; try discriminate H
  | match ?c with Some _ => _ | None => _ end = Ok _ =>
      let E := fresh "E" in destruct c eqn:E; try discriminate H
  end.

Ltac to_true :=
  repeat match goal with
  | H : negb _ = false |- _ => apply negb_false_iff in H
  | H : negb _ = true |- _ => apply negb_true_iff in H
  end.

Ltac unfold_statements H :=
  unfold insert_department, update_departments, delete_departments,
         insert_profile, update_profiles, delete_profiles,
         insert_doctor, update_doctors, delete_doctors,
         insert_availability, update_availabilities, delete_availabilities,
         insert_appointment, update_appointments, delete_appointments,
         handle_new_user, update_profile_email_confirmed, auth_user_deleted in H.

Lemma migration_consistent (ids : list uuid) (now : timestamptz) :
  consistent (migration ids now).
Proof. constructor; reflexivity. Qed.

Lemma exec_consistent (s : stmt) (d d' : db) :
  consistent d -> exec s d = Ok d' -> consistent d'.
Proof.
  intros [Hi Hp Hw] H.
  destruct s; simpl in H; unfold_statements H;
    split_ifs H; injection H as <-; to_true;
    constructor; simpl; auto 6 with consistency.
Qed.

Lemma reachable_consistent (d : db) : reachable d -> consistent d.
Proof.
  induction 1 as [ids now _|d s d' _ IH H].
  - apply migration_consistent.
  - exact (exec_consistent s d d' IH H).
Qed.

Lemma run_reachable (ss : list stmt) (d d' : db) :
  reachable d -> run ss d = Some d' -> reachable d'.
Proof.
  revert d. induction ss as [|s ss IH]; simpl; intros d Hd H.
  - injection H as <-. assumption.
  - destruct (exec s d) as [d1|e] eqn:E; [|discriminate H].
    apply (IH d1); [|assumption]. exact (reachable_exec d s d1 Hd E).
Qed.

Lemma sample_db_reachable : reachable sample_db.
Proof.
  apply (run_reachable sample_script (migration [101; 102; 103; 104; 105; 106]%N 0%Z)).
  - apply reachable_migration. reflexivity.
  - vm_compute. reflexivity.
Qed.

(** ** Rows and their keys *)

Lemma unique_by_id {A : Type} (id : A -> uuid) (l : list A) (x y : A) :
  distinct_ids (map id l) = true -> In x l -> In y l -> id x = id y -> x = y.
Proof.
  rewrite distinct_ids_NoDup.
  induction l as [|z l IH]; simpl; [intros _ []|].
  intros H Hx Hy E. inversion H as [|? ? Hz Hl]; subst.
  destruct Hx as [->|Hx], Hy as [->|Hy]; auto.
  - exfalso. apply Hz. rewrite E. now apply in_map.
  - exfalso. apply Hz. rewrite <- E. now apply in_map.
Qed.

Lemma nth_error_update_rows {A : Type} (target : A -> bool) (set : A -> A) (l : list A)
    (i : nat) (x : A) :
  nth_error l i = Some x ->
  nth_error (update_rows target set l) i = Some (if target x then set x else x).
Proof.
  intro H. unfold update_rows.
  exact (map_nth_error (fun r => if target r then set r else r) i l H).
Qed.

Lemma existsb_false_In {A : Type} (f : A -> bool) (l : list A) (x : A) :
  existsb f l = false -> In x l -> f x = false.
Proof.
  intros H Hin. destruct (f x) eqn:E; [|reflexivity].
  assert (existsb f l = true) by (apply existsb_exists; eauto). congruence.
Qed.

Lemma In_update_rows {A : Type} (target : A -> bool) (set : A -> A) (l : list A) (y : A) :
  In y (update_rows target set l) ->
  exists x, In x l /\ y = (if target x then set x else x).
Proof.
  unfold update_rows. rewrite in_map_iff. intros (x & E & Hx). eauto.
Qed.


(** ** Keys *)

Lemma distinct_ids_pairwise (ks : list uuid) :
  distinct_ids ks = pairwise_distinct N.eqb ks.
Proof. induction ks as [|k ks IH]; simpl; [reflexivity|now rewrite IH]. Qed.

Lemma distinct_refs_pairwise (ks : list (option uuid)) :
  distinct_refs ks = pairwise_distinct sql_eq ks.
Proof. induction ks as [|k ks IH]; simpl; [reflexivity|now rewrite IH]. Qed.

Lemma distinct_names_pairwise (ns : list text) :
  distinct_names ns = pairwise_distinct String.eqb ns.
Proof. induction ns as [|k ks IH]; simpl; [reflexivity|now rewrite IH]. Qed.

Lemma existsb_map_filter_false {A K : Type} (g : K -> bool) (f : A -> K) (p : A -> bool)
    (l : list A) :
  existsb g (map f l) = false -> existsb g (map f (filter p l)) = false.
Proof.
  induction l as [|x l IH]; simpl; [auto|].
  intro H. apply orb_false_iff in H as [Hx Hl].
  destruct (p x); simpl; [rewrite Hx|]; auto.
Qed.

Lemma pairwise_distinct_filter {A K : Type} (eqb : K -> K -> bool) (f : A -> K)
    (p : A -> bool) (l : list A) :
  pairwise_distinct eqb (map f l) = true ->
  pairwise_distinct eqb (map f (filter p l)) = true.
Proof.
  induction l as [|x l IH]; simpl; [auto|].
  intro H. apply andb_true_iff in H as [Hx Hl]. apply negb_true_iff in Hx.
  destruct (p x); simpl; [|auto].
  rewrite (existsb_map_filter_false _ f p l Hx). simpl. auto.
Qed.

Lemma pairwise_distinct_snoc {A K : Type} (eqb : K -> K -> bool) (f : A -> K)
    (r : A) (l : list A) :
  (forall a b, eqb a b = eqb b a) ->
  pairwise_distinct eqb (map f l) = true ->
  existsb (fun x => eqb (f r) (f x)) l = false ->
  pairwise_distinct eqb (map f (l ++ [r])) = true.
Proof.
  intro Hsym. induction l as [|x l IH]; simpl; intros Hl Hr; [reflexivity|].
  apply andb_true_iff in Hl as [Hx Hl]. apply negb_true_iff in Hx.
  apply orb_false_iff in Hr as [Hrx Hr].
  rewrite IH by assumption.
  rewrite map_app, existsb_app, Hx. simpl.
  now rewrite (Hsym (f x) (f r)), Hrx.
Qed.

Lemma distinct_refs_filter {A : Type} (f : A -> option uuid) (p : A -> bool) (l : list A) :
  distinct_refs (map f l) = true -> distinct_refs (map f (filter p l)) = true.
Proof. rewrite !distinct_refs_pairwise. apply pairwise_distinct_filter. Qed.

Lemma distinct_refs_snoc {A : Type} (f : A -> option uuid) (r : A) (l : list A) :
  distinct_refs (map f l) = true ->
  existsb (fun x => sql_eq (f r) (f x)) l = false ->
  distinct_refs (map f (l ++ [r])) = true.
Proof. rewrite !distinct_refs_pairwise. apply pairwise_distinct_snoc, sql_eq_sym. Qed.

Lemma distinct_names_filter {A : Type} (f : A -> text) (p : A -> bool) (l : list A) :
  distinct_names (map f l) = true -> distinct_names (map f (filter p l)) = true.
Proof. rewrite !distinct_names_pairwise. apply pairwise_distinct_filter. Qed.

Lemma existsb_pointwise {A : Type} (f g : A -> bool) (l : list A) :
  (forall x, f x = g x) -> existsb f l = existsb g l.
Proof.
  intro H. induction l as [|x l IH]; simpl; [reflexivity|]. now rewrite H, IH.
Qed.

Lemma distinct_names_snoc {A : Type} (f : A -> text) (r : A) (l : list A) :
  distinct_names (map f l) = true ->
  existsb (fun x => String.eqb (f x) (f r)) l = false ->
  distinct_names (map f (l ++ [r])) = true.
Proof.
  rewrite !distinct_names_pairwise. intros Hl Hr.
  apply pairwise_distinct_snoc; [apply String.eqb_sym|assumption|].
  rewrite <- Hr. apply existsb_pointwise. intro x. apply String.eqb_sym.
Qed.

Lemma set_department_null_ids (dead : list Departments.row) (l : list Doctors.row) :
  map Doctors.id (map (set_department_null dead) l) = map Doctors.id l.
Proof.
  rewrite map_map. apply map_ext. intro x. unfold set_department_null.
  destruct (refers_to Departments.id dead (Doctors.department_id x)); reflexivity.
Qed.

Lemma set_department_null_profiles (dead : list Departments.row) (l : list Doctors.row) :
  map Doctors.profile_id (map (set_department_null dead) l) = map Doctors.profile_id l.
Proof.
  rewrite map_map. apply map_ext. intro x. unfold set_department_null.
  destruct (refers_to Departments.id dead (Doctors.department_id x)); reflexivity.
Qed.

Lemma NoDup_map_fst_combine {A B : Type} (a : list A) (b : list B) :
  NoDup a -> NoDup (map fst (combine a b)).
Proof.
  revert b. induction a as [|x a IH]; intros [|y b] H; simpl; try constructor.
  - inversion H as [|? ? Hx Ha]; subst. intro Hin. apply Hx.
    apply in_map_iff in Hin as ([x' y'] & E & Hin). simpl in E. subst.
    exact (in_combine_l _ _ _ _ Hin).
  - inversion H; subst. auto.
Qed.

Lemma NoDup_map_snd_combine {A B : Type} (a : list A) (b : list B) :
  NoDup b -> NoDup (map snd (combine a b)).
Proof.
  revert b. induction a as [|x a IH]; intros [|y b] H; simpl; try constructor.
  - inversion H as [|? ? Hy Hb]; subst. intro Hin. apply Hy.
    apply in_map_iff in Hin as ([x' y'] & E & Hin). simpl in E. subst.
    exact (in_combine_r _ _ _ _ Hin).
  - inversion H; subst. auto.
Qed.

Lemma distinct_names_NoDup (ns : list text) : distinct_names ns = true <-> NoDup ns.
Proof.
  induction ns as [|k ks IH]; simpl.
  - split; [constructor|reflexivity].
  - rewrite andb_true_iff, negb_true_iff, IH. split.
    + intros [Hk Hks]. constructor; [|assumption].
      intro Hin. assert (existsb (String.eqb k) ks = true) as E.
      { apply existsb_exists. exists k. split; [assumption|apply String.eqb_refl]. }
      congruence.
    + intro H. inversion H as [|? ? Hk Hks]; subst. split; [|assumption].
      destruct (existsb (String.eqb k) ks) eqn:E; [|reflexivity].
      apply existsb_exists in E as (y & Hy & Ey). apply String.eqb_eq in Ey.
      subst. contradiction.
Qed.

Lemma migration_keys (ids : list uuid) (now : timestamptz) :
  distinct_ids ids = true -> keys_consistent (migration ids now).
Proof.
  intro Hids. constructor; try reflexivity; simpl; rewrite map_map.
  - apply distinct_ids_NoDup.
    rewrite (map_ext _ fst) by (intros [k [n ds]]; reflexivity).
    apply NoDup_map_fst_combine. now apply distinct_ids_NoDup.
  - apply distinct_names_NoDup.
    rewrite (map_ext _ (fun x => fst (snd x))) by (intros [k [n ds]]; reflexivity).
    rewrite <- (map_map snd fst).
    assert (Hn : NoDup (map snd (combine ids sample_departments))).
    { apply NoDup_map_snd_combine. unfold sample_departments.
      repeat constructor; simpl; intuition discriminate. }
    assert (Hinj : forall x y, In x sample_departments -> In y sample_departments ->
                               fst x = fst y -> x = y).
    { unfold sample_departments. simpl. intros x y Hx Hy.
      repeat (destruct Hx as [<-|Hx]; [|]); try contradiction;
        repeat (destruct Hy as [<-|Hy]; [|]); try contradiction;
        simpl; intro E; try reflexivity; discriminate E. }
    assert (Hsub : forall x, In x (map snd (combine ids sample_departments)) ->
                             In x sample_departments).
    { intros x Hx. apply in_map_iff in Hx as ([k y] & E & Hin). simpl in E. subst.
      exact (in_combine_r _ _ _ _ Hin). }
    revert Hn Hsub. generalize (map snd (combine ids sample_departments)).
    induction l as [|x l IH]; intros Hn Hsub; [constructor|].
    cbn [map]. inversion Hn as [|? ? Hx Hl]; subst. constructor.
    + intro Hin. apply in_map_iff in Hin as (y & E & Hy). apply Hx.
      rewrite (Hinj x y);
        [assumption|apply Hsub; now left|apply Hsub; now right|congruence].
    + apply IH; [assumption|]. intros z Hz. apply Hsub. now right.
Qed.

#[local] Hint Resolve distinct_refs_filter distinct_refs_snoc distinct_names_filter
  distinct_names_snoc : consistency.

Lemma exec_keys (s : stmt) (d d' : db) :
  keys_consistent d -> exec s d = Ok d' -> keys_consistent d'.
Proof.
  intros [K1 K2 K3 K4 K5 K6 K7] H.
  destruct s; simpl in H; unfold_statements H;
    split_ifs H; injection H as <-; to_true;
    constructor; simpl;
    rewrite ?set_department_null_ids, ?set_department_null_profiles;
    auto 6 with consistency.
Qed.

Lemma reachable_keys (d : db) : reachable d -> keys_consistent d.
Proof.
  induction 1 as [ids now Hids|d s d' _ IH H].
  - now apply migration_keys.
  - exact (exec_keys s d d' IH H).
Qed.

(** ** References *)

Section References.
Context {A B : Type}.
Variable id : A -> uuid.
Variable ref : B -> option uuid.

Lemma has_id_map (k : uuid) (l : list A) :
  has_id id k l = existsb (fun i => N.eqb i k) (map id l).
Proof.
  unfold has_id. induction l as [|x l IH]; simpl; [reflexivity|now rewrite IH].
Qed.

Lemma references_same_ids (l l' : list A) (k : option uuid) :
  map id l' = map id l -> references id l' k = references id l k.
Proof. intro H. destruct k as [k|]; simpl; [|reflexivity]. now rewrite !has_id_map, H. Qed.

Lemma references_snoc (l : list A) (r : A) (k : option uuid) :
  references id l k = true -> references id (l ++ [r]) k = true.
Proof.
  destruct k as [k|]; simpl; [|reflexivity].
  unfold has_id. rewrite existsb_app. now intros ->.
Qed.

Lemma references_survive (gone : A -> bool) (l : list A) (k : option uuid) :
  references id l k = true ->
  refers_to id (filter gone l) k = false ->
  references id (filter (fun x => negb (gone x)) l) k = true.
Proof.
  destruct k as [k|]; simpl; [|reflexivity].
  unfold has_id. rewrite !existsb_exists. intros (x & Hx & E) Hdead.
  exists x. split; [|assumption]. apply filter_In. split; [assumption|].
  destruct (gone x) eqn:G; [|reflexivity].
  assert (existsb (fun y => N.eqb (id y) k) (filter gone l) = true).
  { apply existsb_exists. exists x. split; [|assumption]. apply filter_In. auto. }
  congruence.
Qed.

Lemma referencing_grows (l : list A) (r : A) (rs : list B) :
  forallb (fun a => references id l (ref a)) rs = true ->
  forallb (fun a => references id (l ++ [r]) (ref a)) rs = true.
Proof.
  rewrite !forallb_forall. intros H a Ha. apply references_snoc. auto.
Qed.

Lemma referencing_same_ids (l l' : list A) (rs : list B) :
  map id l' = map id l ->
  forallb (fun a => references id l (ref a)) rs = true ->
  forallb (fun a => references id l' (ref a)) rs = true.
Proof.
  intros E H. rewrite forallb_forall in *. intros a Ha.
  rewrite (references_same_ids l l' _ E). auto.
Qed.

(** ON DELETE CASCADE: what is left refers to what is left. *)
Lemma referencing_cascade (gone : A -> bool) (l : list A) (rs : list B) :
  forallb (fun a => references id l (ref a)) rs = true ->
  forallb (fun a => references id (filter (fun x => negb (gone x)) l) (ref a))
          (filter (fun a => negb (refers_to id (filter gone l) (ref a))) rs) = true.
Proof.
  rewrite !forallb_forall. intros H a Ha. apply filter_In in Ha as [Ha Hn].
  apply negb_true_iff in Hn. apply references_survive; auto.
Qed.

(** No action on delete: the statement went through because nothing
    referred to the deleted rows. *)
Lemma referencing_unreferenced (gone : A -> bool) (l : list A) (rs : list B) :
  forallb (fun a => references id l (ref a)) rs = true ->
  existsb (fun a => refers_to id (filter gone l) (ref a)) rs = false ->
  forallb (fun a => references id (filter (fun x => negb (gone x)) l) (ref a)) rs = true.
Proof.
  rewrite !forallb_forall. intros H He a Ha.
  apply references_survive; [auto|].
  exact (existsb_false_In _ rs a He Ha).
Qed.

(** No action on update: a referenced key is not changed. *)
Lemma referencing_update_target (target : A -> bool) (set : A -> A) (l : list A)
    (rs : list B) :
  forallb (fun a => references id l (ref a)) rs = true ->
  existsb (fun r => target r && negb (N.eqb (id r) (id (set r)))
                    && existsb (fun a => sql_eq (ref a) (Some (id r))) rs) l = false ->
  forallb (fun a => references id (update_rows target set l) (ref a)) rs = true.
Proof.
  rewrite !forallb_forall. intros H He a Ha. specialize (H a Ha).
  destruct (ref a) as [k|] eqn:Ek; simpl in *; [|reflexivity].
  unfold has_id in *. apply existsb_exists in H as (x & Hx & E).
  apply N.eqb_eq in E. apply existsb_exists.
  exists (if target x then set x else x). split.
  - unfold update_rows. apply in_map_iff. eauto.
  - pose proof (existsb_false_In _ l x He Hx) as Hc. simpl in Hc.
    destruct (target x); [|now apply N.eqb_eq].
    simpl in Hc. apply andb_false_iff in Hc as [Hc|Hc].
    + apply negb_false_iff, N.eqb_eq in Hc. rewrite <- Hc. now apply N.eqb_eq.
    + exfalso. assert (existsb (fun a0 => sql_eq (ref a0) (Some (id x))) rs = true).
      { apply existsb_exists. exists a. split; [assumption|].
        rewrite Ek, E. simpl. apply N.eqb_refl. }
      congruence.
Qed.

Lemma same_ref_eq (a b : option uuid) : same_ref a b = true -> a = b.
Proof.
  destruct a, b; simpl; intro H; try discriminate H; try reflexivity.
  apply N.eqb_eq in H. now subst.
Qed.

(** A reference that an UPDATE changes is checked. *)
Lemma referencing_update (target : B -> bool) (set : B -> B) (l : list A) (rs : list B) :
  forallb (fun a => references id l (ref a)) rs = true ->
  existsb (fun r => target r && negb (kept_or_references id l (ref r) (ref (set r)))) rs
  = false ->
  forallb (fun a => references id l (ref a)) (update_rows target set rs) = true.
Proof.
  rewrite !forallb_forall. intros H He a Ha.
  apply In_update_rows in Ha as (x & Hx & ->).
  pose proof (existsb_false_In _ rs x He Hx) as Hc. simpl in Hc.
  destruct (target x); [|auto]. simpl in Hc. apply negb_false_iff in Hc.
  unfold kept_or_references in Hc. apply orb_true_iff in Hc as [Hc|Hc]; [|assumption].
  apply same_ref_eq in Hc. rewrite <- Hc. auto.
Qed.

(** An UPDATE that leaves the reference column alone. *)
Lemma referencing_kept (target : B -> bool) (set : B -> B) (l : list A) (rs : list B) :
  (forall r, ref (set r) = ref r) ->
  forallb (fun a => references id l (ref a)) rs = true ->
  forallb (fun a => references id l (ref a)) (update_rows target set rs) = true.
Proof.
  rewrite !forallb_forall. intros Hk H a Ha.
  apply In_update_rows in Ha as (x & Hx & ->).
  destruct (target x); [rewrite Hk|]; auto.
Qed.
End References.

Lemma forallb_mapped {A B : Type} (f : B -> bool) (g : A -> B) (l : list A) :
  forallb f (map g l) = forallb (fun x => f (g x)) l.
Proof. induction l as [|x l IH]; simpl; [reflexivity|now rewrite IH]. Qed.

(** ON DELETE SET NULL: doctors of a deleted department lose the reference,
    the others keep a valid one. *)
Lemma set_department_null_references (gone : Departments.row -> bool)
    (deps : list Departments.row) (l : list Doctors.row) :
  forallb (fun x => references Departments.id deps (Doctors.department_id x)) l = true ->
  forallb (fun x => references Departments.id (filter (fun r => negb (gone r)) deps)
                      (Doctors.department_id x))
          (map (set_department_null (filter gone deps)) l) = true.
Proof.
  rewrite forallb_mapped, !forallb_forall. intros H x Hx. specialize (H x Hx).
  unfold set_department_null.
  destruct (refers_to Departments.id (filter gone deps) (Doctors.department_id x)) eqn:E;
    [reflexivity|].
  now apply references_survive.
Qed.

Lemma forallb_mapped_same {A : Type} (f : A -> bool) (g : A -> A) (l : list A) :
  (forall x, f (g x) = f x) ->
  forallb f l = true -> forallb f (map g l) = true.
Proof.
  intros Hg H. rewrite forallb_mapped, <- H.
  induction l as [|x l IH]; simpl; [reflexivity|].
  rewrite Hg. f_equal. apply IH.
  simpl in H. now apply andb_true_iff in H.
Qed.

Lemma set_department_null_profile_references (dead : list Departments.row)
    (ps : list Profiles.row) (l : list Doctors.row) :
  forallb (fun x => references Profiles.id ps (Doctors.profile_id x)) l = true ->
  forallb (fun x => references Profiles.id ps (Doctors.profile_id x))
          (map (set_department_null dead) l) = true.
Proof.
  apply forallb_mapped_same. intro x. unfold set_department_null.
  destruct (refers_to Departments.id dead (Doctors.department_id x)); reflexivity.
Qed.

Lemma update_profile_email_confirmed_ids (b : bool) (k : uuid) (l : list Profiles.row) :
  map Profiles.id
      (update_rows (fun p => N.eqb (Profiles.id p) k) (set_email_confirmed b) l)
  = map Profiles.id l.
Proof. now apply map_update_rows_id. Qed.

#[local] Hint Resolve referencing_grows referencing_cascade referencing_unreferenced
  referencing_update_target referencing_update set_department_null_references
  set_department_null_profile_references : consistency.

Lemma migration_references (ids : list uuid) (now : timestamptz) :
  references_consistent (migration ids now).
Proof. constructor; reflexivity. Qed.

Lemma exec_references (s : stmt) (d d' : db) :
  references_consistent d -> exec s d = Ok d' -> references_consistent d'.
Proof.
  intros [R1 R2 R3 R4 R5 R6] H.
  destruct s; simpl in H; unfold_statements H;
    split_ifs H; injection H as <-; to_true;
    constructor; simpl; auto 6 with consistency.
  - apply (referencing_same_ids Doctors.id Availabilities.doctor_id (doctors d));
      [apply set_department_null_ids|assumption].
  - apply (referencing_same_ids Doctors.id Appointments.doctor_id (doctors d));
      [apply set_department_null_ids|assumption].
  - apply (referencing_same_ids Profiles.id Doctors.profile_id (profiles d));
      [apply update_profile_email_confirmed_ids|assumption].
  - apply (referencing_same_ids Profiles.id Appointments.patient_id (profiles d));
      [apply update_profile_email_confirmed_ids|assumption].
Qed.

Lemma reachable_references (d : db) : reachable d -> references_consistent d.
Proof.
  induction 1 as [ids now _|d s d' _ IH H].
  - apply migration_references.
  - exact (exec_references s d d' IH H).
Qed.

Lemma doctor_of_profile_unique (l : list Doctors.row) (x y : Doctors.row) (u : uuid) :
  distinct_refs (map Doctors.profile_id l) = true ->
  In x l -> In y l ->
  Doctors.profile_id x = Some u -> Doctors.profile_id y = Some u -> x = y.
Proof.
  induction l as [|z l IH]; simpl; [intros _ []|].
  intros K5 Hx Hy Ex Ey.
  apply andb_true_iff in K5 as [Kz K5]. apply negb_true_iff in Kz.
  assert (Hz : forall w, In w l -> Doctors.profile_id w = Some u ->
                         Doctors.profile_id z = Some u -> False).
  { intros w Hw Ew Ez.
    assert (existsb (sql_eq (Doctors.profile_id z)) (map Doctors.profile_id l) = true).
    { apply existsb_exists. exists (Some u). split; [rewrite <- Ew; now apply in_map|].
      rewrite Ez. simpl. apply N.eqb_refl. }
    congruence. }
  destruct Hx as [->|Hx], Hy as [->|Hy]; eauto.
  - exfalso; eauto.
  - exfalso; eauto.
Qed.


(** ** The sample databases are reachable *)

Lemma booked_db_reachable : reachable booked_db.
Proof.
  apply (reachable_exec sample_db (InsertAppointment owner (booking 1000%N 1%N pending))).
  - exact sample_db_reachable.
  - vm_compute. reflexivity.
Qed.

Lemma confirmed_db_reachable : reachable confirmed_db.
Proof.
  apply (reachable_exec booked_db
           (UpdateAppointments owner
              (Some (fun r => N.eqb (Appointments.id r) 1000%N))
              (fun r => set_doctor_note None (set_status confirmed r)))).
  - exact booked_db_reachable.
  - vm_compute. reflexivity.
Qed.

Lemma cancelled_db_reachable : reachable cancelled_db.
Proof.
  apply (reachable_exec booked_db
           (UpdateAppointments owner
              (Some (fun r => N.eqb (Appointments.id r) 1000%N))
              (fun r => set_cancelled_by (Some patient) (set_status cancelled r)))).
  - exact booked_db_reachable.
  - vm_compute. reflexivity.
Qed.

Lemma available_db_reachable : reachable available_db.
Proof.
  apply (reachable_exec sample_db
           (InsertAvailability owner
              (Availabilities.mk 300%N (Some 20%N) 1%Z 32400000000%Z 61200000000%Z None))).
  - exact sample_db_reachable.
  - vm_compute. reflexivity.
Qed.

Example booked_db_appointments :
  appointments booked_db = [booking 1000%N 1%N pending].
Proof. reflexivity. Qed.

Example confirmed_db_appointments :
  appointments confirmed_db = [booking 1000%N 1%N confirmed].
Proof. reflexivity. Qed.

Example cancelled_db_appointments :
  appointments cancelled_db = [set_cancelled_by (Some patient) (booking 1000%N 1%N cancelled)].
Proof. reflexivity. Qed.

Example rebooked_db_appointments :
  appointments rebooked_db
  = [set_cancelled_by (Some patient) (booking 1000%N 1%N cancelled);
     booking 1003%N 1%N pending].
Proof. reflexivity. Qed.

Example sample_db_roles :
  map (fun p => (Profiles.id p, Profiles.role p, Profiles.email_confirmed p))
      (profiles sample_db)
  = [ (1%N, patient, Some true); (2%N, doctor, Some true); (3%N, admin, Some false);
      (4%N, patient, Some true); (5%N, patient, Some false) ].
Proof. reflexivity. Qed.

(** ** Expansion of the policies *)

(** More fuel changes nothing: the nesting never gets as deep as six. *)
Lemma expand_fuel (n : nat) (t : table) (cmd : command) (reads : bool) :
  expand (6 + n) [] t (commands_of cmd reads) = policy_recursion t cmd reads.
Proof. destruct t, cmd, reads; reflexivity. Qed.

(** Which statements of an API caller end in the recursion: every one on
    departments, doctors, doctor_availabilities and appointments, and on
    profiles the ones that read. *)
Lemma policy_recursion_cases (t : table) (cmd : command) (reads : bool) :
  policy_recursion t cmd reads
  = match t with
    | tbl_profiles =>
        if reads || command_eqb cmd SELECT then Some tbl_profiles else None
    | _ => Some tbl_profiles
    end.
Proof. destruct t, cmd, reads; reflexivity. Qed.

Lemma policy_error_api (uid : option uuid) (t : table) (cmd : command) (reads : bool) :
  t <> tbl_profiles ->
  policy_error (api uid) t cmd reads = Some recursion.
Proof. destruct t, cmd, reads; intro H; try reflexivity; contradiction. Qed.

Lemma policy_error_api_profiles (uid : option uuid) (cmd : command) :
  policy_error (api uid) tbl_profiles cmd true = Some recursion.
Proof. destruct cmd; reflexivity. Qed.

Lemma policy_error_owner (t : table) (cmd : command) (reads : bool) :
  policy_error owner t cmd reads = None.
Proof. reflexivity. Qed.


(** ** What a statement of an API caller comes to *)

Ltac by_expansion :=
  intros;
  repeat match goal with
  | w : option (_ -> bool) |- _ => destruct w
  end;
  reflexivity.

Lemma api_insert_appointment (uid : option uuid) (r : Appointments.row) (d : db) :
  insert_appointment (api uid) r d = Err recursion.
Proof. by_expansion. Qed.

Lemma api_update_appointments (uid : option uuid) (where_ : option (Appointments.row -> bool))
    (set : Appointments.row -> Appointments.row) (d : db) :
  update_appointments (api uid) where_ set d = Err recursion.
Proof. by_expansion. Qed.

Lemma api_delete_appointments (uid : option uuid) (where_ : option (Appointments.row -> bool))
    (d : db) :
  delete_appointments (api uid) where_ d = Err recursion.
Proof. by_expansion. Qed.

Lemma api_select_appointments (uid : option uuid) (where_ : option (Appointments.row -> bool))
    (d : db) :
  select_appointments (api uid) where_ d = Error recursion.
Proof. by_expansion. Qed.

Lemma api_select_doctors (uid : option uuid) (where_ : option (Doctors.row -> bool)) (d : db) :
  select_doctors (api uid) where_ d = Error recursion.
Proof. by_expansion. Qed.

Lemma api_select_departments (uid : option uuid) (where_ : option (Departments.row -> bool))
    (d : db) :
  select_departments (api uid) where_ d = Error recursion.
Proof. by_expansion. Qed.

(** Every statement of an API caller on a table other than profiles ends
    in the recursion error. *)
Lemma api_statement_refused (s : stmt) (uid : option uuid) (t : table) (d : db) :
  issuer s = Some (api uid) -> statement_table s = Some t -> t <> tbl_profiles ->
  exec s d = Err recursion.
Proof.
  intros Hc Ht Hne.
  destruct s; simpl in Hc, Ht; try discriminate Hc;
    injection Hc as ->; injection Ht as <-; try contradiction; simpl; by_expansion.
Qed.

(** A DELETE on profiles of an API caller: no policy covers it. *)
Lemma remove_nothing (gone : Profiles.row -> bool) (d : db) :
  (forall p, gone p = false) -> remove_profiles gone d = d.
Proof.
  intro Hg. unfold remove_profiles, remove_doctors. simpl.
  assert (E : filter gone (profiles d) = []).
  { induction (profiles d) as [|p l IH]; simpl; [reflexivity|]. now rewrite Hg. }
  rewrite E. destruct d as [ds ps xs vs aps]. simpl.
  assert (F : forall (A : Type) (l : list A), filter (fun _ => true) l = l).
  { intros A l. induction l as [|x l IH]; simpl; [reflexivity|now rewrite IH]. }
  f_equal.
  - rewrite (filter_ext _ (fun _ => true)); [apply F|]. intro p. now rewrite Hg.
  - rewrite (filter_ext _ (fun _ => true)); [apply F|]. intro x.
    now destruct (Doctors.profile_id x).
  - rewrite (filter_ext _ (fun _ => true)); [apply F|]. intro a.
    rewrite (filter_ext _ (fun _ => false)) by (intro x; now destruct (Doctors.profile_id x)).
    assert (G : forall (l : list Doctors.row), filter (fun _ => false) l = []).
    { intro l. induction l as [|x l IH]; simpl; auto. }
    rewrite G. now destruct (Availabilities.doctor_id a).
  - rewrite (filter_ext _ (fun _ => true)).
    + rewrite F. rewrite (filter_ext _ (fun _ => true)); [apply F|]. intro a.
      rewrite (filter_ext _ (fun _ => false)) by (intro x; now destruct (Doctors.profile_id x)).
      assert (G : forall (l : list Doctors.row), filter (fun _ => false) l = []).
      { intro l. induction l as [|x l IH]; simpl; auto. }
      rewrite G. now destruct (Appointments.doctor_id a).
    + intro a. now destruct (Appointments.patient_id a).
Qed.

Lemma api_delete_profiles (uid : option uuid) (where_ : option (Profiles.row -> bool)) (d : db) :
  after d (delete_profiles (api uid) where_ d) = d.
Proof.
  destruct where_ as [w|]; [reflexivity|].
  unfold delete_profiles. simpl. apply remove_nothing.
  intro p. reflexivity.
Qed.

(** No statement that comes through the API touches the appointments,
    the doctors, their availabilities or the departments. *)
Lemma api_statement_frame (s : stmt) (uid : option uuid) (d : db) :
  issuer s = Some (api uid) ->
  departments (after d (exec s d)) = departments d
  /\ doctors (after d (exec s d)) = doctors d
  /\ doctor_availabilities (after d (exec s d)) = doctor_availabilities d
  /\ appointments (after d (exec s d)) = appointments d.
Proof.
  intro Hc.
  destruct s; simpl in Hc; try discriminate Hc; injection Hc as ->; simpl;
    try (rewrite api_delete_profiles; auto);
    try (repeat match goal with
         | w : option (_ -> bool) |- _ => destruct w
         end; simpl; auto; fail).
  - (* insert_profile *)
    destruct (insert_profile (api uid) r d) as [d'|e] eqn:H; simpl; auto.
    unfold insert_profile in H. split_ifs H. injection H as <-. auto.
  - (* update_profiles *)
    destruct (update_profiles (api uid) where_ set d) as [d'|e] eqn:H; simpl; auto.
    unfold update_profiles in H. split_ifs H. injection H as <-. auto.
Qed.

(** The events on auth.users add no appointment and change none. *)
Lemma auth_event_appointments (s : stmt) (d : db) (a : Appointments.row) :
  issuer s = None ->
  In a (appointments (after d (exec s d))) -> In a (appointments d).
Proof.
  intro Hc. destruct s; simpl in Hc; try discriminate Hc; simpl.
  - unfold handle_new_user.
    destruct (role_of_text _); simpl; [|auto].
    destruct (has_id _ _ _); simpl; auto.
  - auto.
  - intro H. apply filter_In in H as [H _]. apply filter_In in H as [H _]. exact H.
Qed.

Lemma step_appointments (s : stmt) (d : db) (a : Appointments.row) :
  by_owner s = false ->
  In a (appointments (after d (exec s d))) -> In a (appointments d).
Proof.
  unfold by_owner. destruct (issuer s) as [[|uid]|] eqn:Hc; intro H; try discriminate H.
  - destruct (api_statement_frame s uid d Hc) as (_ & _ & _ & ->). auto.
  - now apply auth_event_appointments.
Qed.

Lemma play_appointments (ss : list stmt) (d : db) (a : Appointments.row) :
  forallb (fun s => negb (by_owner s)) ss = true ->
  In a (appointments (play ss d)) -> In a (appointments d).
Proof.
  revert d. induction ss as [|s ss IH]; simpl; intros d H Ha; [exact Ha|].
  apply andb_true_iff in H as [Hs Hss]. apply negb_true_iff in Hs.
  apply (step_appointments s d a Hs). now apply IH.
Qed.

Lemma play_reachable (ss : list stmt) (d : db) : reachable d -> reachable (play ss d).
Proof.
  revert d. induction ss as [|s ss IH]; simpl; intros d Hd; [exact Hd|].
  apply IH. destruct (exec s d) as [d'|e] eqn:E; simpl; [|exact Hd].
  exact (reachable_exec d s d' Hd E).
Qed.

(** ** What an UPDATE of appointments does to each row *)

(** A row is either left alone, or replaced by [set] of it; the latter only
    if the WHERE clause names it. *)
Lemma update_appointments_rows (c : caller) (where_ : option (Appointments.row -> bool))
    (set : Appointments.row -> Appointments.row) (d : db) (i : nat) (old : Appointments.row) :
  nth_error (appointments d) i = Some old ->
  exists new,
    nth_error (appointments (after d (update_appointments c where_ set d))) i = Some new
    /\ (new = old \/ (new = set old /\ matches where_ old = true)).
Proof.
  intro Hi.
  destruct (update_appointments c where_ set d) as [d'|e] eqn:H; simpl.
  - unfold update_appointments in H. split_ifs H. injection H as <-. simpl.
    rewrite (nth_error_update_rows _ _ _ i old Hi).
    destruct (appointments_update_target d c where_ old) eqn:Et; eauto.
    eexists. split; [reflexivity|]. right. split; [reflexivity|].
    unfold appointments_update_target in Et.
    apply andb_true_iff in Et as [Et _]. now apply andb_true_iff in Et as [Hw _].
  - eauto.
Qed.

(** The other tables are out of reach of an UPDATE of appointments. *)
Lemma update_appointments_frame (c : caller) (where_ : option (Appointments.row -> bool))
    (set : Appointments.row -> Appointments.row) (d : db) :
  let d' := after d (update_appointments c where_ set d) in
  departments d' = departments d /\ profiles d' = profiles d /\ doctors d' = doctors d
  /\ doctor_availabilities d' = doctor_availabilities d
  /\ List.length (appointments d') = List.length (appointments d).
Proof.
  destruct (update_appointments c where_ set d) as [d'|e] eqn:H; simpl; auto 6.
  unfold update_appointments in H. split_ifs H. injection H as <-. simpl.
  unfold update_rows. rewrite length_map. auto 6.
Qed.


(** ** No double booking *)

Lemma insert_appointment_owner (r : Appointments.row) (d : db) :
  acceptable r d = true ->
  slot_taken r (appointments d) = false ->
  insert_appointment owner r d = Ok (with_appointments (appointments d ++ [r]) d).
Proof.
  unfold acceptable, insert_appointment. intros Ha Hs.
  repeat (apply andb_true_iff in Ha as [Ha ?]). apply negb_true_iff in Ha.
  simpl. now rewrite Ha, Hs, H, H0, H1.
Qed.

Lemma same_slot_trans (a b c : Appointments.row) :
  same_slot a b = true -> same_slot b c = true -> same_slot a c = true.
Proof.
  unfold same_slot. intros H1 H2.
  repeat (apply andb_true_iff in H1 as [H1 ?]).
  repeat (apply andb_true_iff in H2 as [H2 ?]).
  repeat (apply andb_true_iff; split).
  - eapply sql_eq_trans; eassumption.
  - apply Z.eqb_eq. etransitivity; apply Z.eqb_eq; eassumption.
  - apply Z.eqb_eq. etransitivity; apply Z.eqb_eq; eassumption.
Qed.

(** Rows of one slot find the same entries in the index. *)
Lemma slot_taken_same_slot (r1 r2 : Appointments.row) (l : list Appointments.row) :
  same_slot r1 r2 = true ->
  is_active (Appointments.status r1) = true ->
  is_active (Appointments.status r2) = true ->
  slot_taken r2 l = slot_taken r1 l.
Proof.
  intros Hs H1 H2. unfold slot_taken. rewrite H1, H2. simpl.
  apply existsb_pointwise. intro x.
  destruct (is_active (Appointments.status x)); simpl; [|reflexivity].
  destruct (same_slot r1 x) eqn:E1.
  - apply (same_slot_trans r2 r1 x); [now rewrite same_slot_sym|assumption].
  - destruct (same_slot r2 x) eqn:E2; [|reflexivity].
    rewrite <- E1. symmetry. exact (same_slot_trans r1 r2 x Hs E2).
Qed.

(** The loser of a race for a free slot: once [r1] is in, [r2] is refused
    by the index. *)
Lemma second_insert_refused (r1 r2 : Appointments.row) (d : db) :
  same_slot r1 r2 = true ->
  is_active (Appointments.status r1) = true ->
  is_active (Appointments.status r2) = true ->
  Appointments.id r1 <> Appointments.id r2 ->
  acceptable r2 d = true ->
  insert_appointment owner r2 (with_appointments (appointments d ++ [r1]) d) = Err SlotTaken.
Proof.
  intros Hs Ha1 Ha2 Hid Hacc.
  unfold acceptable in Hacc. repeat (apply andb_true_iff in Hacc as [Hacc ?]).
  apply negb_true_iff in Hacc.
  unfold insert_appointment. simpl.
  unfold has_id in *. rewrite existsb_app, Hacc. simpl.
  apply N.eqb_neq in Hid. rewrite Hid. simpl.
  rewrite slot_taken_app.
  assert (slot_taken r2 [r1] = true) as ->.
  { unfold slot_taken. simpl. now rewrite Ha1, Ha2, same_slot_sym, Hs. }
  now rewrite orb_true_r.
Qed.

Lemma race_outcome (r1 r2 : Appointments.row) (D : uuid) (d : db) :
  reachable d ->
  Appointments.doctor_id r1 = Some D ->
  same_slot r1 r2 = true ->
  is_active (Appointments.status r1) = true ->
  is_active (Appointments.status r2) = true ->
  Appointments.id r1 <> Appointments.id r2 ->
  acceptable r1 d = true ->
  acceptable r2 d = true ->
  slot_taken r1 (appointments d) = false ->
  let d1 := with_appointments (appointments d ++ [r1]) d in
  insert_appointment owner r1 d = Ok d1
  /\ insert_appointment owner r2 d1 = Err SlotTaken
  /\ occupants D (Appointments.appointment_date r1) (Appointments.appointment_time r1)
               (after d1 (insert_appointment owner r2 d1)) = 1.
Proof.
  intros Hd HD Hs Ha1 Ha2 Hid Hacc1 Hacc2 Hfree d1.
  pose proof (insert_appointment_owner r1 d Hacc1 Hfree) as H1.
  pose proof (second_insert_refused r1 r2 d Hs Ha1 Ha2 Hid Hacc2) as H2.
  fold d1 in H1, H2. repeat split; try assumption.
  rewrite H2. simpl.
  assert (Hd1 : reachable d1) by exact (reachable_exec d (InsertAppointment owner r1) d1 Hd H1).
  pose proof (index_occupants D (Appointments.appointment_date r1)
                (Appointments.appointment_time r1) (appointments d1)
                (consistent_index d1 (reachable_consistent d1 Hd1))) as Hle.
  assert (Ho : occupies D (Appointments.appointment_date r1)
                          (Appointments.appointment_time r1) r1 = true).
  { unfold occupies. rewrite HD, Ha1, !Z.eqb_refl. simpl. now rewrite N.eqb_refl. }
  unfold occupants, d1 in *. simpl in *.
  rewrite filter_app, length_app in *. simpl in *. rewrite Ho in *. simpl in *. lia.
Qed.

(** C1. In every reachable database a slot (doctor, date, time) holds at
    most one pending or confirmed appointment. An insert that comes
    through the API, as createAppointment does, never gets as far as the
    index: the policies of appointments cannot be expanded and the insert
    fails with the recursion error, so of two such calls none succeeds.
    Where no policy applies (statements of the owner of the tables), two
    inserts for the same free slot that are otherwise acceptable end as
    the claim says, in either order: the first one succeeds, the second
    one fails with SlotTaken, raised by the unique index inside the insert
    itself, and exactly one row occupies the slot. *)
Theorem at_most_one_active_booking (d : db) :
  reachable d ->
  (forall D dt tm, occupants D dt tm d <= 1)
  /\ (forall uid r,
        insert_appointment (api uid) r d = Err recursion
        /\ after d (insert_appointment (api uid) r d) = d)
  /\ (forall r1 r2 D,
        Appointments.doctor_id r1 = Some D ->
        same_slot r1 r2 = true ->
        is_active (Appointments.status r1) = true ->
        is_active (Appointments.status r2) = true ->
        Appointments.id r1 <> Appointments.id r2 ->
        acceptable r1 d = true ->
        acceptable r2 d = true ->
        slot_taken r1 (appointments d) = false ->
        let d1 := with_appointments (appointments d ++ [r1]) d in
        let d2 := with_appointments (appointments d ++ [r2]) d in
        (insert_appointment owner r1 d = Ok d1
         /\ insert_appointment owner r2 d1 = Err SlotTaken
         /\ occupants D (Appointments.appointment_date r1) (Appointments.appointment_time r1)
                      (after d1 (insert_appointment owner r2 d1)) = 1)
        /\ (insert_appointment owner r2 d = Ok d2
            /\ insert_appointment owner r1 d2 = Err SlotTaken
            /\ occupants D (Appointments.appointment_date r1) (Appointments.appointment_time r1)
                         (after d2 (insert_appointment owner r1 d2)) = 1)).
Proof.
  intro Hd. split; [|split].
  - intros D dt tm. apply index_occupants.
    apply (consistent_index d (reachable_consistent d Hd)).
  - intros uid r. now rewrite api_insert_appointment.
  - intros r1 r2 D HD Hs Ha1 Ha2 Hid Hacc1 Hacc2 Hfree d1 d2. split.
    + now apply race_outcome.
    + assert (Hs' : same_slot r2 r1 = true) by now rewrite same_slot_sym.
      assert (HD' : Appointments.doctor_id r2 = Some D).
      { unfold same_slot in Hs. rewrite HD in Hs.
        apply andb_true_iff in Hs as [Hs _]. apply andb_true_iff in Hs as [Hs _].
        apply sql_eq_true in Hs as (k & Ek & ->). congruence. }
      assert (Hdt : Appointments.appointment_date r2 = Appointments.appointment_date r1
                    /\ Appointments.appointment_time r2 = Appointments.appointment_time r1).
      { unfold same_slot in Hs'.
        apply andb_true_iff in Hs' as [Hs' Ht]. apply andb_true_iff in Hs' as [_ Hdt].
        apply Z.eqb_eq in Ht, Hdt. auto. }
      destruct Hdt as [<- <-].
      apply race_outcome; try assumption; try congruence.
      now rewrite (slot_taken_same_slot r1 r2).
Qed.

(** The race of the scenario: patients 1 and 4 both ask for doctor 20 on
    day 9000 at 14:00. *)
Lemma at_most_one_active_booking_witness :
  occupants 20%N 9000%Z 50400000000%Z sample_db <= 1
  /\ insert_appointment (api (Some 1%N)) (booking 1000%N 1%N pending) sample_db = Err recursion
  /\ insert_appointment (api (Some 4%N)) (booking 1001%N 4%N pending) sample_db = Err recursion
  /\ insert_appointment owner (booking 1000%N 1%N pending) sample_db = Ok booked_db
  /\ insert_appointment owner (booking 1001%N 4%N pending) booked_db = Err SlotTaken.
Proof.
  destruct (at_most_one_active_booking sample_db sample_db_reachable) as (Hle & Hapi & Hrace).
  split; [apply Hle|].
  split; [apply Hapi|]. split; [apply Hapi|].
  destruct (Hrace (booking 1000%N 1%N pending) (booking 1001%N 4%N pending) 20%N)
    as [(H1 & H2 & _) _].
  - reflexivity.
  - vm_compute; reflexivity.
  - vm_compute; reflexivity.
  - vm_compute; reflexivity.
  - vm_compute. discriminate.
  - vm_compute; reflexivity.
  - vm_compute; reflexivity.
  - vm_compute; reflexivity.
  - split; [exact H1|exact H2].
Defined.


(** ** Roles of profiles *)

(** An UPDATE on profiles gets through the API only without a WHERE
    clause and with constants in its SET clause. *)
Lemma api_update_profiles_blind (uid : option uuid) (where_ : option (Profiles.row -> bool))
    (set : profiles_set) (d d' : db) :
  update_profiles (api uid) where_ set d = Ok d' ->
  where_ = None /\ exists p, set = set_columns p.
Proof.
  destruct where_ as [w|], set as [p|f]; try discriminate. eauto.
Qed.

(** Who can change the role of an existing profile with one statement. *)
Lemma profile_role_step (s : stmt) (d d' : db) (p p' : Profiles.row) :
  consistent d ->
  exec s d = Ok d' ->
  In p (profiles d) -> In p' (profiles d') ->
  Profiles.id p' = Profiles.id p ->
  Profiles.role p' <> Profiles.role p ->
  (exists set, s = UpdateProfiles (api (Some (Profiles.id p))) None (set_columns set))
  \/ (exists where_ set, s = UpdateProfiles owner where_ set).
Proof.
  intros Hd H Hp Hp' Hid Hro.
  pose proof (consistent_profiles d Hd) as Hk.
  assert (Hsame : In p' (profiles d) -> False).
  { intro Hin. apply Hro. f_equal.
    apply (unique_by_id Profiles.id (profiles d)); assumption. }
  destruct s; simpl in H;
    try (destruct c as [|uid];
         [|try (rewrite (api_statement_refused _ uid _ d eq_refl eq_refl) in H
                  by discriminate; discriminate H)]);
    try (unfold_statements H; split_ifs H; injection H as <-;
         to_true; simpl in Hp'; exfalso; exact (Hsame Hp')).
  - (* insert_profile, owner *)
    unfold insert_profile in H. split_ifs H. injection H as <-. to_true. simpl in Hp'.
    apply in_app_or in Hp' as [Hp'|[<-|[]]]; [exfalso; auto|].
    exfalso.
    assert (has_id Profiles.id (Profiles.id r) (profiles d) = true).
    { apply has_id_In. rewrite Hid. now apply in_map. }
    congruence.
  - (* insert_profile, API *)
    unfold insert_profile in H. split_ifs H. injection H as <-. to_true. simpl in Hp'.
    apply in_app_or in Hp' as [Hp'|[<-|[]]]; [exfalso; auto|].
    exfalso.
    assert (has_id Profiles.id (Profiles.id r) (profiles d) = true).
    { apply has_id_In. rewrite Hid. now apply in_map. }
    congruence.
  - (* update_profiles, owner *)
    right. eauto.
  - (* update_profiles, API *)
    left.
    destruct (api_update_profiles_blind uid where_ set d d' H) as (-> & cols & ->).
    unfold update_profiles in H. split_ifs H. injection H as <-. to_true. simpl in Hp'.
    apply In_update_rows in Hp' as (x & Hx & ->).
    destruct (profiles_update_target d (api uid) false None x) eqn:Et; [|exfalso; auto].
    pose proof (existsb_false_In _ _ x E0 Hx) as Hc. simpl in Hc.
    simpl in Et. rewrite Et in Hc. simpl in Hc. apply negb_false_iff in Hc.
    rewrite andb_true_r in Hc.
    unfold profiles_update_using, users_can_update_their_own_profile_using in Et.
    apply sql_eq_true in Et as (k & -> & Ek). injection Ek as Ek.
    assert (x = p) as ->.
    { apply (unique_by_id Profiles.id (profiles d)); try assumption.
      unfold profiles_update_check, users_can_update_their_own_profile_check in Hc.
      simpl in Hc. apply N.eqb_eq in Hc. simpl in Hid. congruence. }
    rewrite <- Ek. eauto.
  - (* delete_profiles, owner *)
    unfold delete_profiles in H. split_ifs H. injection H as <-. simpl in Hp'.
    apply filter_In in Hp' as [Hp' _]. exfalso; auto.
  - (* delete_profiles, API *)
    assert (E : d' = d).
    { rewrite <- (api_delete_profiles uid where_ d). now rewrite H. }
    subst d'. exfalso; auto.
  - (* handle_new_user *)
    unfold handle_new_user in H. split_ifs H. injection H as <-. simpl in Hp'.
    apply in_app_or in Hp' as [Hp'|[<-|[]]]; [exfalso; auto|].
    simpl in Hid. exfalso.
    assert (has_id Profiles.id (au_id NEW) (profiles d) = true).
    { apply has_id_In. rewrite Hid. now apply in_map. }
    congruence.
  - (* update_profile_email_confirmed *)
    unfold update_profile_email_confirmed in H. injection H as <-. simpl in Hp'.
    apply In_update_rows in Hp' as (x & Hx & ->).
    exfalso. apply Hro.
    assert (x = p) as ->.
    { apply (unique_by_id Profiles.id (profiles d)); try assumption.
      destruct (N.eqb (Profiles.id x) (au_id NEW)); exact Hid. }
    destruct (N.eqb (Profiles.id p) (au_id NEW)); reflexivity.
  - (* auth_user_deleted *)
    unfold auth_user_deleted in H. injection H as <-. simpl in Hp'.
    apply filter_In in Hp' as [Hp' _]. exfalso; auto.
Qed.

(** C2 (as the code has it). The role of an existing profile is changed by
    one kind of statement only: an UPDATE of profiles that is issued by
    the profile's own user, or by the owner of the tables, to whom no
    policy applies. No other caller, no other statement and neither trigger
    function changes it. (Through the API such an UPDATE carries no WHERE
    clause and constants only.) *)
Theorem role_changed_only_by_owner (s : stmt) (d d' : db) (p p' : Profiles.row) :
  reachable d ->
  exec s d = Ok d' ->
  In p (profiles d) -> In p' (profiles d') ->
  Profiles.id p' = Profiles.id p ->
  Profiles.role p' <> Profiles.role p ->
  (exists set, s = UpdateProfiles (api (Some (Profiles.id p))) None (set_columns set))
  \/ (exists where_ set, s = UpdateProfiles owner where_ set).
Proof.
  intro Hd. apply profile_role_step. now apply reachable_consistent.
Qed.

Lemma role_changed_only_by_owner_witness :
  (exists set,
     UpdateProfiles (api (Some 1%N)) None (set_columns (role_column admin))
     = UpdateProfiles (api (Some 1%N)) None (set_columns set))
  \/ (exists where_ set,
        UpdateProfiles (api (Some 1%N)) None (set_columns (role_column admin))
        = UpdateProfiles owner where_ set).
Proof.
  apply (role_changed_only_by_owner
           (UpdateProfiles (api (Some 1%N)) None (set_columns (role_column admin)))
           sample_db
           (after sample_db
              (update_profiles (api (Some 1%N)) None (set_columns (role_column admin))
                 sample_db))
           (Profiles.mk 1%N "Pat" None patient (Some true) (Some 10%Z))
           (Profiles.mk 1%N "Pat" None admin (Some true) (Some 10%Z))).
  - exact sample_db_reachable.
  - vm_compute; reflexivity.
  - vm_compute; auto.
  - vm_compute; auto.
  - reflexivity.
  - simpl. discriminate.
Defined.

(** C2 as stated fails: patient 1 makes themself an admin with
    UPDATE profiles SET role = 'admin', which reaches their own row
    only. *)
Lemma role_is_not_immutable :
  caller_role sample_db (Some 1%N) = Some patient
  /\ is_ok (update_profiles (api (Some 1%N)) None (set_columns (role_column admin))
              sample_db) = true
  /\ caller_role
       (after sample_db
          (update_profiles (api (Some 1%N)) None (set_columns (role_column admin)) sample_db))
       (Some 1%N) = Some admin.
Proof. repeat split; vm_compute; reflexivity. Qed.


(** ** Updates of appointments *)

(** C3. An update of appointments issued by a caller with role doctor
    changes a row only if the caller's doctors row is the row's doctor_id
    and the status goes from pending to confirmed or rejected, or from
    pending or confirmed to cancelled; an update that would change a row
    in any other way is denied and leaves the row as it is. The code is
    stricter than that: the policies of appointments cannot be expanded,
    so that every UPDATE that comes through the API fails with the
    recursion error. *)
Theorem doctor_update_rule (d : db) (uid : option uuid)
    (where_ : option (Appointments.row -> bool)) (set : Appointments.row -> Appointments.row)
    (i : nat) (old : Appointments.row) :
  caller_role d uid = Some doctor ->
  nth_error (appointments d) i = Some old ->
  (forall new,
     nth_error (appointments (after d (update_appointments (api uid) where_ set d))) i
     = Some new ->
     new = old \/ doctor_rule d uid old new = true)
  /\ (doctor_rule d uid old (set old) = false ->
      is_ok (update_appointments (api uid) where_ set d) = false
      /\ nth_error (appointments (after d (update_appointments (api uid) where_ set d))) i
         = Some old)
  /\ update_appointments (api uid) where_ set d = Err recursion.
Proof.
  intros _ Hi. rewrite api_update_appointments. simpl.
  repeat split; try assumption.
  intros new Hn. left. congruence.
Qed.

(** Doctor 2 tries to set the pending appointment 1000, which is theirs,
    to completed. *)
Lemma doctor_update_rule_witness :
  doctor_rule booked_db (Some 2%N) (booking 1000%N 1%N pending) (booking 1000%N 1%N completed)
  = false
  /\ is_ok (update_appointments (api (Some 2%N))
              (Some (fun r => N.eqb (Appointments.id r) 1000%N)) (set_status completed)
              booked_db) = false
  /\ nth_error
       (appointments
          (after booked_db
             (update_appointments (api (Some 2%N))
                (Some (fun r => N.eqb (Appointments.id r) 1000%N)) (set_status completed)
                booked_db))) 0
     = Some (booking 1000%N 1%N pending).
Proof.
  split; [reflexivity|].
  destruct (doctor_update_rule booked_db (Some 2%N)
              (Some (fun r => N.eqb (Appointments.id r) 1000%N)) (set_status completed)
              0 (booking 1000%N 1%N pending))
    as (_ & H & _).
  - reflexivity.
  - reflexivity.
  - apply H. reflexivity.
Defined.

(** C4. Once an appointment is rejected, cancelled or completed, nothing
    that callers do changes its status again: whatever statements come
    through the API, from whichever users, and whatever happens on
    auth.users in between, the appointment, as long as it exists, is the
    row it was. (The policies of appointments cannot be expanded, so that
    no statement of an API caller changes any appointment, terminal or
    not; the deletion of a user takes the user's appointments along.) *)
Theorem terminal_status_kept (ss : list stmt) (d : db) (a a' : Appointments.row) :
  reachable d ->
  forallb (fun s => negb (by_owner s)) ss = true ->
  In a (appointments d) ->
  is_terminal (Appointments.status a) = true ->
  In a' (appointments (play ss d)) ->
  Appointments.id a' = Appointments.id a ->
  a' = a /\ Appointments.status a' = Appointments.status a.
Proof.
  intros Hd Hss Ha _ Ha' Hid.
  assert (a' = a) as ->; [|auto].
  apply (unique_by_id Appointments.id (appointments d)); try assumption.
  - apply (keys_appointments d (reachable_keys d Hd)).
  - exact (play_appointments ss d a' Hss Ha').
Qed.

(** The cancelled appointment 1000 after [sample_attempts]. *)
Lemma terminal_status_kept_witness :
  Appointments.status (set_cancelled_by (Some patient) (booking 1000%N 1%N cancelled))
  = cancelled
  /\ In (set_cancelled_by (Some patient) (booking 1000%N 1%N cancelled))
        (appointments (play sample_attempts cancelled_db)).
Proof.
  assert (Hin : In (set_cancelled_by (Some patient) (booking 1000%N 1%N cancelled))
                   (appointments (play sample_attempts cancelled_db))).
  { vm_compute. auto. }
  destruct (terminal_status_kept sample_attempts cancelled_db
              (set_cancelled_by (Some patient) (booking 1000%N 1%N cancelled))
              (set_cancelled_by (Some patient) (booking 1000%N 1%N cancelled))
              cancelled_db_reachable eq_refl (or_introl eq_refl) eq_refl Hin eq_refl)
    as [_ H].
  split; [exact H|exact Hin].
Defined.

(** C5, where the code departs from it. A caller with role patient who
    cancels an appointment of their own that is pending, as
    cancelAppointment does, meets every condition of the rule and is
    refused all the same: the policies of appointments cannot be
    expanded, the UPDATE fails with the recursion error and the row stays
    as it is. *)
Theorem patient_update_refused (d : db) (uid : option uuid)
    (where_ : option (Appointments.row -> bool)) (set : Appointments.row -> Appointments.row)
    (i : nat) (old : Appointments.row) :
  caller_role d uid = Some patient ->
  nth_error (appointments d) i = Some old ->
  matches where_ old = true ->
  patient_rule uid old (set old) = true ->
  update_appointments (api uid) where_ set d = Err recursion
  /\ nth_error (appointments (after d (update_appointments (api uid) where_ set d))) i
     = Some old.
Proof.
  intros _ Hi _ _. rewrite api_update_appointments. auto.
Qed.

(** Patient 1 cancels the pending appointment 1000 from the dashboard. *)
Lemma patient_update_refused_witness :
  PatientDashboard.cancelAppointment (api (Some 1%N)) 1000%N booked_db = Err recursion
  /\ nth_error
       (appointments
          (after booked_db (PatientDashboard.cancelAppointment (api (Some 1%N)) 1000%N booked_db)))
       0
     = Some (booking 1000%N 1%N pending).
Proof.
  apply (patient_update_refused booked_db (Some 1%N)
           (Some (fun r => N.eqb (Appointments.id r) 1000%N))
           (fun r => set_cancelled_by (Some patient) (set_status cancelled r))
           0 (booking 1000%N 1%N pending)); reflexivity.
Defined.

(** ** Creating and deleting appointments *)

(** C6. An insert into appointments by a caller whose id is not the new
    row's patient_id, or whose profile does not say email_confirmed =
    true, is denied and creates no row; so an insert succeeds only when
    both hold. (The policies of appointments cannot be expanded: the
    insert of every API caller is denied, with the recursion error.) *)
Theorem create_appointment_rule (d : db) (uid : option uuid) (r : Appointments.row) :
  (caller_email_confirmed d uid = false ->
      is_ok (insert_appointment (api uid) r d) = false
      /\ after d (insert_appointment (api uid) r d) = d)
  /\ (sql_eq uid (Appointments.patient_id r) = false ->
      is_ok (insert_appointment (api uid) r d) = false
      /\ after d (insert_appointment (api uid) r d) = d)
  /\ insert_appointment (api uid) r d = Err recursion.
Proof.
  rewrite api_insert_appointment. simpl. auto.
Qed.

(** Patient 5, whose e-mail address is not confirmed, asks for an
    appointment. *)
Lemma create_appointment_rule_witness :
  is_ok (insert_appointment (api (Some 5%N)) (booking 1002%N 5%N pending) sample_db) = false
  /\ after sample_db (insert_appointment (api (Some 5%N)) (booking 1002%N 5%N pending) sample_db)
     = sample_db.
Proof.
  destruct (create_appointment_rule sample_db (Some 5%N) (booking 1002%N 5%N pending))
    as (H & _).
  apply H. reflexivity.
Defined.

(** C7. A DELETE on appointments is denied to every caller: whoever issues
    it through the API and whatever its WHERE clause, it fails and removes
    no row. (It fails with the recursion error: the one policy that
    covers DELETE, the admins' FOR ALL policy, cannot be expanded.) And
    cancelAppointment is an UPDATE: it removes no row either. *)
Theorem delete_appointments_denied (uid : option uuid)
    (where_ : option (Appointments.row -> bool)) (d : db) :
  is_ok (delete_appointments (api uid) where_ d) = false
  /\ after d (delete_appointments (api uid) where_ d) = d
  /\ delete_appointments (api uid) where_ d = Err recursion
  /\ (forall client appointmentId,
        map Appointments.id
            (appointments (after d (PatientDashboard.cancelAppointment client appointmentId d)))
        = map Appointments.id (appointments d)).
Proof.
  rewrite api_delete_appointments. repeat split.
  intros client appointmentId. unfold PatientDashboard.cancelAppointment.
  apply nth_error_ext. intro i. rewrite !nth_error_map.
  destruct (nth_error (appointments d) i) as [old|] eqn:Hi.
  - destruct (update_appointments_rows client
                (Some (fun r => N.eqb (Appointments.id r) appointmentId))
                (fun r => set_cancelled_by (Some patient) (set_status cancelled r))
                d i old Hi) as (new & -> & [->|[-> _]]); reflexivity.
  - destruct (update_appointments_frame client
                (Some (fun r => N.eqb (Appointments.id r) appointmentId))
                (fun r => set_cancelled_by (Some patient) (set_status cancelled r)) d)
      as (_ & _ & _ & _ & Hlen).
    apply nth_error_None in Hi.
    assert (Hn : nth_error
                   (appointments
                      (after d
                         (update_appointments client
                            (Some (fun r => N.eqb (Appointments.id r) appointmentId))
                            (fun r => set_cancelled_by (Some patient) (set_status cancelled r))
                            d))) i = None).
    { apply nth_error_None. cbv zeta in Hlen. rewrite Hlen. exact Hi. }
    now rewrite Hn.
Qed.

Example admin_cannot_delete :
  caller_role booked_db (Some 3%N) = Some admin
  /\ appointments
       (after booked_db
          (delete_appointments (api (Some 3%N))
             (Some (fun r => N.eqb (Appointments.id r) 1000%N)) booked_db))
     = [booking 1000%N 1%N pending].
Proof. split; reflexivity. Qed.


(** ** Availabilities *)

Lemma same_ref_refl (a : option uuid) : same_ref a a = true.
Proof. destruct a; simpl; [apply N.eqb_refl|reflexivity]. Qed.

Lemma existsb_none {A : Type} (f : A -> bool) (l : list A) :
  (forall x, In x l -> f x = false) -> existsb f l = false.
Proof.
  intro H. apply not_true_is_false. intro E.
  apply existsb_exists in E as (x & Hx & E). rewrite (H x Hx) in E. discriminate E.
Qed.

Lemma update_rows_ext {A : Type} (t t' : A -> bool) (set : A -> A) (l : list A) :
  (forall r, t r = t' r) -> update_rows t set l = update_rows t' set l.
Proof. intro H. unfold update_rows. apply map_ext. intro r. now rewrite H. Qed.

(** Any availability can be given any two times. *)
Lemma set_times_accepted (d : db) (k : uuid) (s e : time) :
  reachable d ->
  update_availabilities owner (Some (fun r => N.eqb (Availabilities.id r) k)) (set_times s e) d
  = Ok (with_doctor_availabilities
          (update_rows (fun r => N.eqb (Availabilities.id r) k) (set_times s e)
                       (doctor_availabilities d))
          d).
Proof.
  intro Hd. unfold update_availabilities.
  pose proof (consistent_weekdays d (reachable_consistent d Hd)) as Hw.
  rewrite forallb_forall in Hw.
  rewrite policy_error_owner.
  rewrite (update_rows_ext _ (fun r => N.eqb (Availabilities.id r) k))
    by (intro r; unfold availabilities_update_target; simpl; now rewrite !andb_true_r).
  rewrite (existsb_none (fun r => _ && negb (permits owner _ _ && _)))
    by (intros r _; simpl; apply andb_false_r).
  rewrite (existsb_none (fun r => _ && negb (weekday_check _))).
  - rewrite (map_update_rows_id Availabilities.id) by reflexivity.
    rewrite (keys_availabilities d (reachable_keys d Hd)). simpl.
    rewrite existsb_none; [reflexivity|].
    intros r _. unfold kept_or_references. simpl. rewrite same_ref_refl.
    apply andb_false_r.
  - intros r Hr. specialize (Hw r Hr). unfold weekday_check in *. simpl.
    rewrite Hw. apply andb_false_r.
Qed.

(** C9 (as the code has it). Every availability of a reachable database has
    its weekday between 0 and 6; start_time and end_time are not compared
    with each other: whether an insert or an update is accepted does not
    depend on the two times it stores, and every availability can be
    given any two times by a statement that no policy stands against. *)
Theorem availability_constraints (d : db) :
  reachable d ->
  (forall r, In r (doctor_availabilities d) ->
     (0 <= Availabilities.weekday r <= 6)%Z)
  /\ (forall c r s e,
        is_ok (insert_availability c (set_times s e r) d)
        = is_ok (insert_availability c r d))
  /\ (forall c where_ set s e,
        is_ok (update_availabilities c where_ (fun r => set_times s e (set r)) d)
        = is_ok (update_availabilities c where_ set d))
  /\ (forall k s e,
        update_availabilities owner (Some (fun r => N.eqb (Availabilities.id r) k))
          (set_times s e) d
        = Ok (with_doctor_availabilities
                (update_rows (fun r => N.eqb (Availabilities.id r) k) (set_times s e)
                             (doctor_availabilities d))
                d)).
Proof.
  intro Hd. split; [|split; [|split]].
  - intros r Hr.
    pose proof (consistent_weekdays d (reachable_consistent d Hd)) as Hw.
    rewrite forallb_forall in Hw. specialize (Hw r Hr).
    unfold weekday_check in Hw. apply andb_true_iff in Hw as [H0 H6].
    apply Z.leb_le in H0, H6. lia.
  - intros c r s e. destruct r as [k dk wd s0 e0 ca].
    unfold insert_availability.
    destruct (policy_error c tbl_doctor_availabilities INSERT false); [reflexivity|].
    assert (Hp : permits c (availabilities_write d)
                   (set_times s e (Availabilities.mk k dk wd s0 e0 ca))
                 = permits c (availabilities_write d) (Availabilities.mk k dk wd s0 e0 ca))
      by (destruct c; reflexivity).
    rewrite Hp. unfold weekday_check. simpl.
    repeat match goal with
    | |- context [if ?c then _ else _] => destruct c; simpl
    end; reflexivity.
  - intros c where_ set s e.
    unfold update_availabilities.
    destruct (policy_error c tbl_doctor_availabilities UPDATE (has_where where_));
      [reflexivity|].
    assert (Hp : forall r, permits c (availabilities_write d) (set_times s e (set r))
                           = permits c (availabilities_write d) (set r))
      by (intro r; destruct c; reflexivity).
    assert (Hv : forall r, visible c (has_where where_) (availabilities_select d)
                             (set_times s e (set r))
                           = visible c (has_where where_) (availabilities_select d) (set r))
      by (intro r; unfold visible; destruct (has_where where_), c; reflexivity).
    rewrite (existsb_pointwise
               (fun r => availabilities_update_target d c where_ r
                         && negb (permits c (availabilities_write d) (set_times s e (set r))
                                  && visible c (has_where where_) (availabilities_select d)
                                       (set_times s e (set r))))
               (fun r => availabilities_update_target d c where_ r
                         && negb (permits c (availabilities_write d) (set r)
                                  && visible c (has_where where_) (availabilities_select d)
                                       (set r))))
      by (intro r; now rewrite Hp, Hv).
    assert (Hids : map Availabilities.id
                     (update_rows (availabilities_update_target d c where_)
                        (fun r => set_times s e (set r)) (doctor_availabilities d))
                   = map Availabilities.id
                       (update_rows (availabilities_update_target d c where_) set
                          (doctor_availabilities d))).
    { unfold update_rows. rewrite !map_map. apply map_ext. intro r.
      now destruct (availabilities_update_target d c where_ r). }
    rewrite Hids.
    change (fun r => availabilities_update_target d c where_ r
                     && negb (weekday_check (set_times s e (set r))))
      with (fun r => availabilities_update_target d c where_ r
                     && negb (weekday_check (set r))).
    change (fun r => availabilities_update_target d c where_ r
                     && negb (kept_or_references Doctors.id (doctors d)
                                (Availabilities.doctor_id r)
                                (Availabilities.doctor_id (set_times s e (set r)))))
      with (fun r => availabilities_update_target d c where_ r
                     && negb (kept_or_references Doctors.id (doctors d)
                                (Availabilities.doctor_id r)
                                (Availabilities.doctor_id (set r)))).
    repeat match goal with
    | |- context [if ?c then _ else _] => destruct c; simpl
    end; reflexivity.
  - intros k s e. now apply set_times_accepted.
Qed.

(** Doctor 20's Monday from 09:00 to 17:00, turned around. *)
Lemma availability_constraints_witness :
  update_availabilities owner (Some (fun r => N.eqb (Availabilities.id r) 300%N))
    (set_times 61200000000%Z 32400000000%Z) available_db
  = Ok (with_doctor_availabilities
          [Availabilities.mk 300%N (Some 20%N) 1%Z 61200000000%Z 32400000000%Z None]
          available_db).
Proof.
  destruct (availability_constraints available_db available_db_reachable) as (_ & _ & _ & H).
  exact (H 300%N 61200000000%Z 32400000000%Z).
Defined.

(** C9 as stated fails: the table takes an availability for Monday that
    starts at 17:00 and ends at 09:00. *)
Lemma availability_ends_before_start :
  (Availabilities.start_time
     (Availabilities.mk 301%N (Some 20%N) 2%Z 61200000000%Z 32400000000%Z None)
   >= Availabilities.end_time
        (Availabilities.mk 301%N (Some 20%N) 2%Z 61200000000%Z 32400000000%Z None))%Z
  /\ insert_availability owner
       (Availabilities.mk 301%N (Some 20%N) 2%Z 61200000000%Z 32400000000%Z None) sample_db
     = Ok (with_doctor_availabilities
             [Availabilities.mk 301%N (Some 20%N) 2%Z 61200000000%Z 32400000000%Z None]
             sample_db).
Proof. split; [simpl; lia|vm_compute; reflexivity]. Qed.

(** ** The patient's cancel writes two columns of one row *)

(** C10. cancelAppointment leaves the other tables alone, keeps every
    appointment in its place, changes no row whose id is not the given
    one, and in a row it does change writes status and cancelled_by only:
    id, patient_id, doctor_id, department_id, appointment_date,
    appointment_time, patient_note, doctor_note and created_at are kept.
    This holds for whichever caller the client stands for. *)
Theorem cancelAppointment_frame (client : caller) (appointmentId : uuid) (d : db) :
  departments (after d (PatientDashboard.cancelAppointment client appointmentId d))
  = departments d
  /\ profiles (after d (PatientDashboard.cancelAppointment client appointmentId d))
     = profiles d
  /\ doctors (after d (PatientDashboard.cancelAppointment client appointmentId d))
     = doctors d
  /\ doctor_availabilities (after d (PatientDashboard.cancelAppointment client appointmentId d))
     = doctor_availabilities d
  /\ List.length (appointments (after d (PatientDashboard.cancelAppointment client appointmentId d)))
     = List.length (appointments d)
  /\ forall i old,
       nth_error (appointments d) i = Some old ->
       exists new,
         nth_error (appointments (after d (PatientDashboard.cancelAppointment client appointmentId d))) i
         = Some new
         /\ Appointments.id new = Appointments.id old
         /\ Appointments.patient_id new = Appointments.patient_id old
         /\ Appointments.doctor_id new = Appointments.doctor_id old
         /\ Appointments.department_id new = Appointments.department_id old
         /\ Appointments.appointment_date new = Appointments.appointment_date old
         /\ Appointments.appointment_time new = Appointments.appointment_time old
         /\ Appointments.patient_note new = Appointments.patient_note old
         /\ Appointments.doctor_note new = Appointments.doctor_note old
         /\ Appointments.created_at new = Appointments.created_at old
         /\ (Appointments.id old <> appointmentId -> new = old)
         /\ (new = old
             \/ (Appointments.status new = cancelled
                 /\ Appointments.cancelled_by new = Some patient)).
Proof.
  unfold PatientDashboard.cancelAppointment.
  destruct (update_appointments_frame client
              (Some (fun r => N.eqb (Appointments.id r) appointmentId))
              (fun r => set_cancelled_by (Some patient) (set_status cancelled r)) d)
    as (H1 & H2 & H3 & H4 & H5).
  repeat (split; [assumption|]).
  intros i old Hi.
  destruct (update_appointments_rows client
              (Some (fun r => N.eqb (Appointments.id r) appointmentId))
              (fun r => set_cancelled_by (Some patient) (set_status cancelled r)) d i old Hi)
    as (new & Hi' & Hcase).
  exists new. split; [assumption|].
  destruct Hcase as [->|(-> & Hw)].
  - repeat (split; [reflexivity|]). auto.
  - simpl in Hw. apply N.eqb_eq in Hw. simpl.
    repeat (split; [reflexivity|]). split; [contradiction|]. right. auto.
Qed.

(** Appointment 1000, confirmed, with a note of the patient and one of the
    doctor, is cancelled where no policy applies: the row is written, and
    its other nine columns are as before. *)
Lemma cancelAppointment_frame_witness :
  exists new,
    nth_error
      (appointments (after noted_db (PatientDashboard.cancelAppointment owner 1000%N noted_db)))
      0
    = Some new
    /\ Appointments.status new = cancelled
    /\ Appointments.cancelled_by new = Some patient
    /\ Appointments.id new = 1000%N
    /\ Appointments.patient_id new = Some 1%N
    /\ Appointments.doctor_id new = Some 20%N
    /\ Appointments.department_id new = Some 101%N
    /\ Appointments.appointment_date new = 9000%Z
    /\ Appointments.appointment_time new = 50400000000%Z
    /\ Appointments.patient_note new = Some "first visit"
    /\ Appointments.doctor_note new = Some "bring your records"
    /\ Appointments.created_at new = Some 20%Z.
Proof.
  destruct (cancelAppointment_frame owner 1000%N noted_db) as (_ & _ & _ & _ & _ & H).
  destruct (H 0 noted_booking eq_refl)
    as (new & Hn & H1 & H2 & H3 & H4 & H5 & H6 & H7 & H8 & H9 & _ & _).
  exists new. split; [exact Hn|].
  assert (E : Some new
              = Some (set_cancelled_by (Some patient) (set_status cancelled noted_booking)))
    by (rewrite <- Hn; reflexivity).
  injection E as E.
  split; [rewrite E; reflexivity|]. split; [rewrite E; reflexivity|].
  repeat split; assumption.
Defined.


(** ** Listing appointments *)

Lemma date_time_leb_le (a b : Appointments.row) :
  date_time_leb a b = true <-> date_time_le a b.
Proof.
  unfold date_time_leb, date_time_le.
  rewrite orb_true_iff, andb_true_iff, Z.ltb_lt, Z.eqb_eq, Z.leb_le. reflexivity.
Qed.

Lemma date_time_le_total (a b : Appointments.row) :
  date_time_leb a b = false -> date_time_le b a.
Proof.
  intro H. destruct (date_time_leb a b) eqn:E; [discriminate|]. clear H.
  assert (~ date_time_le a b) as Hn by (rewrite <- date_time_leb_le; congruence).
  unfold date_time_le in *. lia.
Qed.

Lemma date_time_le_trans (a b c : Appointments.row) :
  date_time_le a b -> date_time_le b c -> date_time_le a c.
Proof. unfold date_time_le. lia. Qed.

Lemma insert_by_date_time_perm (r : Appointments.row) (l : list Appointments.row) :
  Permutation (r :: l) (insert_by_date_time r l).
Proof.
  induction l as [|x l IH]; simpl; [reflexivity|].
  destruct (date_time_leb r x); [reflexivity|].
  rewrite perm_swap. now apply perm_skip.
Qed.

Lemma order_by_date_time_perm (l : list Appointments.row) :
  Permutation l (order_by_date_time l).
Proof.
  induction l as [|r l IH]; simpl; [reflexivity|].
  rewrite <- insert_by_date_time_perm. now apply perm_skip.
Qed.

Lemma insert_by_date_time_sorted (r : Appointments.row) (l : list Appointments.row) :
  StronglySorted date_time_le l -> StronglySorted date_time_le (insert_by_date_time r l).
Proof.
  induction l as [|x l IH]; simpl; intro H.
  - repeat constructor.
  - inversion H as [|? ? Hl Hx]; subst.
    destruct (date_time_leb r x) eqn:E.
    + constructor; [assumption|].
      apply date_time_leb_le in E. constructor; [assumption|].
      apply Forall_forall. intros y Hy. rewrite Forall_forall in Hx.
      exact (date_time_le_trans r x y E (Hx y Hy)).
    + constructor; [auto|].
      apply Forall_forall. intros y Hy.
      apply (Permutation_in _ (Permutation_sym (insert_by_date_time_perm r l))) in Hy.
      destruct Hy as [<-|Hy].
      * now apply date_time_le_total.
      * rewrite Forall_forall in Hx. auto.
Qed.

Lemma order_by_date_time_sorted (l : list Appointments.row) :
  StronglySorted date_time_le (order_by_date_time l).
Proof.
  induction l as [|r l IH]; simpl; [constructor|].
  now apply insert_by_date_time_sorted.
Qed.

Lemma filter_split {A : Type} (p q : A -> bool) (l : list A) :
  (forall x, q x = negb (p x)) ->
  Permutation l (filter p l ++ filter q l).
Proof.
  intro H. induction l as [|x l IH]; simpl; [constructor|].
  rewrite H. destruct (p x); simpl.
  - now constructor.
  - now apply Permutation_cons_app.
Qed.

Lemma filter_sorted {A : Type} (R : A -> A -> Prop) (p : A -> bool) (l : list A) :
  StronglySorted R l -> StronglySorted R (filter p l).
Proof.
  induction 1 as [|x l Hl IH Hx]; simpl; [constructor|].
  destruct (p x); [|assumption].
  constructor; [assumption|].
  rewrite Forall_forall in *. intros y Hy. apply filter_In in Hy as [Hy _]. auto.
Qed.

Lemma owner_select_appointments (where_ : option (Appointments.row -> bool)) (d : db) :
  select_appointments owner where_ d = Data (filter (matches where_) (appointments d)).
Proof.
  unfold select_appointments. simpl. f_equal. apply filter_ext.
  intro r. apply andb_true_r.
Qed.

(** C8, where the code departs from it. Through the API neither dashboard
    gets a listing: the policies of appointments cannot be expanded, the
    query fails with the recursion error, the page shows "Failed to load
    appointments" and keeps the listing it had (the empty one, when it
    has just been opened), whatever appointments the caller has. The
    query itself orders as the claim says: where no policy applies, it
    delivers the rows that match its filter, each once, sorted by
    appointment_date and then by appointment_time; two rows with the same
    date and time carry no further sort key, and either order of the two
    is a sorted listing. *)
Theorem listing_order (d : db) :
  (forall uid profile_id shown,
     PatientDashboard.fetchAppointments (api uid) profile_id d shown
     = (shown, Some "Failed to load appointments"))
  /\ (forall uid doctorId shown,
        DoctorDashboard.fetchAppointments (api uid) (Some doctorId) d shown
        = (shown, Some "Failed to load appointments"))
  /\ (forall profile_id shown,
        StronglySorted date_time_le
          (fst (PatientDashboard.fetchAppointments owner profile_id d shown))
        /\ Permutation
             (filter (fun r => sql_eq (Appointments.patient_id r) (Some profile_id))
                     (appointments d))
             (fst (PatientDashboard.fetchAppointments owner profile_id d shown)))
  /\ (forall doctorId shown,
        StronglySorted date_time_le
          (fst (DoctorDashboard.fetchAppointments owner (Some doctorId) d shown))
        /\ Permutation
             (filter (fun r => sql_eq (Appointments.doctor_id r) (Some doctorId))
                     (appointments d))
             (fst (DoctorDashboard.fetchAppointments owner (Some doctorId) d shown)))
  /\ (forall a b,
        Appointments.appointment_date a = Appointments.appointment_date b ->
        Appointments.appointment_time a = Appointments.appointment_time b ->
        order_by_date_time [a; b] = [a; b] /\ order_by_date_time [b; a] = [b; a]).
Proof.
  split; [|split; [|split; [|split]]].
  - intros uid profile_id shown. unfold PatientDashboard.fetchAppointments.
    now rewrite api_select_appointments.
  - intros uid doctorId shown. unfold DoctorDashboard.fetchAppointments.
    now rewrite api_select_appointments.
  - intros profile_id shown. unfold PatientDashboard.fetchAppointments.
    rewrite owner_select_appointments. simpl. split.
    + apply order_by_date_time_sorted.
    + apply order_by_date_time_perm.
  - intros doctorId shown. unfold DoctorDashboard.fetchAppointments.
    rewrite owner_select_appointments. simpl. split.
    + apply order_by_date_time_sorted.
    + apply order_by_date_time_perm.
  - intros a b Hd Ht. split.
    + assert (E : date_time_leb a b = true).
      { apply date_time_leb_le. right. split; [assumption|lia]. }
      unfold order_by_date_time. cbn [fold_right insert_by_date_time]. now rewrite E.
    + assert (E : date_time_leb b a = true).
      { apply date_time_leb_le. right. split; [congruence|lia]. }
      unfold order_by_date_time. cbn [fold_right insert_by_date_time]. now rewrite E.
Qed.

(** Patient 1 has two appointments and opens the dashboard. *)
Example listing_stays_empty :
  filter (fun r => sql_eq (Appointments.patient_id r) (Some 1%N)) (appointments rebooked_db)
  = [set_cancelled_by (Some patient) (booking 1000%N 1%N cancelled);
     booking 1003%N 1%N pending]
  /\ PatientDashboard.fetchAppointments (api (Some 1%N)) 1%N rebooked_db []
     = ([], Some "Failed to load appointments").
Proof. split; reflexivity. Qed.

(** * Further properties of the schema and the pages *)

(** X1. In every reachable database each PRIMARY KEY and each UNIQUE
    constraint holds: ids are pairwise distinct in all five tables,
    department names are pairwise distinct, and no two doctors rows share a
    non-NULL profile_id. *)
Theorem keys_hold (d : db) :
  reachable d ->
  NoDup (map Departments.id (departments d))
  /\ NoDup (map Departments.name (departments d))
  /\ NoDup (map Profiles.id (profiles d))
  /\ NoDup (map Doctors.id (doctors d))
  /\ NoDup (map Availabilities.id (doctor_availabilities d))
  /\ NoDup (map Appointments.id (appointments d))
  /\ (forall x y u, In x (doctors d) -> In y (doctors d) ->
        Doctors.profile_id x = Some u -> Doctors.profile_id y = Some u -> x = y).
Proof.
  intro Hd. destruct (reachable_keys d Hd) as [K1 K2 K3 K4 K5 K6 K7].
  repeat split; try (now apply distinct_ids_NoDup); try (now apply distinct_names_NoDup).
  intros x y u. now apply doctor_of_profile_unique.
Qed.

Lemma keys_hold_witness :
  NoDup (map Profiles.id (profiles sample_db))
  /\ NoDup (map Doctors.id (doctors sample_db)).
Proof.
  destruct (keys_hold sample_db sample_db_reachable) as (_ & _ & H3 & H4 & _).
  split; assumption.
Defined.

(** X2. In every reachable database each non-NULL reference points to a row
    that exists: doctors to their profile and department, availabilities
    to their doctor, appointments to their patient, doctor and
    department. *)
Theorem references_hold (d : db) :
  reachable d ->
  (forall x u, In x (doctors d) -> Doctors.profile_id x = Some u ->
     exists p, In p (profiles d) /\ Profiles.id p = u)
  /\ (forall x k, In x (doctors d) -> Doctors.department_id x = Some k ->
        exists r, In r (departments d) /\ Departments.id r = k)
  /\ (forall a k, In a (doctor_availabilities d) -> Availabilities.doctor_id a = Some k ->
        exists x, In x (doctors d) /\ Doctors.id x = k)
  /\ (forall a u, In a (appointments d) -> Appointments.patient_id a = Some u ->
        exists p, In p (profiles d) /\ Profiles.id p = u)
  /\ (forall a k, In a (appointments d) -> Appointments.doctor_id a = Some k ->
        exists x, In x (doctors d) /\ Doctors.id x = k)
  /\ (forall a k, In a (appointments d) -> Appointments.department_id a = Some k ->
        exists r, In r (departments d) /\ Departments.id r = k).
Proof.
  intro Hd. destruct (reachable_references d Hd) as [R1 R2 R3 R4 R5 R6].
  rewrite forallb_forall in R1, R2, R3, R4, R5, R6.
  repeat split; intros a k Ha Ek;
    [specialize (R1 a Ha)|specialize (R2 a Ha)|specialize (R3 a Ha)
    |specialize (R4 a Ha)|specialize (R5 a Ha)|specialize (R6 a Ha)];
    match goal with H : references _ _ _ = true |- _ =>
      rewrite Ek in H; simpl in H; unfold has_id in H;
      apply existsb_exists in H as (y & Hy & E); apply N.eqb_eq in E; eauto
    end.
Qed.

Lemma references_hold_witness :
  exists x, In x (doctors booked_db) /\ Doctors.id x = 20%N.
Proof.
  destruct (references_hold booked_db booked_db_reachable) as (_ & _ & _ & _ & H & _).
  apply (H (booking 1000%N 1%N pending) 20%N); [simpl; auto|reflexivity].
Defined.


(** ** The expansion of the policies *)

(** X21. Which statements of an API caller end in "infinite recursion
    detected in policy for relation profiles": every statement on
    departments, doctors, doctor_availabilities and appointments, whatever
    the command, and on profiles every SELECT and every statement that
    reads a column; an INSERT, and an UPDATE or DELETE that reads nothing,
    get through on profiles. The bound on the nesting is not felt. *)
Theorem policies_that_recurse :
  (forall t cmd reads,
     policy_recursion t cmd reads
     = match t with
       | tbl_profiles =>
           if reads || command_eqb cmd SELECT then Some tbl_profiles else None
       | _ => Some tbl_profiles
       end)
  /\ (forall n t cmd reads,
        expand (6 + n) [] t (commands_of cmd reads) = policy_recursion t cmd reads)
  /\ (forall uid t cmd reads,
        policy_error (api uid) t cmd reads
        = option_map (fun _ => recursion) (policy_recursion t cmd reads))
  /\ (forall t cmd reads, policy_error owner t cmd reads = None).
Proof.
  split; [exact policy_recursion_cases|]. split; [exact expand_fuel|].
  split; [|reflexivity].
  intros uid t cmd reads. destruct t, cmd, reads; reflexivity.
Qed.

(** X20. Through the API nobody writes departments, doctors,
    availabilities or appointments, an admin no more than anybody else:
    every INSERT, UPDATE and DELETE on these four tables fails with the
    recursion error and leaves the database as it is. *)
Theorem api_locked_out (s : stmt) (uid : option uuid) (t : table) (d : db) :
  issuer s = Some (api uid) ->
  statement_table s = Some t ->
  t <> tbl_profiles ->
  exec s d = Err recursion /\ after d (exec s d) = d.
Proof.
  intros Hc Ht Hne. now rewrite (api_statement_refused s uid t d Hc Ht Hne).
Qed.

(** Admin 3 adds a department. *)
Lemma api_locked_out_witness :
  caller_role sample_db (Some 3%N) = Some admin
  /\ insert_department (api (Some 3%N)) (Departments.mk 107%N "Oncology" None None) sample_db
     = Err recursion.
Proof.
  split; [reflexivity|].
  destruct (api_locked_out
              (InsertDepartment (api (Some 3%N)) (Departments.mk 107%N "Oncology" None None))
              (Some 3%N) tbl_departments sample_db) as [H _].
  - reflexivity.
  - reflexivity.
  - discriminate.
  - exact H.
Defined.

(** ** Updates that cannot fail *)

Lemma same_slot_keys (a b a' b' : Appointments.row) :
  Appointments.doctor_id a' = Appointments.doctor_id a ->
  Appointments.appointment_date a' = Appointments.appointment_date a ->
  Appointments.appointment_time a' = Appointments.appointment_time a ->
  Appointments.doctor_id b' = Appointments.doctor_id b ->
  Appointments.appointment_date b' = Appointments.appointment_date b ->
  Appointments.appointment_time b' = Appointments.appointment_time b ->
  same_slot a' b' = same_slot a b.
Proof. unfold same_slot. now intros -> -> -> -> -> ->. Qed.

(** A change that keeps the index key of every row and activates none
    cannot break the index. *)
Lemma index_map (f : Appointments.row -> Appointments.row) (l : list Appointments.row) :
  (forall r, In r l ->
     Appointments.doctor_id (f r) = Appointments.doctor_id r
     /\ Appointments.appointment_date (f r) = Appointments.appointment_date r
     /\ Appointments.appointment_time (f r) = Appointments.appointment_time r
     /\ (is_active (Appointments.status (f r)) = true ->
         is_active (Appointments.status r) = true)) ->
  idx_appointments_no_double_booking l = true ->
  idx_appointments_no_double_booking (map f l) = true.
Proof.
  induction l as [|x l IH]; simpl; [reflexivity|].
  intros Hf H. apply andb_true_iff in H as [Hx Hl]. apply negb_true_iff in Hx.
  rewrite IH by auto. rewrite andb_true_r. apply negb_true_iff.
  destruct (slot_taken (f x) (map f l)) eqn:E; [|reflexivity].
  rewrite <- Hx. unfold slot_taken in *.
  apply andb_true_iff in E as [Ea Ee].
  destruct (Hf x (or_introl eq_refl)) as (Hd & Hdt & Htm & Hact).
  rewrite (Hact Ea). simpl. symmetry.
  apply existsb_exists in Ee as (y' & Hy' & Ey').
  apply in_map_iff in Hy' as (y & <- & Hy).
  destruct (Hf y (or_intror Hy)) as (Hd' & Hdt' & Htm' & Hact').
  apply andb_true_iff in Ey' as [Eya Eys].
  apply existsb_exists. exists y. split; [assumption|].
  rewrite (Hact' Eya). simpl.
  now rewrite <- (same_slot_keys x y (f x) (f y)).
Qed.

(** Two active rows of an indexed table in the same slot are one row. *)
Lemma index_conflict (l : list Appointments.row) (x y : Appointments.row) :
  idx_appointments_no_double_booking l = true ->
  In x l -> In y l ->
  is_active (Appointments.status x) = true ->
  is_active (Appointments.status y) = true ->
  same_slot x y = true ->
  x = y.
Proof.
  induction l as [|z l IH]; simpl; [intros _ []|].
  intros H Hx Hy Ax Ay Hs. apply andb_true_iff in H as [Hz Hl].
  apply negb_true_iff in Hz.
  assert (Hno : forall w, In w l -> is_active (Appointments.status w) = true ->
                          is_active (Appointments.status z) = true ->
                          same_slot z w = true -> False).
  { intros w Hw Aw Az Hzw. unfold slot_taken in Hz. rewrite Az in Hz. simpl in Hz.
    pose proof (existsb_false_In _ l w Hz Hw) as Hc. simpl in Hc.
    rewrite Aw, Hzw in Hc. discriminate Hc. }
  destruct Hx as [->|Hx], Hy as [->|Hy]; auto.
  - exfalso. eauto.
  - exfalso. apply (Hno x Hx Ax Ay). now rewrite same_slot_sym.
Qed.

(** Where no policy applies, the rows of an UPDATE are those of its WHERE
    clause. *)
Lemma owner_update_target (d : db) (where_ : option (Appointments.row -> bool))
    (r : Appointments.row) :
  appointments_update_target d owner where_ r = matches where_ r.
Proof.
  unfold appointments_update_target, visible.
  destruct (has_where where_); simpl; now rewrite !andb_true_r.
Qed.

Lemma owner_update_passes (d : db) (where_ : option (Appointments.row -> bool))
    (set : Appointments.row -> Appointments.row) :
  existsb (fun r => appointments_update_target d owner where_ r
                    && negb (permits owner (appointments_update_check d) (set r)
                             && visible owner (has_where where_) (appointments_select d)
                                  (set r)))
          (appointments d) = false.
Proof.
  apply existsb_none. intros r _. unfold visible.
  destruct (has_where where_); simpl; apply andb_false_r.
Qed.

(** An UPDATE of appointments by the owner of the tables that keeps id,
    references and slot of every row it touches and activates none of
    them, succeeds. *)
Lemma update_appointments_succeeds (where_ : option (Appointments.row -> bool))
    (set : Appointments.row -> Appointments.row) (d : db) :
  distinct_ids (map Appointments.id (appointments d)) = true ->
  idx_appointments_no_double_booking (appointments d) = true ->
  (forall r, In r (appointments d) ->
     matches where_ r = true ->
     Appointments.id (set r) = Appointments.id r
     /\ Appointments.patient_id (set r) = Appointments.patient_id r
     /\ Appointments.doctor_id (set r) = Appointments.doctor_id r
     /\ Appointments.department_id (set r) = Appointments.department_id r
     /\ Appointments.appointment_date (set r) = Appointments.appointment_date r
     /\ Appointments.appointment_time (set r) = Appointments.appointment_time r
     /\ (is_active (Appointments.status (set r)) = true ->
         is_active (Appointments.status r) = true)) ->
  update_appointments owner where_ set d
  = Ok (with_appointments (update_rows (matches where_) set (appointments d)) d).
Proof.
  intros Hk Hi Hset. unfold update_appointments.
  rewrite policy_error_owner, owner_update_passes.
  rewrite (update_rows_ext _ (matches where_)) by apply owner_update_target.
  assert (E2 : map Appointments.id (update_rows (matches where_) set (appointments d))
               = map Appointments.id (appointments d)).
  { unfold update_rows. rewrite map_map. apply map_ext_in. intros r Hr.
    destruct (matches where_ r) eqn:Et; [|reflexivity].
    now destruct (Hset r Hr Et). }
  assert (E3 : idx_appointments_no_double_booking
                 (update_rows (matches where_) set (appointments d)) = true).
  { apply index_map; [|assumption]. intros r Hr.
    destruct (matches where_ r) eqn:Et; [|auto].
    destruct (Hset r Hr Et) as (_ & _ & H3 & _ & H5 & H6 & H7). auto. }
  assert (E4 : forall (g : Appointments.row -> bool),
             (forall r, In r (appointments d) -> matches where_ r = true -> g r = true) ->
             existsb (fun r => appointments_update_target d owner where_ r && negb (g r))
                     (appointments d) = false).
  { intros g Hg. apply existsb_none. intros r Hr. rewrite owner_update_target.
    destruct (matches where_ r) eqn:Et; [|reflexivity].
    now rewrite (Hg r Hr Et). }
  rewrite E2, Hk, E3. simpl.
  rewrite !E4; [reflexivity| | |];
    intros r Hr Et; destruct (Hset r Hr Et) as (_ & H2 & H3 & H4 & _);
    unfold kept_or_references; rewrite ?H2, ?H3, ?H4, same_ref_refl; reflexivity.
Qed.

Lemma cancelAppointment_result (appointmentId : uuid) (d : db) :
  reachable d ->
  PatientDashboard.cancelAppointment owner appointmentId d
  = Ok (with_appointments
          (update_rows
             (fun r => N.eqb (Appointments.id r) appointmentId)
             (fun r => set_cancelled_by (Some patient) (set_status cancelled r))
             (appointments d))
          d).
Proof.
  intro Hd. unfold PatientDashboard.cancelAppointment.
  rewrite update_appointments_succeeds; [reflexivity| | |].
  - apply (keys_appointments d (reachable_keys d Hd)).
  - apply (consistent_index d (reachable_consistent d Hd)).
  - intros r _ _. repeat (split; [reflexivity|]). discriminate.
Qed.

(** X3. cancelAppointment through the API always fails: the UPDATE ends in
    the recursion error, the page shows "Failed to cancel appointment" and
    nothing is changed. The statement itself cannot fail on a reachable
    database: where no policy applies, the rows with the given id get
    status cancelled and cancelled_by patient, whatever their status was,
    and every other row stays as it is. *)
Theorem cancelAppointment_outcome (appointmentId : uuid) (d : db) :
  reachable d ->
  (forall uid,
     PatientDashboard.cancelAppointment (api uid) appointmentId d = Err recursion
     /\ PatientDashboard.cancelAppointment_toast
          (PatientDashboard.cancelAppointment (api uid) appointmentId d)
        = "Failed to cancel appointment"
     /\ after d (PatientDashboard.cancelAppointment (api uid) appointmentId d) = d)
  /\ PatientDashboard.cancelAppointment owner appointmentId d
     = Ok (with_appointments
             (update_rows
                (fun r => N.eqb (Appointments.id r) appointmentId)
                (fun r => set_cancelled_by (Some patient) (set_status cancelled r))
                (appointments d))
             d).
Proof.
  intro Hd. split; [|now apply cancelAppointment_result].
  intro uid. unfold PatientDashboard.cancelAppointment.
  rewrite api_update_appointments. auto.
Qed.

Lemma cancelAppointment_outcome_witness :
  PatientDashboard.cancelAppointment (api (Some 1%N)) 1000%N confirmed_db = Err recursion
  /\ PatientDashboard.cancelAppointment owner 1000%N confirmed_db
     = Ok (with_appointments
             [set_cancelled_by (Some patient) (booking 1000%N 1%N cancelled)] confirmed_db).
Proof.
  destruct (cancelAppointment_outcome 1000%N confirmed_db confirmed_db_reachable) as [Ha Ho].
  split; [apply Ha|].
  exact (eq_trans Ho eq_refl).
Defined.

(** X4. Cancelling frees the slot: once a pending or confirmed appointment
    has been set to cancelled, as cancelAppointment does, the index holds
    no entry for its slot any more, so that an insert for the same doctor,
    date and time does not fail with SlotTaken. *)
Theorem cancel_frees_slot (appointmentId : uuid) (d : db) (a r : Appointments.row) :
  reachable d ->
  In a (appointments d) ->
  Appointments.id a = appointmentId ->
  is_active (Appointments.status a) = true ->
  same_slot r a = true ->
  slot_taken r (appointments d) = is_active (Appointments.status r)
  /\ slot_taken r
       (appointments (after d (PatientDashboard.cancelAppointment owner appointmentId d)))
     = false
  /\ forall c,
       insert_appointment c r
         (after d (PatientDashboard.cancelAppointment owner appointmentId d))
       <> Err SlotTaken.
Proof.
  intros Hd Ha Hid Hact Hs.
  rewrite (cancelAppointment_result appointmentId d Hd). simpl.
  assert (Hfree : slot_taken r
            (update_rows
               (fun r0 => N.eqb (Appointments.id r0) appointmentId)
               (fun r0 => set_cancelled_by (Some patient) (set_status cancelled r0))
               (appointments d)) = false).
  { apply not_true_is_false. intro E. unfold slot_taken in E.
    apply andb_true_iff in E as [_ E].
    apply existsb_exists in E as (y' & Hy' & E).
    apply In_update_rows in Hy' as (y & Hy & ->).
    apply andb_true_iff in E as [Ey Esy].
    destruct (N.eqb (Appointments.id y) appointmentId) eqn:Et; [discriminate Ey|].
    assert (a = y) as <-.
    { apply (index_conflict (appointments d)); try assumption.
      - apply (consistent_index d (reachable_consistent d Hd)).
      - apply (same_slot_trans a r); [now rewrite same_slot_sym|assumption]. }
    rewrite Hid, N.eqb_refl in Et. discriminate Et. }
  split; [|split; [exact Hfree|]].
  - unfold slot_taken. destruct (is_active (Appointments.status r)); [|reflexivity].
    simpl. apply existsb_exists. exists a. split; [assumption|]. now rewrite Hact, Hs.
  - intro c. unfold insert_appointment.
    destruct (policy_error c tbl_appointments INSERT false) as [e|] eqn:Ep.
    + destruct c; [discriminate Ep|]. injection Ep as <-. discriminate.
    + simpl. rewrite Hfree.
      repeat match goal with
      | |- context [if ?c then _ else _] => destruct c
      end; discriminate.
Qed.

Lemma cancel_frees_slot_witness :
  slot_taken (booking 1003%N 4%N pending) (appointments booked_db) = true
  /\ slot_taken (booking 1003%N 4%N pending)
       (appointments (after booked_db (PatientDashboard.cancelAppointment owner 1000%N booked_db)))
     = false.
Proof.
  destruct (cancel_frees_slot 1000%N booked_db (booking 1000%N 1%N pending)
              (booking 1003%N 4%N pending)) as (H1 & H2 & _).
  - exact booked_db_reachable.
  - simpl; auto.
  - reflexivity.
  - reflexivity.
  - reflexivity.
  - split; [exact H1|exact H2].
Defined.


(** ** The doctor's decision *)

(** X5. handleAppointmentAction issues no statement unless both an
    appointment and an action are selected; when it does, it leaves the
    other tables alone, keeps every appointment in its place, changes no
    row whose id is not the selected one, and in a row it does change
    writes status (confirmed or rejected) and doctor_note only. This
    holds for whichever caller the client stands for. *)
Theorem handleAppointmentAction_frame (client : caller)
    (selectedAppointment : option Appointments.row)
    (actionDialog : option DoctorDashboard.action) (doctorNote : string) (d : db) :
  (selectedAppointment = None \/ actionDialog = None ->
   DoctorDashboard.handleAppointmentAction client selectedAppointment actionDialog doctorNote d
   = Ok d)
  /\ departments (after d (DoctorDashboard.handleAppointmentAction client selectedAppointment
                             actionDialog doctorNote d)) = departments d
  /\ profiles (after d (DoctorDashboard.handleAppointmentAction client selectedAppointment
                          actionDialog doctorNote d)) = profiles d
  /\ doctors (after d (DoctorDashboard.handleAppointmentAction client selectedAppointment
                         actionDialog doctorNote d)) = doctors d
  /\ doctor_availabilities (after d (DoctorDashboard.handleAppointmentAction client
                                       selectedAppointment actionDialog doctorNote d))
     = doctor_availabilities d
  /\ forall i old,
       nth_error (appointments d) i = Some old ->
       exists new,
         nth_error (appointments (after d (DoctorDashboard.handleAppointmentAction client
                                             selectedAppointment actionDialog doctorNote d))) i
         = Some new
         /\ Appointments.id new = Appointments.id old
         /\ Appointments.patient_id new = Appointments.patient_id old
         /\ Appointments.doctor_id new = Appointments.doctor_id old
         /\ Appointments.department_id new = Appointments.department_id old
         /\ Appointments.appointment_date new = Appointments.appointment_date old
         /\ Appointments.appointment_time new = Appointments.appointment_time old
         /\ Appointments.patient_note new = Appointments.patient_note old
         /\ Appointments.cancelled_by new = Appointments.cancelled_by old
         /\ Appointments.created_at new = Appointments.created_at old
         /\ (new <> old ->
             exists apt, selectedAppointment = Some apt
                         /\ Appointments.id old = Appointments.id apt
                         /\ (Appointments.status new = confirmed
                             \/ Appointments.status new = rejected)
                         /\ Appointments.doctor_note new
                            = DoctorDashboard.note_or_null doctorNote).
Proof.
  split.
  { intros [->| ->]; [reflexivity|]. now destruct selectedAppointment. }
  destruct selectedAppointment as [apt|], actionDialog as [a|];
    try (simpl; repeat (split; [reflexivity|]); intros i old Hi; exists old;
         repeat (split; [reflexivity || assumption|]); intro Hne; now contradiction Hne).
  unfold DoctorDashboard.handleAppointmentAction.
  match goal with |- context [update_appointments client ?w ?f d] =>
    destruct (update_appointments_frame client w f d) as (H1 & H2 & H3 & H4 & _);
    repeat (split; [assumption|]);
    intros i old Hi;
    destruct (update_appointments_rows client w f d i old Hi) as (new & Hi' & Hcase)
  end.
  exists new. split; [assumption|].
  destruct Hcase as [->|(-> & Hw)].
  - repeat (split; [reflexivity|]). intro Hne. now contradiction Hne.
  - simpl in Hw. apply N.eqb_eq in Hw. simpl. repeat (split; [reflexivity|]).
    intros _. exists apt. repeat split; [assumption|].
    destruct a; auto.
Qed.

Lemma handleAppointmentAction_frame_witness :
  DoctorDashboard.handleAppointmentAction (api (Some 2%N)) None (Some DoctorDashboard.confirm)
    "ok" booked_db = Ok booked_db.
Proof.
  destruct (handleAppointmentAction_frame (api (Some 2%N)) None (Some DoctorDashboard.confirm)
              "ok" booked_db) as [H _].
  apply H. now left.
Defined.

Lemma handleAppointmentAction_decision (client : caller) (apt : Appointments.row)
    (a : DoctorDashboard.action) (doctorNote : string) (d : db) :
  DoctorDashboard.handleAppointmentAction client (Some apt) (Some a) doctorNote d
  = update_appointments client
      (Some (fun r => N.eqb (Appointments.id r) (Appointments.id apt)))
      (decision a doctorNote) d.
Proof. reflexivity. Qed.

(** X6. With an appointment and an action selected, handleAppointmentAction
    through the API always fails: the UPDATE ends in the recursion error,
    the page shows "Failed to update appointment" and nothing is changed,
    also for the doctor of the appointment. The statement itself goes
    through on a reachable database whenever, for a confirmation, the
    rows it reaches are pending or confirmed: where no policy applies,
    the rows with the selected id take the decided status and the note,
    every other row stays as it is. *)
Theorem handleAppointmentAction_outcome (apt : Appointments.row)
    (a : DoctorDashboard.action) (doctorNote : string) (d : db) :
  reachable d ->
  (forall uid,
     DoctorDashboard.handleAppointmentAction (api uid) (Some apt) (Some a) doctorNote d
     = Err recursion
     /\ DoctorDashboard.handleAppointmentAction_toast a
          (DoctorDashboard.handleAppointmentAction (api uid) (Some apt) (Some a) doctorNote d)
        = "Failed to update appointment"
     /\ after d (DoctorDashboard.handleAppointmentAction (api uid) (Some apt) (Some a)
                   doctorNote d) = d)
  /\ ((a = DoctorDashboard.confirm ->
       forall r, In r (appointments d) ->
         Appointments.id r = Appointments.id apt ->
         is_active (Appointments.status r) = true) ->
      DoctorDashboard.handleAppointmentAction owner (Some apt) (Some a) doctorNote d
      = Ok (with_appointments
              (update_rows
                 (fun r => N.eqb (Appointments.id r) (Appointments.id apt))
                 (decision a doctorNote)
                 (appointments d))
              d)).
Proof.
  intro Hd. split.
  - intro uid. rewrite handleAppointmentAction_decision, api_update_appointments. auto.
  - intro Hact. rewrite handleAppointmentAction_decision.
    rewrite update_appointments_succeeds; [reflexivity| | |].
    + apply (keys_appointments d (reachable_keys d Hd)).
    + apply (consistent_index d (reachable_consistent d Hd)).
    + intros r Hr Hw. simpl in Hw. apply N.eqb_eq in Hw.
      repeat (split; [reflexivity|]).
      destruct a; [intros _; now apply Hact|discriminate].
Qed.

Lemma handleAppointmentAction_outcome_witness :
  is_doctor_of booked_db (Some 2%N) (Some 20%N) = true
  /\ DoctorDashboard.handleAppointmentAction (api (Some 2%N))
       (Some (booking 1000%N 1%N pending)) (Some DoctorDashboard.confirm) "see you" booked_db
     = Err recursion
  /\ DoctorDashboard.handleAppointmentAction owner (Some (booking 1000%N 1%N pending))
       (Some DoctorDashboard.confirm) "see you" booked_db
     = Ok (with_appointments
             [set_doctor_note (Some "see you") (booking 1000%N 1%N confirmed)] booked_db).
Proof.
  destruct (handleAppointmentAction_outcome (booking 1000%N 1%N pending)
              DoctorDashboard.confirm "see you" booked_db booked_db_reachable) as [Ha Ho].
  split; [reflexivity|]. split; [apply Ha|].
  refine (eq_trans (Ho _) eq_refl).
  intros _ r [<-|[]] _. reflexivity.
Defined.

(** X8. A confirmation that would put a second active appointment into an
    occupied slot is refused by the index with SlotTaken and changes
    nothing, also where no policy applies: so it is for a cancelled or
    rejected appointment whose slot has been taken again. *)
Theorem confirm_refused_when_slot_taken (apt r r2 : Appointments.row)
    (doctorNote : string) (d : db) :
  reachable d ->
  In r (appointments d) ->
  Appointments.id r = Appointments.id apt ->
  In r2 (appointments d) ->
  Appointments.id r2 <> Appointments.id apt ->
  is_active (Appointments.status r2) = true ->
  same_slot r r2 = true ->
  DoctorDashboard.handleAppointmentAction owner (Some apt) (Some DoctorDashboard.confirm)
    doctorNote d
  = Err SlotTaken.
Proof.
  intros Hd Hr Hid Hr2 Hid2 Hact2 Hs.
  rewrite handleAppointmentAction_decision. unfold update_appointments.
  rewrite policy_error_owner, owner_update_passes.
  set (w := Some (fun r0 => N.eqb (Appointments.id r0) (Appointments.id apt))).
  set (f := decision DoctorDashboard.confirm doctorNote).
  rewrite (update_rows_ext _ (matches w)) by apply owner_update_target.
  assert (E2 : map Appointments.id (update_rows (matches w) f (appointments d))
               = map Appointments.id (appointments d)).
  { apply map_update_rows_id. intro x. reflexivity. }
  assert (E3 : idx_appointments_no_double_booking
                 (update_rows (matches w) f (appointments d)) = false).
  { apply not_true_is_false. intro E. apply Hid2. rewrite <- Hid.
    assert (f r = r2) as <-; [|reflexivity].
    apply (index_conflict _ (f r) r2 E).
    - unfold update_rows. apply in_map_iff. exists r. split; [|assumption].
      unfold w. simpl. now rewrite Hid, N.eqb_refl.
    - unfold update_rows. apply in_map_iff. exists r2. split; [|assumption].
      unfold w. simpl. apply N.eqb_neq in Hid2. now rewrite Hid2.
    - reflexivity.
    - assumption.
    - rewrite <- Hs. now apply same_slot_keys. }
  rewrite E2, (keys_appointments d (reachable_keys d Hd)), E3. reflexivity.
Qed.

Lemma rebooked_db_reachable : reachable rebooked_db.
Proof.
  apply (reachable_exec cancelled_db (InsertAppointment owner (booking 1003%N 1%N pending))).
  - exact cancelled_db_reachable.
  - reflexivity.
Qed.

Lemma confirm_refused_when_slot_taken_witness :
  DoctorDashboard.handleAppointmentAction owner (Some (booking 1000%N 1%N pending))
    (Some DoctorDashboard.confirm) "" rebooked_db
  = Err SlotTaken.
Proof.
  apply (confirm_refused_when_slot_taken (booking 1000%N 1%N pending)
           (set_cancelled_by (Some patient) (booking 1000%N 1%N cancelled))
           (booking 1003%N 1%N pending) "" rebooked_db).
  - exact rebooked_db_reachable.
  - simpl; auto.
  - reflexivity.
  - simpl; auto.
  - simpl. discriminate.
  - reflexivity.
  - reflexivity.
Defined.

(** ** Who reaches which appointment *)

(** X9. A caller who is not an admin has no access to an appointment of
    which they are neither the patient nor the doctor: no SELECT returns
    it, no UPDATE changes it and no DELETE removes it. *)
Theorem stranger_has_no_access (d : db) (uid : option uuid) (i : nat) (r : Appointments.row) :
  is_admin d uid = false ->
  nth_error (appointments d) i = Some r ->
  sql_eq uid (Appointments.patient_id r) = false ->
  is_doctor_of d uid (Appointments.doctor_id r) = false ->
  (forall where_, ~ In r (rows_of (select_appointments (api uid) where_ d)))
  /\ (forall where_ set,
        nth_error (appointments (after d (update_appointments (api uid) where_ set d))) i
        = Some r)
  /\ (forall where_, In r (appointments (after d (delete_appointments (api uid) where_ d)))).
Proof.
  intros _ Hi _ _.
  split; [|split].
  - intros where_ Hin. rewrite api_select_appointments in Hin. destruct Hin.
  - intros where_ set. now rewrite api_update_appointments.
  - intro where_. rewrite api_delete_appointments. simpl. exact (nth_error_In _ _ Hi).
Qed.

Lemma stranger_has_no_access_witness :
  ~ In (booking 1000%N 1%N pending)
       (rows_of (select_appointments (api (Some 4%N)) None booked_db))
  /\ nth_error
       (appointments
          (after booked_db
             (update_appointments (api (Some 4%N)) None (set_status cancelled) booked_db)))
       0
     = Some (booking 1000%N 1%N pending).
Proof.
  destruct (stranger_has_no_access booked_db (Some 4%N) 0 (booking 1000%N 1%N pending))
    as (H1 & H2 & _); try reflexivity.
  split; [apply H1|apply H2].
Defined.


(** ** Profiles *)

Lemma update_profiles_rows (uid : option uuid) (where_ : option (Profiles.row -> bool))
    (set : profiles_set) (d : db) (i : nat) (old : Profiles.row) :
  nth_error (profiles d) i = Some old ->
  exists new,
    nth_error (profiles (after d (update_profiles (api uid) where_ set d))) i = Some new
    /\ (new = old
        \/ (new = assign set old /\ matches where_ old = true
            /\ uid = Some (Profiles.id old)
            /\ Profiles.id (assign set old) = Profiles.id old)).
Proof.
  intro Hi.
  destruct (update_profiles (api uid) where_ set d) as [d'|e] eqn:H; simpl; [|eauto].
  unfold update_profiles in H. split_ifs H. injection H as <-. simpl.
  rewrite (nth_error_update_rows _ _ _ i old Hi).
  destruct (profiles_update_target d (api uid) (has_where where_ || set_reads set) where_ old)
    eqn:Et; eauto.
  eexists. split; [reflexivity|]. right. split; [reflexivity|].
  pose proof (existsb_false_In _ _ old E0 (nth_error_In _ _ Hi)) as Hc.
  simpl in Hc. rewrite Et in Hc. simpl in Hc. apply negb_false_iff in Hc.
  apply andb_true_iff in Hc as [Hc _].
  unfold profiles_update_target in Et.
  apply andb_true_iff in Et as [Et Hu]. apply andb_true_iff in Et as [Hw _].
  simpl in Hu, Hc.
  unfold profiles_update_using, users_can_update_their_own_profile_using in Hu.
  unfold profiles_update_check, users_can_update_their_own_profile_check in Hc.
  apply sql_eq_true in Hu as (k & -> & Ek). injection Ek as Ek.
  simpl in Hc. apply N.eqb_eq in Hc.
  repeat split; [assumption|congruence|congruence].
Qed.

(** X10. An UPDATE of profiles through the API changes rows of the caller
    only and never their id: every profile whose id is not the caller's
    stays as it is, in its place, and a changed row keeps its id. *)
Theorem update_profiles_own_row (uid : option uuid) (where_ : option (Profiles.row -> bool))
    (set : profiles_set) (d : db) :
  map Profiles.id (profiles (after d (update_profiles (api uid) where_ set d)))
  = map Profiles.id (profiles d)
  /\ forall i old,
       nth_error (profiles d) i = Some old ->
       uid <> Some (Profiles.id old) ->
       nth_error (profiles (after d (update_profiles (api uid) where_ set d))) i = Some old.
Proof.
  split.
  - apply nth_error_ext. intro i. rewrite !nth_error_map.
    destruct (nth_error (profiles d) i) as [old|] eqn:Hi.
    + destruct (update_profiles_rows uid where_ set d i old Hi) as (new & -> & Hcase).
      simpl. f_equal. destruct Hcase as [->|(-> & _ & _ & E)]; auto.
    + destruct (update_profiles (api uid) where_ set d) as [d'|e] eqn:H; simpl;
        [|now rewrite Hi].
      unfold update_profiles in H. split_ifs H. injection H as <-. simpl.
      unfold update_rows. now rewrite nth_error_map, Hi.
  - intros i old Hi Hne.
    destruct (update_profiles_rows uid where_ set d i old Hi) as (new & -> & Hcase).
    destruct Hcase as [->|(_ & _ & E & _)]; [reflexivity|contradiction].
Qed.

Lemma update_profiles_own_row_witness :
  nth_error
    (profiles (after sample_db
                 (update_profiles (api (Some 1%N)) None (set_columns (role_column admin))
                    sample_db))) 1
  = nth_error (profiles sample_db) 1.
Proof.
  destruct (update_profiles_own_row (Some 1%N) None (set_columns (role_column admin)) sample_db)
    as [_ H].
  apply (H 1 (Profiles.mk 2%N "Doc" None doctor (Some true) (Some 12%Z))).
  - reflexivity.
  - discriminate.
Defined.

Lemma profiles_target_own (d : db) (u : uuid) (p : Profiles.row) :
  profiles_update_target d (api (Some u)) false None p = N.eqb (Profiles.id p) u.
Proof.
  unfold profiles_update_target, profiles_update_using,
    users_can_update_their_own_profile_using.
  simpl. apply N.eqb_sym.
Qed.

Lemma own_profile_update_result (u : uuid) (cols : profile_columns) (d : db) :
  distinct_ids (map Profiles.id (profiles d)) = true ->
  new_id cols = None \/ new_id cols = Some u ->
  update_profiles (api (Some u)) None (set_columns cols) d
  = Ok (with_profiles
          (update_rows (fun p => N.eqb (Profiles.id p) u) (assign_columns cols) (profiles d)) d).
Proof.
  intros Hk Hid. unfold update_profiles.
  change (policy_error (api (Some u)) tbl_profiles UPDATE
            (has_where None || set_reads (set_columns cols))) with (@None error).
  change (has_where None || set_reads (set_columns cols)) with false.
  cbv beta iota zeta.
  change (assign (set_columns cols)) with (assign_columns cols).
  assert (Hkeep : forall p, N.eqb (Profiles.id p) u = true ->
                            Profiles.id (assign_columns cols p) = Profiles.id p).
  { intros p Hp. apply N.eqb_eq in Hp. simpl.
    destruct Hid as [-> | ->]; simpl; congruence. }
  rewrite (update_rows_ext _ (fun p => N.eqb (Profiles.id p) u))
    by (intro p; apply profiles_target_own).
  assert (E1 : existsb
                 (fun r => profiles_update_target d (api (Some u)) false None r
                           && negb (permits (api (Some u)) profiles_update_check
                                      (assign_columns cols r)
                                    && visible (api (Some u)) false (profiles_select d)
                                         (assign_columns cols r)))
                 (profiles d) = false).
  { apply existsb_none. intros p _. rewrite profiles_target_own.
    destruct (N.eqb (Profiles.id p) u) eqn:Ep; [|reflexivity].
    unfold permits, visible, profiles_update_check,
      users_can_update_their_own_profile_check.
    rewrite (Hkeep p Ep). apply N.eqb_eq in Ep. rewrite Ep. simpl.
    now rewrite N.eqb_refl. }
  rewrite E1.
  assert (E2 : map Profiles.id
                 (update_rows (fun p => N.eqb (Profiles.id p) u) (assign_columns cols)
                    (profiles d))
               = map Profiles.id (profiles d)).
  { unfold update_rows. rewrite map_map. apply map_ext. intro p.
    destruct (N.eqb (Profiles.id p) u) eqn:Ep; [|reflexivity]. now apply Hkeep. }
  rewrite E2, Hk. cbn [negb].
  assert (F : forall (g : Profiles.row -> bool),
             existsb (fun r => profiles_update_target d (api (Some u)) false None r
                               && negb (N.eqb (Profiles.id r)
                                          (Profiles.id (assign_columns cols r)))
                               && g r) (profiles d) = false).
  { intro g. apply existsb_none. intros p _. rewrite profiles_target_own.
    destruct (N.eqb (Profiles.id p) u) eqn:Ep; [|reflexivity].
    rewrite (Hkeep p Ep), N.eqb_refl. reflexivity. }
  rewrite !F. reflexivity.
Qed.

(** X11. What a user can do to their own profile through the API: in a
    reachable database an UPDATE without a WHERE clause that assigns
    constants and keeps the id always succeeds; it rewrites the caller's
    own row in every column it names, role and email_confirmed included,
    and no other row. With a WHERE clause, or with a SET clause that
    reads the row, the UPDATE ends in the recursion error and changes
    nothing. *)
Theorem update_own_profile (u : uuid) (cols : profile_columns) (d : db) :
  reachable d ->
  new_id cols = None \/ new_id cols = Some u ->
  update_profiles (api (Some u)) None (set_columns cols) d
  = Ok (with_profiles
          (update_rows (fun p => N.eqb (Profiles.id p) u) (assign_columns cols) (profiles d)) d)
  /\ (forall w set, update_profiles (api (Some u)) (Some w) set d = Err recursion)
  /\ (forall w f, update_profiles (api (Some u)) w (set_computed f) d = Err recursion).
Proof.
  intros Hd Hid. split; [|split].
  - apply own_profile_update_result; [|assumption].
    apply (keys_profiles d (reachable_keys d Hd)).
  - intros w set. destruct set; reflexivity.
  - intros w f. destruct w; reflexivity.
Qed.

(** Patient 5 confirms their own e-mail address. *)
Lemma update_own_profile_witness :
  caller_email_confirmed sample_db (Some 5%N) = false
  /\ caller_email_confirmed
       (after sample_db
          (update_profiles (api (Some 5%N)) None (set_columns (email_confirmed_column true))
             sample_db))
       (Some 5%N) = true
  /\ update_profiles (api (Some 5%N)) (Some (fun p => N.eqb (Profiles.id p) 5%N))
       (set_columns (email_confirmed_column true)) sample_db
     = Err recursion.
Proof.
  destruct (update_own_profile 5%N (email_confirmed_column true) sample_db
              sample_db_reachable (or_introl eq_refl)) as (H1 & H2 & _).
  split; [reflexivity|]. split; [|apply H2].
  exact (eq_trans
           (f_equal (fun r => caller_email_confirmed (after sample_db r) (Some 5%N)) H1)
           eq_refl).
Defined.


(** ** The trigger functions *)

Lemma email_flag_after_update (b : bool) (u : uuid) (l : list Profiles.row) :
  existsb (fun p => sql_eq (Some (Profiles.id p)) (Some u)
                    && sql_eq_bool (Profiles.email_confirmed p) true)
          (update_rows (fun p => N.eqb (Profiles.id p) u) (set_email_confirmed b) l)
  = has_id Profiles.id u l && b.
Proof.
  unfold update_rows, has_id. induction l as [|p l IH]; [reflexivity|].
  cbn [map existsb]. rewrite IH.
  destruct (N.eqb (Profiles.id p) u) eqn:E; cbn [sql_eq]; [simpl|]; rewrite E; simpl.
  - destruct b; simpl; [reflexivity|].
    now destruct (existsb (fun x => N.eqb (Profiles.id x) u) l).
  - reflexivity.
Qed.

Lemma find_app {A : Type} (f : A -> bool) (l l' : list A) :
  find f (l ++ l') = match find f l with Some x => Some x | None => find f l' end.
Proof.
  induction l as [|x l IH]; simpl; [reflexivity|]. now destruct (f x).
Qed.

Lemma has_id_find {A : Type} (id : A -> uuid) (k : uuid) (l : list A) :
  has_id id k l = false -> find (fun p => N.eqb (id p) k) l = None.
Proof.
  unfold has_id. induction l as [|x l IH]; simpl; [reflexivity|].
  intro H. apply orb_false_iff in H as [-> H]. auto.
Qed.

Lemma find_update_rows {A : Type} (f target : A -> bool) (set : A -> A) (l : list A) :
  (forall x, f (set x) = f x) ->
  find f (update_rows target set l)
  = option_map (fun x => if target x then set x else x) (find f l).
Proof.
  intro Hf. unfold update_rows. induction l as [|x l IH]; simpl; [reflexivity|].
  assert (E : f (if target x then set x else x) = f x) by (destruct (target x); auto).
  rewrite E. now destruct (f x).
Qed.

Lemma handle_new_user_Ok (NEW : auth_user) (now : timestamptz) (d : db) (ro : role) :
  role_of_text (coalesce (json_text "role" (raw_user_meta_data NEW)) "patient") = Some ro ->
  has_id Profiles.id (au_id NEW) (profiles d) = false ->
  handle_new_user NEW now d
  = Ok (with_profiles
          (profiles d ++
           [Profiles.mk (au_id NEW)
                        (coalesce (json_text "full_name" (raw_user_meta_data NEW)) "User")
                        (json_text "phone" (raw_user_meta_data NEW))
                        ro
                        (Some (is_not_null (email_confirmed_at NEW)))
                        (Some now)])
          d).
Proof. intros Hro Hk. unfold handle_new_user. now rewrite Hro, Hk. Qed.

(** X13. handle_new_user gives the new user the role named in the sign-up
    metadata, patient when none is named, and fails on a text that is not
    a role or when the user already has a profile. On success the new
    profile is what the policies see for that user: its role, and an
    email_confirmed flag that tells whether email_confirmed_at was set;
    the role of every other user is as before. *)
Theorem handle_new_user_profile (NEW : auth_user) (now : timestamptz) (d : db) :
  (forall ro,
     role_of_text (coalesce (json_text "role" (raw_user_meta_data NEW)) "patient") = Some ro ->
     has_id Profiles.id (au_id NEW) (profiles d) = false ->
     is_ok (handle_new_user NEW now d) = true
     /\ caller_role (after d (handle_new_user NEW now d)) (Some (au_id NEW)) = Some ro
     /\ caller_email_confirmed (after d (handle_new_user NEW now d)) (Some (au_id NEW))
        = is_not_null (email_confirmed_at NEW)
     /\ (forall u, u <> au_id NEW ->
           caller_role (after d (handle_new_user NEW now d)) (Some u)
           = caller_role d (Some u)))
  /\ (json_text "role" (raw_user_meta_data NEW) = None ->
      role_of_text (coalesce (json_text "role" (raw_user_meta_data NEW)) "patient")
      = Some patient)
  /\ (role_of_text (coalesce (json_text "role" (raw_user_meta_data NEW)) "patient") = None ->
      handle_new_user NEW now d = Err (check_violation "profiles_role_check"))
  /\ (has_id Profiles.id (au_id NEW) (profiles d) = true ->
      is_ok (handle_new_user NEW now d) = false).
Proof.
  split; [|split; [|split]].
  - intros ro Hro Hk. rewrite (handle_new_user_Ok NEW now d ro Hro Hk).
    split; [reflexivity|]. unfold after, caller_role, caller_email_confirmed.
    change (profiles (with_profiles ?l d)) with l.
    split; [|split].
    + rewrite find_app, (has_id_find Profiles.id (au_id NEW) (profiles d) Hk).
      simpl. now rewrite N.eqb_refl.
    + rewrite existsb_app.
      assert (E : existsb (fun p => sql_eq (Some (Profiles.id p)) (Some (au_id NEW))
                            && sql_eq_bool (Profiles.email_confirmed p) true)
                          (profiles d) = false).
      { apply not_true_is_false. intro E. apply existsb_exists in E as (p & Hp & E).
        apply andb_true_iff in E as [E _]. simpl in E.
        assert (has_id Profiles.id (au_id NEW) (profiles d) = true).
        { apply existsb_exists. eauto. }
        congruence. }
      rewrite E. simpl. rewrite N.eqb_refl. simpl.
      now destruct (is_not_null (email_confirmed_at NEW)).
    + intros u Hu. rewrite find_app.
      destruct (find (fun p => N.eqb (Profiles.id p) u) (profiles d)); [reflexivity|].
      simpl. apply N.eqb_neq in Hu. rewrite N.eqb_sym in Hu. now rewrite Hu.
  - now intros ->.
  - intro Hro. unfold handle_new_user. now rewrite Hro.
  - intro Hk. unfold handle_new_user.
    destruct (role_of_text _); [now rewrite Hk|reflexivity].
Qed.

Lemma handle_new_user_profile_witness :
  caller_role
    (after sample_db
       (handle_new_user (mk_auth_user 9%N [("role", "admin")] None) 30%Z sample_db))
    (Some 9%N) = Some admin
  /\ is_ok (handle_new_user (mk_auth_user 1%N [] None) 30%Z sample_db) = false.
Proof.
  split.
  - destruct (handle_new_user_profile (mk_auth_user 9%N [("role", "admin")] None) 30%Z
                sample_db) as (H & _).
    destruct (H admin) as (_ & Hro & _); [reflexivity|reflexivity|exact Hro].
  - destruct (handle_new_user_profile (mk_auth_user 1%N [] None) 30%Z sample_db)
      as (_ & _ & _ & H).
    apply H. reflexivity.
Defined.

(** X14. update_profile_email_confirmed touches the email_confirmed flag
    of the user's profile and nothing else: the flag then tells whether
    email_confirmed_at is set, every role and every other user's flag are
    as before, the other tables are untouched, and running it again
    changes nothing. *)
Theorem email_confirmation_sync (NEW : auth_user) (d : db) :
  caller_email_confirmed (after d (update_profile_email_confirmed NEW d)) (Some (au_id NEW))
  = has_id Profiles.id (au_id NEW) (profiles d) && is_not_null (email_confirmed_at NEW)
  /\ (forall u, u <> au_id NEW ->
        caller_email_confirmed (after d (update_profile_email_confirmed NEW d)) (Some u)
        = caller_email_confirmed d (Some u))
  /\ (forall uid, caller_role (after d (update_profile_email_confirmed NEW d)) uid
                  = caller_role d uid)
  /\ departments (after d (update_profile_email_confirmed NEW d)) = departments d
  /\ doctors (after d (update_profile_email_confirmed NEW d)) = doctors d
  /\ doctor_availabilities (after d (update_profile_email_confirmed NEW d))
     = doctor_availabilities d
  /\ appointments (after d (update_profile_email_confirmed NEW d)) = appointments d
  /\ profiles (after (after d (update_profile_email_confirmed NEW d))
                 (update_profile_email_confirmed NEW
                    (after d (update_profile_email_confirmed NEW d))))
     = profiles (after d (update_profile_email_confirmed NEW d)).
Proof.
  unfold update_profile_email_confirmed, after.
  change (profiles (with_profiles ?l ?x)) with l.
  repeat split.
  - apply email_flag_after_update.
  - intros u Hu. unfold caller_email_confirmed.
    change (profiles (with_profiles ?l ?x)) with l.
    unfold update_rows. generalize (profiles d) as l.
    induction l as [|p l IH]; [reflexivity|]. cbn [map existsb]. rewrite IH. f_equal.
    destruct (N.eqb (Profiles.id p) (au_id NEW)) eqn:E; [|reflexivity].
    apply N.eqb_eq in E. simpl. apply N.eqb_neq in Hu. rewrite N.eqb_sym in Hu.
    now rewrite E, Hu.
  - intros [u|]; [|reflexivity]. unfold caller_role.
    change (profiles (with_profiles ?l ?x)) with l.
    rewrite find_update_rows by reflexivity.
    destruct (find _ (profiles d)) as [p|]; [|reflexivity]. simpl.
    now destruct (N.eqb (Profiles.id p) (au_id NEW)).
  - change (profiles (with_profiles ?l ?x)) with l.
    unfold update_rows. rewrite map_map. apply map_ext. intro p.
    destruct (N.eqb (Profiles.id p) (au_id NEW)) eqn:E; simpl; rewrite E; reflexivity.
Qed.

Lemma email_confirmation_sync_witness :
  caller_email_confirmed sample_db (Some 5%N) = false
  /\ caller_email_confirmed
       (after sample_db
          (update_profile_email_confirmed (mk_auth_user 5%N [] (Some 40%Z)) sample_db))
       (Some 5%N) = true
  /\ caller_email_confirmed
       (after sample_db
          (update_profile_email_confirmed (mk_auth_user 5%N [] (Some 40%Z)) sample_db))
       (Some 3%N) = false.
Proof.
  destruct (email_confirmation_sync (mk_auth_user 5%N [] (Some 40%Z)) sample_db)
    as (H1 & H2 & _).
  split; [reflexivity|]. split.
  - exact H1.
  - assert (Hne : 3%N <> 5%N) by discriminate.
    exact (eq_trans (H2 3%N Hne) eq_refl).
Defined.

(** ** The sections of the dashboards *)

(** X15. The patient dashboard splits its listing into upcoming (pending
    or confirmed) and past (completed, rejected or cancelled)
    appointments: every listed appointment is in exactly one of the two
    sections, a section of a sorted listing is sorted by date and time,
    and the cancel button appears on upcoming appointments only. What
    fetchAppointments leaves on the page is such a listing, if the one it
    found there was. *)
Theorem patient_sections (l : list Appointments.row) :
  Permutation l
    (PatientDashboard.upcomingAppointments l ++ PatientDashboard.pastAppointments l)
  /\ (StronglySorted date_time_le l ->
      StronglySorted date_time_le (PatientDashboard.upcomingAppointments l)
      /\ StronglySorted date_time_le (PatientDashboard.pastAppointments l))
  /\ (forall apt,
        In apt (PatientDashboard.upcomingAppointments l) ->
        ~ In apt (PatientDashboard.pastAppointments l))
  /\ (forall apt,
        In apt l -> PatientDashboard.cancel_button apt = true ->
        In apt (PatientDashboard.upcomingAppointments l))
  /\ (forall client profile_id d,
        StronglySorted date_time_le l ->
        StronglySorted date_time_le
          (fst (PatientDashboard.fetchAppointments client profile_id d l))).
Proof.
  split; [|split; [|split; [|split]]].
  - apply filter_split. intro x. now destruct (Appointments.status x).
  - intro Hs. split; now apply filter_sorted.
  - intros apt Hu Hp.
    apply filter_In in Hu as [_ Hu]. apply filter_In in Hp as [_ Hp].
    destruct (Appointments.status apt); discriminate.
  - intros apt Hin Hb. apply filter_In. split; [assumption|].
    unfold PatientDashboard.cancel_button in Hb. now rewrite Hb.
  - intros client profile_id d Hs. unfold PatientDashboard.fetchAppointments.
    destruct (select_appointments client _ d); simpl; [|assumption].
    apply order_by_date_time_sorted.
Qed.

Lemma patient_sections_witness :
  In (booking 1003%N 1%N pending)
     (PatientDashboard.upcomingAppointments
        [set_cancelled_by (Some patient) (booking 1000%N 1%N cancelled);
         booking 1003%N 1%N pending])
  /\ StronglySorted date_time_le (fst (PatientDashboard.fetchAppointments (api (Some 1%N)) 1%N
                                         rebooked_db [])).
Proof.
  destruct (patient_sections [set_cancelled_by (Some patient) (booking 1000%N 1%N cancelled);
                              booking 1003%N 1%N pending]) as (_ & _ & _ & H & _).
  destruct (patient_sections []) as (_ & _ & _ & _ & H').
  split.
  - apply H; [simpl; auto|reflexivity].
  - apply H'. constructor.
Defined.

(** X16. The doctor dashboard splits its listing into pending, confirmed
    and other appointments: every listed appointment is in exactly one of
    the three sections and each section of a sorted listing is sorted by
    date and time. What fetchAppointments leaves on the page is such a
    listing, if the one it found there was. *)
Theorem doctor_sections (l : list Appointments.row) :
  Permutation l
    (DoctorDashboard.pendingAppointments l
     ++ DoctorDashboard.confirmedAppointments l
     ++ DoctorDashboard.otherAppointments l)
  /\ (StronglySorted date_time_le l ->
      StronglySorted date_time_le (DoctorDashboard.pendingAppointments l)
      /\ StronglySorted date_time_le (DoctorDashboard.confirmedAppointments l)
      /\ StronglySorted date_time_le (DoctorDashboard.otherAppointments l))
  /\ (forall apt,
        In apt (DoctorDashboard.pendingAppointments l) ->
        ~ In apt (DoctorDashboard.confirmedAppointments l)
        /\ ~ In apt (DoctorDashboard.otherAppointments l))
  /\ (forall apt,
        In apt (DoctorDashboard.confirmedAppointments l) ->
        ~ In apt (DoctorDashboard.otherAppointments l))
  /\ (forall client doctorId d,
        StronglySorted date_time_le l ->
        StronglySorted date_time_le
          (fst (DoctorDashboard.fetchAppointments client doctorId d l))).
Proof.
  split; [|split; [|split; [|split]]].
  - induction l as [|x l IH]; simpl; [constructor|].
    destruct (Appointments.status x); simpl;
      try (now constructor);
      try (now apply Permutation_cons_app);
      rewrite app_assoc; apply Permutation_cons_app; now rewrite <- app_assoc.
  - intro Hs. repeat split; now apply filter_sorted.
  - intros apt H. split; intro Hc;
      apply filter_In in H as [_ H]; apply filter_In in Hc as [_ Hc];
      destruct (Appointments.status apt); discriminate.
  - intros apt H Hc. apply filter_In in H as [_ H]. apply filter_In in Hc as [_ Hc].
    destruct (Appointments.status apt); discriminate.
  - intros client doctorId d Hs. unfold DoctorDashboard.fetchAppointments.
    destruct doctorId as [k|]; [|assumption].
    destruct (select_appointments client _ d); simpl; [|assumption].
    apply order_by_date_time_sorted.
Qed.

Lemma doctor_sections_witness :
  StronglySorted date_time_le
    (DoctorDashboard.otherAppointments
       (fst (DoctorDashboard.fetchAppointments owner (Some 20%N) rebooked_db [])))
  /\ DoctorDashboard.otherAppointments
       (fst (DoctorDashboard.fetchAppointments owner (Some 20%N) rebooked_db []))
     = [set_cancelled_by (Some patient) (booking 1000%N 1%N cancelled)].
Proof.
  destruct (doctor_sections
              (fst (DoctorDashboard.fetchAppointments owner (Some 20%N) rebooked_db [])))
    as (_ & Hs & _ & _ & _).
  destruct (doctor_sections []) as (_ & _ & _ & _ & Hf).
  split; [|reflexivity].
  apply Hs. apply Hf. constructor.
Defined.

(** ** The doctor behind a profile *)

Lemma NoDup_of_map {A B : Type} (f : A -> B) (l : list A) : NoDup (map f l) -> NoDup l.
Proof.
  induction l as [|x l IH]; simpl; intro H; [constructor|].
  inversion H as [|? ? Hx Hl]; subst. constructor; [|auto].
  intro Hin. apply Hx. now apply in_map.
Qed.

Lemma singleton_of_unique {A : Type} (x : A) (l : list A) :
  NoDup l -> In x l -> (forall y, In y l -> y = x) -> l = [x].
Proof.
  intros Hn Hx Hall. destruct l as [|a [|b l]]; [destruct Hx| |].
  - now rewrite (Hall a (or_introl eq_refl)).
  - exfalso. inversion Hn as [|? ? Ha _]; subst. apply Ha.
    rewrite (Hall a), (Hall b); simpl; auto.
Qed.

Lemma filter_none {A : Type} (p : A -> bool) (l : list A) :
  (forall x, In x l -> p x = false) -> filter p l = [].
Proof.
  induction l as [|x l IH]; simpl; intro H; [reflexivity|].
  rewrite (H x) by auto. auto.
Qed.

Lemma owner_select_doctors (where_ : option (Doctors.row -> bool)) (d : db) :
  select_doctors owner where_ d = Data (filter (matches where_) (doctors d)).
Proof.
  unfold select_doctors. simpl. f_equal. apply filter_ext.
  intro r. apply andb_true_r.
Qed.

Lemma owner_select_departments (where_ : option (Departments.row -> bool)) (d : db) :
  select_departments owner where_ d = Data (filter (matches where_) (departments d)).
Proof.
  unfold select_departments. simpl. f_equal. apply filter_ext.
  intro r. apply andb_true_r.
Qed.

Lemma fetchDoctorId_owner (p : Profiles.row) (k : uuid) (d : db) (doctorId : option uuid) :
  keys_consistent d ->
  (exists x, In x (doctors d) /\ Doctors.profile_id x = Some (Profiles.id p)
             /\ Doctors.id x = k) ->
  DoctorDashboard.fetchDoctorId owner (Some p) d doctorId = Some k.
Proof.
  intros Hk (x & Hx & Hp & <-). unfold DoctorDashboard.fetchDoctorId.
  rewrite owner_select_doctors.
  set (fl := filter _ (doctors d)).
  assert (Hfl : forall y, In y fl <-> In y (doctors d)
                                      /\ Doctors.profile_id y = Some (Profiles.id p)).
  { intro y. unfold fl. rewrite filter_In. simpl. rewrite sql_eq_true.
    split; intros [Hy H]; (split; [assumption|]).
    - destruct H as (v & -> & E). now injection E as <-.
    - eauto. }
  rewrite (singleton_of_unique x fl); [reflexivity| | |].
  - unfold fl. apply NoDup_filter. apply (NoDup_of_map Doctors.id).
    apply distinct_ids_NoDup. apply (keys_doctors d Hk).
  - apply Hfl. auto.
  - intros y Hy. apply Hfl in Hy as [Hy Hpy].
    apply (doctor_of_profile_unique (doctors d) y x (Profiles.id p)); auto.
    apply (keys_doctor_profiles d Hk).
Qed.

(** X17. fetchDoctorId through the API never finds a doctor id: the SELECT
    on doctors ends in the recursion error, there is no data and the
    doctorId of the page stays what it was (null, when the page has just
    been opened), so that the doctor dashboard never asks for its
    appointments. Nor is anything asked without a profile. The query
    itself finds the doctor: where no policy applies, in a reachable
    database, it gives the id of the doctors row linked to the profile,
    and leaves doctorId alone when there is none. *)
Theorem fetchDoctorId_outcome (p : Profiles.row) (d : db) (doctorId : option uuid) :
  reachable d ->
  (forall uid profile,
     DoctorDashboard.fetchDoctorId (api uid) profile d doctorId = doctorId)
  /\ (forall uid profile shown,
        DoctorDashboard.fetchAppointments (api uid)
          (DoctorDashboard.fetchDoctorId (api uid) profile d None) d shown
        = (shown, None))
  /\ (forall client, DoctorDashboard.fetchDoctorId client None d doctorId = doctorId)
  /\ (forall k,
        (exists x, In x (doctors d) /\ Doctors.profile_id x = Some (Profiles.id p)
                   /\ Doctors.id x = k) ->
        DoctorDashboard.fetchDoctorId owner (Some p) d doctorId = Some k)
  /\ ((forall x, In x (doctors d) -> Doctors.profile_id x <> Some (Profiles.id p)) ->
      DoctorDashboard.fetchDoctorId owner (Some p) d doctorId = doctorId).
Proof.
  intro Hd.
  assert (Hapi : forall uid profile doctorId',
             DoctorDashboard.fetchDoctorId (api uid) profile d doctorId' = doctorId').
  { intros uid [q|] doctorId'; [|reflexivity].
    unfold DoctorDashboard.fetchDoctorId. now rewrite api_select_doctors. }
  split; [intros; apply Hapi|]. split; [intros; now rewrite Hapi|].
  split; [reflexivity|]. split.
  - intros k H. apply fetchDoctorId_owner; [|assumption]. now apply reachable_keys.
  - intro Hnone. unfold DoctorDashboard.fetchDoctorId. rewrite owner_select_doctors.
    rewrite (filter_none (matches _) (doctors d)); [reflexivity|].
    intros x Hx. simpl. apply not_true_is_false. intro E.
    apply sql_eq_true in E as (v & Ev & E). injection E as <-. exact (Hnone x Hx Ev).
Qed.

Lemma fetchDoctorId_outcome_witness :
  DoctorDashboard.fetchDoctorId (api (Some 2%N))
    (Some (Profiles.mk 2%N "Doc" None doctor (Some true) (Some 12%Z))) sample_db None = None
  /\ DoctorDashboard.fetchDoctorId owner
       (Some (Profiles.mk 2%N "Doc" None doctor (Some true) (Some 12%Z))) sample_db None
     = Some 20%N.
Proof.
  destruct (fetchDoctorId_outcome (Profiles.mk 2%N "Doc" None doctor (Some true) (Some 12%Z))
              sample_db None sample_db_reachable) as (Ha & _ & _ & Ho & _).
  split; [apply Ha|].
  apply Ho.
  exists (Doctors.mk 20%N (Some 2%N) (Some 101%N) (Some "Cardiology") None (Some 7%Z) None
            (Some 14%Z)).
  repeat split. simpl. auto.
Defined.

(** ** Navigation *)

(** X18. The navigation bar and the landing page send every profile to
    the same dashboard: admins to the admin dashboard, doctors to the
    doctor dashboard, patients to the patient dashboard, the only one for
    which "Find Doctors" is shown. Without a profile the two differ: the
    navigation bar links to the start page, the landing page to the
    patient dashboard. *)
Theorem dashboard_links_agree :
  (forall p, Navbar.getDashboardLink (Some p) = Landing.dashboard_link (Some p))
  /\ (forall p, Navbar.find_doctors p = true
                <-> Navbar.getDashboardLink (Some p) = "/patient/dashboard")
  /\ (forall p, Profiles.role p = admin
                <-> Navbar.getDashboardLink (Some p) = "/admin/dashboard")
  /\ (forall p, Profiles.role p = doctor
                <-> Navbar.getDashboardLink (Some p) = "/doctor/dashboard")
  /\ Navbar.getDashboardLink None = "/"
  /\ Landing.dashboard_link None = "/patient/dashboard".
Proof.
  unfold Navbar.getDashboardLink, Landing.dashboard_link, Navbar.find_doctors.
  split; [intro p; simpl; now destruct (Profiles.role p)|].
  repeat (split; [intro p; destruct (Profiles.role p); simpl;
                  split; intro H; try reflexivity; discriminate H|]).
  split; reflexivity.
Qed.

(** ** The listings of departments and doctors *)

Lemma filter_true {A : Type} (p : A -> bool) (l : list A) :
  (forall x, p x = true) -> filter p l = l.
Proof.
  intro H. induction l as [|x l IH]; simpl; [reflexivity|].
  now rewrite H, IH.
Qed.

(** X19. Through the API the landing page and the doctors page list
    nothing, for a visitor as for a signed-in user: the SELECTs on
    departments and doctors end in the recursion error, there is no data
    and the pages keep the lists they had (the empty ones, when they have
    just been opened). The queries themselves: where no policy applies,
    the landing page gets at most six departments, all of them when there
    are no more than six (as right after the migration); the doctors
    page gets every department and every doctor, or with a department
    selected exactly the doctors of that department. *)
Theorem page_listings (d : db) :
  (forall uid departments0 doctors0 selectedDept,
     Landing.fetchDepartments (api uid) d departments0 = departments0
     /\ DoctorsPage.fetchDepartments (api uid) d departments0 = departments0
     /\ DoctorsPage.fetchDoctors (api uid) selectedDept d doctors0 = doctors0)
  /\ (forall departments0 doctors0,
        Landing.fetchDepartments owner d departments0 = firstn 6 (departments d)
        /\ List.length (Landing.fetchDepartments owner d departments0) <= 6
        /\ (List.length (departments d) <= 6 ->
            Landing.fetchDepartments owner d departments0 = departments d)
        /\ (forall ids now, List.length ids = 6 ->
              map Departments.name
                  (Landing.fetchDepartments owner (migration ids now) departments0)
              = map fst sample_departments)
        /\ DoctorsPage.fetchDepartments owner d departments0 = departments d
        /\ DoctorsPage.fetchDoctors owner None d doctors0 = doctors d
        /\ (forall k x, In x (DoctorsPage.fetchDoctors owner (Some k) d doctors0)
                        <-> In x (doctors d) /\ Doctors.department_id x = Some k)).
Proof.
  split.
  - intros uid departments0 doctors0 selectedDept.
    unfold Landing.fetchDepartments, DoctorsPage.fetchDepartments, DoctorsPage.fetchDoctors.
    now rewrite api_select_departments, api_select_doctors.
  - intros departments0 doctors0.
    unfold Landing.fetchDepartments, DoctorsPage.fetchDepartments, DoctorsPage.fetchDoctors.
    rewrite !owner_select_departments, !owner_select_doctors.
    rewrite (filter_true (matches None)) by reflexivity.
    rewrite (filter_true (matches None)) by reflexivity.
    split; [reflexivity|]. split; [apply firstn_le_length|].
    split; [intro H; now apply firstn_all2|].
    split.
    { intros ids now H. rewrite owner_select_departments.
      rewrite (filter_true (matches None)) by reflexivity.
      destruct ids as [|i1 [|i2 [|i3 [|i4 [|i5 [|i6 [|i7 ids]]]]]]]; try discriminate H.
      reflexivity. }
    split; [reflexivity|]. split; [reflexivity|].
    intros k x. rewrite owner_select_doctors. rewrite filter_In. simpl.
    rewrite sql_eq_true.
    split; intros [Hx H]; (split; [assumption|]).
    + destruct H as (v & -> & E). now injection E as <-.
    + eauto.
Qed.

Lemma page_listings_witness :
  Landing.fetchDepartments (api None) sample_db [] = []
  /\ map Departments.name (Landing.fetchDepartments owner sample_db [])
     = map fst sample_departments.
Proof.
  destruct (page_listings sample_db) as [Ha Ho].
  destruct (Ha None [] [] None) as (H1 & _).
  destruct (Ho [] []) as (_ & _ & H3 & _).
  split; [exact H1|].
  rewrite H3; [reflexivity|]. simpl. lia.
Defined.


(** ** Cascades *)

Lemma refers_to_kept {A : Type} (id : A -> uuid) (gone : A -> bool) (l : list A)
    (k : uuid) :
  distinct_ids (map id l) = true ->
  (refers_to id (filter gone l) (Some k) = false
   <-> (has_id id k l = true -> has_id id k (filter (fun x => negb (gone x)) l) = true)).
Proof.
  intro Hk. simpl. unfold has_id. split.
  - intros Hdead Hin. apply existsb_exists in Hin as (x & Hx & E).
    apply existsb_exists. exists x. split; [|assumption].
    apply filter_In. split; [assumption|].
    destruct (gone x) eqn:G; [|reflexivity].
    assert (existsb (fun y => N.eqb (id y) k) (filter gone l) = true).
    { apply existsb_exists. exists x. split; [|assumption]. apply filter_In. auto. }
    congruence.
  - intro H. apply not_true_is_false. intro E.
    apply existsb_exists in E as (x & Hx & Ex). apply filter_In in Hx as [Hx Gx].
    assert (Hin : existsb (fun y => N.eqb (id y) k) l = true).
    { apply existsb_exists. eauto. }
    apply H in Hin. apply existsb_exists in Hin as (y & Hy & Ey).
    apply filter_In in Hy as [Hy Gy].
    apply N.eqb_eq in Ex, Ey.
    assert (x = y) by (apply (unique_by_id id l); congruence).
    subst y. rewrite Gx in Gy. discriminate Gy.
Qed.

(** X22. Deleting doctors takes along exactly what hangs on them: in a
    reachable database, after a DELETE on doctors by the owner of the
    tables an appointment (and likewise an availability) is still there
    if and only if it was there before and its doctor_id is NULL or names
    a doctor that is still there; departments and profiles are
    untouched. Through the API no doctor is deleted and nothing
    cascades: the DELETE ends in the recursion error. *)
Theorem delete_doctors_cascade (where_ : option (Doctors.row -> bool)) (d : db) :
  reachable d ->
  (forall a,
     In a (appointments (after d (delete_doctors owner where_ d)))
     <-> In a (appointments d)
         /\ references Doctors.id (doctors (after d (delete_doctors owner where_ d)))
              (Appointments.doctor_id a) = true)
  /\ (forall a,
        In a (doctor_availabilities (after d (delete_doctors owner where_ d)))
        <-> In a (doctor_availabilities d)
            /\ references Doctors.id (doctors (after d (delete_doctors owner where_ d)))
                 (Availabilities.doctor_id a) = true)
  /\ departments (after d (delete_doctors owner where_ d)) = departments d
  /\ profiles (after d (delete_doctors owner where_ d)) = profiles d
  /\ (forall uid, delete_doctors (api uid) where_ d = Err recursion).
Proof.
  intro Hd.
  pose proof (keys_doctors d (reachable_keys d Hd)) as Hk.
  destruct (reachable_references d Hd) as [_ _ R3 _ R5 _].
  rewrite forallb_forall in R3, R5.
  split; [|split; [|split; [|split]]]; try reflexivity.
  - unfold delete_doctors, remove_doctors. rewrite policy_error_owner. simpl.
    intro a. rewrite filter_In, negb_true_iff. split; intros [Ha H]; (split; [assumption|]).
    + specialize (R5 a Ha). destruct (Appointments.doctor_id a) as [k|]; [|reflexivity].
      simpl in R5 |- *. now apply (refers_to_kept Doctors.id _ (doctors d) k Hk).
    + destruct (Appointments.doctor_id a) as [k|]; [|reflexivity].
      apply (refers_to_kept Doctors.id _ (doctors d) k Hk). intros _. exact H.
  - unfold delete_doctors, remove_doctors. rewrite policy_error_owner. simpl.
    intro a. rewrite filter_In, negb_true_iff. split; intros [Ha H]; (split; [assumption|]).
    + specialize (R3 a Ha). destruct (Availabilities.doctor_id a) as [k|]; [|reflexivity].
      simpl in R3 |- *. now apply (refers_to_kept Doctors.id _ (doctors d) k Hk).
    + destruct (Availabilities.doctor_id a) as [k|]; [|reflexivity].
      apply (refers_to_kept Doctors.id _ (doctors d) k Hk). intros _. exact H.
  - intro uid. destruct where_; reflexivity.
Qed.

Lemma delete_doctors_cascade_witness :
  ~ In (booking 1000%N 1%N pending)
       (appointments
          (after booked_db
             (delete_doctors owner (Some (fun x => N.eqb (Doctors.id x) 20%N)) booked_db)))
  /\ In (booking 1000%N 1%N pending)
        (appointments
           (after booked_db
              (delete_doctors (api (Some 3%N)) (Some (fun x => N.eqb (Doctors.id x) 20%N))
                 booked_db))).
Proof.
  destruct (delete_doctors_cascade (Some (fun x => N.eqb (Doctors.id x) 20%N)) booked_db
              booked_db_reachable) as (H & _ & _ & _ & Hapi).
  split.
  - intro Hin. apply H in Hin as [_ Href]. discriminate Href.
  - rewrite (Hapi (Some 3%N)). simpl. auto.
Defined.

(** X23. A department that an appointment refers to cannot be deleted: a
    DELETE that names it fails on the foreign key, also where no policy
    applies. A DELETE on departments that succeeds leaves appointments,
    profiles and availabilities alone and keeps every doctor; the doctors
    of a deleted department are then found under no department. Through
    the API the DELETE ends in the recursion error. *)
Theorem delete_departments_effect (where_ : option (Departments.row -> bool)) (d : db) :
  (forall r a,
     In r (departments d) -> matches where_ r = true ->
     In a (appointments d) -> Appointments.department_id a = Some (Departments.id r) ->
     delete_departments owner where_ d
     = Err (foreign_key_violation "appointments_department_id_fkey"))
  /\ (forall c d',
        delete_departments c where_ d = Ok d' ->
        appointments d' = appointments d
        /\ profiles d' = profiles d
        /\ doctor_availabilities d' = doctor_availabilities d
        /\ map Doctors.id (doctors d') = map Doctors.id (doctors d)
        /\ (forall r doctors0,
              In r (departments d) -> ~ In r (departments d') ->
              DoctorsPage.fetchDoctors owner (Some (Departments.id r)) d' doctors0 = []))
  /\ (forall uid, delete_departments (api uid) where_ d = Err recursion).
Proof.
  split; [|split].
  - intros r a Hr Hw Hin Hdep. unfold delete_departments. rewrite policy_error_owner.
    cbv zeta.
    match goal with
    | |- context [existsb ?f (appointments d)] =>
        assert (E : existsb f (appointments d) = true); [|now rewrite E]
    end.
    apply existsb_exists. exists a. split; [assumption|]. rewrite Hdep. simpl.
    apply existsb_exists. exists r. split; [|apply N.eqb_refl].
    apply filter_In. split; [assumption|].
    rewrite Hw. unfold visible. now destruct (has_where where_).
  - intros c d' H. unfold delete_departments in H.
    set (gone := fun r0 : Departments.row =>
                   matches where_ r0
                   && visible c (has_where where_) (departments_select d) r0
                   && permits c (departments_write d) r0) in H.
    cbv zeta in H. split_ifs H. injection H as <-. simpl.
    repeat (split; [reflexivity|]). split; [apply set_department_null_ids|].
    intros r doctors0 Hr Hgone. unfold DoctorsPage.fetchDoctors.
    rewrite owner_select_doctors. simpl.
    apply filter_none. intros x' Hx'.
    apply in_map_iff in Hx' as (x & <- & Hx). simpl.
    assert (Hdead : In r (filter gone (departments d))).
    { apply filter_In. split; [assumption|].
      destruct (gone r) eqn:G; [reflexivity|].
      exfalso. apply Hgone. apply filter_In. split; [assumption|].
      change (negb (gone r) = true). now rewrite G. }
    unfold set_department_null.
    destruct (refers_to Departments.id (filter gone (departments d))
                (Doctors.department_id x)) eqn:Er; [reflexivity|].
    destruct (Doctors.department_id x) as [k|]; [|reflexivity]. simpl.
    destruct (N.eqb k (Departments.id r)) eqn:Ek; [|reflexivity].
    apply N.eqb_eq in Ek. subst k. simpl in Er.
    assert (has_id Departments.id (Departments.id r) (filter gone (departments d)) = true).
    { apply existsb_exists. exists r. split; [assumption|apply N.eqb_refl]. }
    unfold has_id in *. congruence.
  - intro uid. destruct where_; reflexivity.
Qed.

Lemma delete_departments_effect_witness :
  delete_departments owner (Some (fun r => N.eqb (Departments.id r) 101%N)) booked_db
  = Err (foreign_key_violation "appointments_department_id_fkey").
Proof.
  destruct (delete_departments_effect (Some (fun r => N.eqb (Departments.id r) 101%N))
              booked_db) as [H _].
  apply (H (Departments.mk 101%N "Cardiology" (Some "Heart and cardiovascular system care")
              (Some 0%Z))
           (booking 1000%N 1%N pending)).
  - simpl; auto.
  - reflexivity.
  - simpl; auto.
  - reflexivity.
Defined.

